(** * Connection-tuple extraction and Kafka batching of the network tracer

    A shallow embedding of

    - [pkg/network/ebpf/c/co-re/sock.h]  (tuple extraction), and
    - [pkg/network/ebpf/c/kafka/kafka.h] (admission, dedup, state store,
      per-CPU batching and flushing),

    together with the properties the design document states about them.

    Conventions.  C integers are [Z] with the wrap-around written where an
    operation can leave the range of its type.  A C function that writes
    through a pointer argument returns the final contents of the pointee
    next to its return value.  eBPF maps are [gmap]s; a lookup that would
    return [NULL] is [None]. *)

From Stdlib Require Import ZArith Lia Bool Ascii String.
From stdpp Require Import base decidable countable gmap list.

Local Open Scope Z_scope.

(** ** Fixed-width integers *)

Module Int.

Definition u32 (x : Z) : Z := x mod 2 ^ 32.
Definition u64 (x : Z) : Z := x mod 2 ^ 64.

Definition is_u16 (x : Z) : Prop := 0 <= x < 2 ^ 16.
Definition is_u32 (x : Z) : Prop := 0 <= x < 2 ^ 32.

(** The C truth value of an integer expression. *)
Definition truthy (x : Z) : bool := negb (x =? 0).

(** A 32-bit store through the field's address cast to a [u32] pointer:
    it lands in the low half of the 64-bit field (little-endian layout,
    as on the x86 and arm64 targets of [bpf_tracing.h]). *)
Definition set_lo32 (x w : Z) : Z :=
  Z.lor (Z.land x 0xFFFFFFFF00000000) (u32 w).

(** The same store one [u32] further: the high half of the field. *)
Definition set_hi32 (x w : Z) : Z :=
  Z.lor (Z.land x 0xFFFFFFFF) (Z.shiftl (u32 w) 32).

(** Modelled from the spec: [bpf_ntohs] / [ntohs] are not part of the
    sources at hand; "convert from network to host byte order" on a
    little-endian target is the swap of the two bytes of a 16-bit value. *)
Definition bpf_ntohs (x : Z) : Z :=
  Z.lor (Z.shiftl (Z.land x 0xFF) 8) (Z.land (Z.shiftr x 8) 0xFF).

(** A flag (a bit mask) is set in a metadata word. *)
Definition has_flag (flag m : Z) : Prop := Z.land m flag = flag.

End Int.

(** ** [conn_tuple_t] and the kernel objects read by the extractor *)

Module Tracer.

(** [conn_tuple_t], with the fields the two headers use. *)
Record conn_tuple_t := ConnTuple {
  saddr_h : Z;   (* u64 *)
  saddr_l : Z;   (* u64 *)
  daddr_h : Z;   (* u64 *)
  daddr_l : Z;   (* u64 *)
  sport : Z;     (* u16 *)
  dport : Z;     (* u16 *)
  netns : Z;     (* u32 *)
  pid : Z;       (* u32 *)
  metadata : Z   (* u32 *)
}.

(** [__bpf_memset_builtin(t, 0, sizeof(conn_tuple_t))] *)
Definition zero_tuple : conn_tuple_t := ConnTuple 0 0 0 0 0 0 0 0 0.

Definition set_saddr_h (v : Z) (t : conn_tuple_t) : conn_tuple_t :=
  ConnTuple v (saddr_l t) (daddr_h t) (daddr_l t) (sport t) (dport t) (netns t) (pid t) (metadata t).
Definition set_saddr_l (v : Z) (t : conn_tuple_t) : conn_tuple_t :=
  ConnTuple (saddr_h t) v (daddr_h t) (daddr_l t) (sport t) (dport t) (netns t) (pid t) (metadata t).
Definition set_daddr_h (v : Z) (t : conn_tuple_t) : conn_tuple_t :=
  ConnTuple (saddr_h t) (saddr_l t) v (daddr_l t) (sport t) (dport t) (netns t) (pid t) (metadata t).
Definition set_daddr_l (v : Z) (t : conn_tuple_t) : conn_tuple_t :=
  ConnTuple (saddr_h t) (saddr_l t) (daddr_h t) v (sport t) (dport t) (netns t) (pid t) (metadata t).
Definition set_sport (v : Z) (t : conn_tuple_t) : conn_tuple_t :=
  ConnTuple (saddr_h t) (saddr_l t) (daddr_h t) (daddr_l t) v (dport t) (netns t) (pid t) (metadata t).
Definition set_dport (v : Z) (t : conn_tuple_t) : conn_tuple_t :=
  ConnTuple (saddr_h t) (saddr_l t) (daddr_h t) (daddr_l t) (sport t) v (netns t) (pid t) (metadata t).
Definition set_netns (v : Z) (t : conn_tuple_t) : conn_tuple_t :=
  ConnTuple (saddr_h t) (saddr_l t) (daddr_h t) (daddr_l t) (sport t) (dport t) v (pid t) (metadata t).
Definition set_pid (v : Z) (t : conn_tuple_t) : conn_tuple_t :=
  ConnTuple (saddr_h t) (saddr_l t) (daddr_h t) (daddr_l t) (sport t) (dport t) (netns t) v (metadata t).
Definition set_metadata (v : Z) (t : conn_tuple_t) : conn_tuple_t :=
  ConnTuple (saddr_h t) (saddr_l t) (daddr_h t) (daddr_l t) (sport t) (dport t) (netns t) (pid t) v.

#[global] Instance conn_tuple_eq_dec : EqDecision conn_tuple_t.
Proof. solve_decision. Defined.

Definition tuple_to_prod (t : conn_tuple_t) : Z * Z * Z * Z * Z * Z * Z * Z * Z :=
  (saddr_h t, saddr_l t, daddr_h t, daddr_l t, sport t, dport t, netns t, pid t, metadata t).

Definition tuple_of_prod (p : Z * Z * Z * Z * Z * Z * Z * Z * Z) : conn_tuple_t :=
  let '(a, b, c, d, e, f, g, h, i) := p in ConnTuple a b c d e f g h i.

#[global] Instance conn_tuple_countable : Countable conn_tuple_t.
Proof.
  apply (inj_countable' tuple_to_prod tuple_of_prod).
  intros []; reflexivity.
Defined.

(** [struct in6_addr], as its four 32-bit words [s6_addr32[0..3]]. *)
Record in6_addr := In6Addr {
  s6_addr32_0 : Z;
  s6_addr32_1 : Z;
  s6_addr32_2 : Z;
  s6_addr32_3 : Z
}.

(** The fields of [struct sock] / [struct inet_sock] that [sock.h] reads. *)
Record sock := Sock {
  sk_family : Z;              (* unsigned short *)
  sk_net_ns_inum : Z;         (* sk_net.net->ns.inum, u32 *)
  sk_num : Z;                 (* u16, host byte order *)
  inet_sport : Z;             (* __be16 *)
  sk_dport : Z;               (* __be16 *)
  sk_rcv_saddr : Z;           (* __be32 *)
  inet_saddr : Z;             (* __be32 *)
  sk_daddr : Z;               (* __be32 *)
  sk_v6_rcv_saddr : in6_addr;
  sk_v6_daddr : in6_addr
}.

(** The fields of [struct flowi4] that [sock.h] reads. *)
Record flowi4 := Flowi4 {
  fl4_saddr : Z;  (* __be32 *)
  fl4_daddr : Z;  (* __be32 *)
  fl4_sport : Z;  (* __be16 *)
  fl4_dport : Z   (* __be16 *)
}.

(** The fields of [struct flowi6] that [sock.h] reads. *)
Record flowi6 := Flowi6 {
  fl6_saddr : in6_addr;
  fl6_daddr : in6_addr;
  fl6_sport : Z;  (* __be16 *)
  fl6_dport : Z   (* __be16 *)
}.

Definition wf_in6 (a : in6_addr) : Prop :=
  Int.is_u32 (s6_addr32_0 a) /\ Int.is_u32 (s6_addr32_1 a) /\
  Int.is_u32 (s6_addr32_2 a) /\ Int.is_u32 (s6_addr32_3 a).

(** Every field of a kernel object lies in the range of its C type. *)
Definition wf_sock (sk : sock) : Prop :=
  Int.is_u16 (sk_family sk) /\ Int.is_u32 (sk_net_ns_inum sk) /\
  Int.is_u16 (sk_num sk) /\ Int.is_u16 (inet_sport sk) /\ Int.is_u16 (sk_dport sk) /\
  Int.is_u32 (sk_rcv_saddr sk) /\ Int.is_u32 (inet_saddr sk) /\ Int.is_u32 (sk_daddr sk) /\
  wf_in6 (sk_v6_rcv_saddr sk) /\ wf_in6 (sk_v6_daddr sk).

Definition wf_flowi4 (fl : flowi4) : Prop :=
  Int.is_u32 (fl4_saddr fl) /\ Int.is_u32 (fl4_daddr fl) /\
  Int.is_u16 (fl4_sport fl) /\ Int.is_u16 (fl4_dport fl).

Definition wf_flowi6 (fl : flowi6) : Prop :=
  wf_in6 (fl6_saddr fl) /\ wf_in6 (fl6_daddr fl) /\
  Int.is_u16 (fl6_sport fl) /\ Int.is_u16 (fl6_dport fl).

Definition in6_is_zero (a : in6_addr) : Prop :=
  s6_addr32_0 a = 0 /\ s6_addr32_1 a = 0 /\ s6_addr32_2 a = 0 /\ s6_addr32_3 a = 0.

(** What the headers that are not at hand declare ([tracer.h], [defs.h],
    [ipv6.h], [kafka-types.h], the kernel's TCP header flags) and what the
    loader resolves before the programs run.  The code below is
    parametric in them. *)
Class Headers := {
  (* metadata_mask_t *)
  CONN_TYPE_TCP : Z;
  CONN_V4 : Z;
  CONN_V6 : Z;
  (* the recogniser of IPv4-mapped IPv6 address pairs, on
     (saddr_h, saddr_l, daddr_h, daddr_l) *)
  is_ipv4_mapped_ipv6 : Z -> Z -> Z -> Z -> bool;
  (* LOAD_CONSTANT *)
  ENABLED : Z;
  ipv6_enabled_const : Z;
  (* TCP control flags *)
  TCPHDR_FIN : Z;
  TCPHDR_RST : Z;
  (* batching *)
  KAFKA_BATCH_SIZE : Z;
  KAFKA_BATCH_PAGES : Z;
  (* max_entries of the two hash maps *)
  kafka_in_flight_max_entries : nat;
  kafka_last_tcp_seq_max_entries : nat
}.

End Tracer.

(** ** Tuple extraction: [co-re/sock.h] *)

Module Sock.
Import Int Tracer.

(* source include/linux/socket.h *)
Definition __AF_INET : Z := 2.
Definition __AF_INET6 : Z := 10.

(** Modelled from the spec: [read_in6_addr] is declared in a header that is
    not at hand.  The route-descriptor entry point "performs the same
    resolution" as the connection path, so the helper fills the
    (high, low) pair of 64-bit words with the four address words in the
    layout the connection path builds with its 32-bit stores. *)
Definition read_in6_addr (a : in6_addr) : Z * Z :=
  (set_hi32 (set_lo32 0 (s6_addr32_0 a)) (s6_addr32_1 a),
   set_hi32 (set_lo32 0 (s6_addr32_2 a)) (s6_addr32_3 a)).

(** The IPv4 address inside a canonicalised low word:
    [(__u32)(addr_l >> 32)]. *)
Definition embedded_ipv4 (addr_l : Z) : Z := u32 (Z.shiftr addr_l 32).

Section Extractor.

Context `{hd : Headers}.

Definition is_ipv6_enabled : bool :=
  let val := ipv6_enabled_const in
  val =? ENABLED.

Definition get_netns_from_sock (sk : sock) : Z := sk_net_ns_inum sk.

Definition read_sport (sk : sock) : Z :=
  (* try skc_num, then inet_sport *)
  let sport := sk_num sk in
  if sport =? 0 then bpf_ntohs (inet_sport sk) else sport.

Definition check_family (sk : sock) (expected_family : Z) : bool :=
  sk_family sk =? expected_family.

(** Lines 62-70: the IPv4 address reads with their fallback chain. *)
Definition read_v4_addrs (t : conn_tuple_t) (skp : sock) : conn_tuple_t :=
  let t := if saddr_l t =? 0 then set_saddr_l (sk_rcv_saddr skp) t else t in
  let t := if saddr_l t =? 0 then set_saddr_l (inet_saddr skp) t else t in
  let t := if daddr_l t =? 0 then set_daddr_l (sk_daddr skp) t else t in
  t.

(** Lines 81-92: the IPv6 address reads, four 32-bit stores per address. *)
Definition read_v6_addrs (t : conn_tuple_t) (skp : sock) : conn_tuple_t :=
  let t :=
    if negb (truthy (saddr_h t) || truthy (saddr_l t)) then
      let t := set_saddr_h (set_lo32 (saddr_h t) (s6_addr32_0 (sk_v6_rcv_saddr skp))) t in
      let t := set_saddr_h (set_hi32 (saddr_h t) (s6_addr32_1 (sk_v6_rcv_saddr skp))) t in
      let t := set_saddr_l (set_lo32 (saddr_l t) (s6_addr32_2 (sk_v6_rcv_saddr skp))) t in
      let t := set_saddr_l (set_hi32 (saddr_l t) (s6_addr32_3 (sk_v6_rcv_saddr skp))) t in
      t
    else t in
  let t :=
    if negb (truthy (daddr_h t) || truthy (daddr_l t)) then
      let t := set_daddr_h (set_lo32 (daddr_h t) (s6_addr32_0 (sk_v6_daddr skp))) t in
      let t := set_daddr_h (set_hi32 (daddr_h t) (s6_addr32_1 (sk_v6_daddr skp))) t in
      let t := set_daddr_l (set_lo32 (daddr_l t) (s6_addr32_2 (sk_v6_daddr skp))) t in
      let t := set_daddr_l (set_hi32 (daddr_l t) (s6_addr32_3 (sk_v6_daddr skp))) t in
      t
    else t in
  t.

(** Lines 109-117 and 195-203: map IPv6 to IPv4 when the pair is
    recognised, else flag the tuple V6. *)
Definition map_v6_to_v4 (t : conn_tuple_t) : conn_tuple_t :=
  if is_ipv4_mapped_ipv6 (saddr_h t) (saddr_l t) (daddr_h t) (daddr_l t) then
    let t := set_metadata (Z.lor (metadata t) CONN_V4) t in
    let t := set_saddr_h 0 t in
    let t := set_daddr_h 0 t in
    let t := set_saddr_l (u32 (Z.shiftr (saddr_l t) 32)) t in
    let t := set_daddr_l (u32 (Z.shiftr (daddr_l t) 32)) t in
    t
  else
    set_metadata (Z.lor (metadata t) CONN_V6) t.

(** Lines 122-135: the port reads and the final verdict. *)
Definition read_ports (t : conn_tuple_t) (skp : sock) : Z * conn_tuple_t :=
  let t := if sport t =? 0 then set_sport (read_sport skp) t else t in
  let t := if dport t =? 0 then set_dport (bpf_ntohs (sk_dport skp)) t else t in
  if (sport t =? 0) || (dport t =? 0) then (0, t)
  else (1, t).

(** Reads values into a [conn_tuple_t] from a [sock].  Returns the return
    value of the C function (1 success, 0 otherwise) and the contents of
    [*t] when it returns. *)
Definition read_conn_tuple_partial
    (t : conn_tuple_t) (skp : sock) (pid_tgid type : Z) : Z * conn_tuple_t :=
  let t := set_pid (u32 (Z.shiftr pid_tgid 32)) t in
  let t := set_metadata type t in
  (* Retrieve network namespace id first *)
  let t := set_netns (get_netns_from_sock skp) t in
  (* Retrieve addresses *)
  if check_family skp __AF_INET then
    let t := set_metadata (Z.lor (metadata t) CONN_V4) t in
    let t := read_v4_addrs t skp in
    if negb (truthy (saddr_l t)) || negb (truthy (daddr_l t)) then (0, t)
    else read_ports t skp
  else if check_family skp __AF_INET6 then
    if negb is_ipv6_enabled then (0, t)
    else
      let t := read_v6_addrs t skp in
      if negb (truthy (saddr_h t) || truthy (saddr_l t)) then (0, t)
      else if negb (truthy (daddr_h t) || truthy (daddr_l t)) then (0, t)
      else
        (* Check if we can map IPv6 to IPv4 *)
        let t := map_v6_to_v4 t in
        read_ports t skp
  else (0, t).

(** Reads values into a [conn_tuple_t] from a [sock], all values
    initialised to 0 first. *)
Definition read_conn_tuple
    (skp : sock) (pid_tgid type : Z) : Z * conn_tuple_t :=
  read_conn_tuple_partial zero_tuple skp pid_tgid type.

Definition read_conn_tuple_partial_from_flowi4
    (t : conn_tuple_t) (fl4 : flowi4) (pid_tgid type : Z) : Z * conn_tuple_t :=
  let t := set_pid (u32 (Z.shiftr pid_tgid 32)) t in
  let t := set_metadata type t in
  let t := set_saddr_l (fl4_saddr fl4) t in
  let t := set_daddr_l (fl4_daddr fl4) t in
  if negb (truthy (saddr_l t)) || negb (truthy (daddr_l t)) then (0, t)
  else
    let t := set_sport (fl4_sport fl4) t in
    let t := set_dport (fl4_dport fl4) t in
    if (sport t =? 0) || (dport t =? 0) then (0, t)
    else
      let t := set_sport (bpf_ntohs (sport t)) t in
      let t := set_dport (bpf_ntohs (dport t)) t in
      (1, t).

Definition read_conn_tuple_partial_from_flowi6
    (t : conn_tuple_t) (fl6 : flowi6) (pid_tgid type : Z) : Z * conn_tuple_t :=
  let t := set_pid (u32 (Z.shiftr pid_tgid 32)) t in
  let t := set_metadata type t in
  let addr := fl6_saddr fl6 in
  let t := set_saddr_l (snd (read_in6_addr addr)) (set_saddr_h (fst (read_in6_addr addr)) t) in
  let addr := fl6_daddr fl6 in
  let t := set_daddr_l (snd (read_in6_addr addr)) (set_daddr_h (fst (read_in6_addr addr)) t) in
  if negb (truthy (saddr_h t) || truthy (saddr_l t)) then (0, t)
  else if negb (truthy (daddr_h t) || truthy (daddr_l t)) then (0, t)
  else
    (* Check if we can map IPv6 to IPv4 *)
    let t := map_v6_to_v4 t in
    let t := set_sport (fl6_sport fl6) t in
    let t := set_dport (fl6_dport fl6) t in
    if (sport t =? 0) || (dport t =? 0) then (0, t)
    else
      let t := set_sport (bpf_ntohs (sport t)) t in
      let t := set_dport (bpf_ntohs (dport t)) t in
      (1, t).

(** *** The vocabulary of the statements *)

(** The source/destination pair that the IPv6 branch hands to the
    recogniser: the addresses held by the tuple after the address reads. *)
Definition sock_pair_mapped (t : conn_tuple_t) (skp : sock) : bool :=
  let r := read_v6_addrs t skp in
  is_ipv4_mapped_ipv6 (saddr_h r) (saddr_l r) (daddr_h r) (daddr_l r).

Definition flowi6_pair_mapped (fl6 : flowi6) : bool :=
  is_ipv4_mapped_ipv6 (fst (read_in6_addr (fl6_saddr fl6))) (snd (read_in6_addr (fl6_saddr fl6)))
                      (fst (read_in6_addr (fl6_daddr fl6))) (snd (read_in6_addr (fl6_daddr fl6))).

(** A 128-bit address of a tuple is set. *)
Definition addr_set (h l : Z) : Prop := h <> 0 \/ l <> 0.





Definition flowi4_resolved (fl4 : flowi4) : Prop :=
  fl4_saddr fl4 <> 0 /\ fl4_daddr fl4 <> 0 /\ fl4_sport fl4 <> 0 /\ fl4_dport fl4 <> 0.

Definition flowi6_resolved (fl6 : flowi6) : Prop :=
  ~ in6_is_zero (fl6_saddr fl6) /\ ~ in6_is_zero (fl6_daddr fl6) /\
  fl6_sport fl6 <> 0 /\ fl6_dport fl6 <> 0.

(** A required field is still zero after every fallback: neither the tuple
    on entry nor any of the fields the chain tries holds a value. *)
Definition saddr4_unset (t : conn_tuple_t) (skp : sock) : Prop :=
  saddr_l t = 0 /\ sk_rcv_saddr skp = 0 /\ inet_saddr skp = 0.
Definition daddr4_unset (t : conn_tuple_t) (skp : sock) : Prop :=
  daddr_l t = 0 /\ sk_daddr skp = 0.
Definition saddr6_unset (t : conn_tuple_t) (skp : sock) : Prop :=
  saddr_h t = 0 /\ saddr_l t = 0 /\ in6_is_zero (sk_v6_rcv_saddr skp).
Definition daddr6_unset (t : conn_tuple_t) (skp : sock) : Prop :=
  daddr_h t = 0 /\ daddr_l t = 0 /\ in6_is_zero (sk_v6_daddr skp).
Definition sport_unset (t : conn_tuple_t) (skp : sock) : Prop :=
  sport t = 0 /\ sk_num skp = 0 /\ inet_sport skp = 0.
Definition dport_unset (t : conn_tuple_t) (skp : sock) : Prop :=
  dport t = 0 /\ sk_dport skp = 0.

Definition unknown_family (skp : sock) : Prop :=
  sk_family skp <> __AF_INET /\ sk_family skp <> __AF_INET6.

Definition ipv6_while_disabled (skp : sock) : Prop :=
  sk_family skp = __AF_INET6 /\ is_ipv6_enabled = false.

Definition incomplete (t : conn_tuple_t) (skp : sock) : Prop :=
  (sk_family skp = __AF_INET /\
   (saddr4_unset t skp \/ daddr4_unset t skp \/ sport_unset t skp \/ dport_unset t skp)) \/
  (sk_family skp = __AF_INET6 /\
   (saddr6_unset t skp \/ daddr6_unset t skp \/ sport_unset t skp \/ dport_unset t skp)).



(** The address and port fields of two tuples agree. *)
Definition same_endpoints (t t' : conn_tuple_t) : Prop :=
  saddr_h t' = saddr_h t /\ saddr_l t' = saddr_l t /\
  daddr_h t' = daddr_h t /\ daddr_l t' = daddr_l t /\
  sport t' = sport t /\ dport t' = dport t.

End Extractor.

End Sock.

(** ** eBPF hash maps *)

Module Bpf.

Inductive update_flag := BPF_ANY | BPF_NOEXIST.

Section Map.

Context `{Countable K} {V : Type}.

(** Modelled from the spec: [bpf_map_update_with_telemetry] is a macro of a
    header that is not at hand.  With [BPF_NOEXIST] it is the "insert only
    if absent" of the design document (a no-op when an entry exists); with
    [BPF_ANY] it creates the entry or overwrites it.  A new key needs room
    in the map ("per-flow state map full": the update is dropped).  The
    telemetry counters are not part of the model, and the callers ignore
    the status. *)
Definition bpf_map_update_with_telemetry
    (max_entries : nat) (m : gmap K V) (key : K) (value : V) (flag : update_flag) : gmap K V :=
  match m !! key with
  | Some _ =>
      match flag with
      | BPF_NOEXIST => m
      | BPF_ANY => <[key := value]> m
      end
  | None =>
      if decide (size m < max_entries)%nat then <[key := value]> m else m
  end.

Definition bpf_map_lookup_elem (m : gmap K V) (key : K) : option V := m !! key.

(** An update of [key] takes effect: the key is present or there is room. *)
Definition has_room (max_entries : nat) (m : gmap K V) (key : K) : Prop :=
  is_Some (m !! key) \/ (size m < max_entries)%nat.

End Map.

End Bpf.

(** ** Admission, dedup, state store and batching: [kafka/kafka.h] *)

Module Kafka.
Import Int Tracer Bpf.

(** [kafka_transaction_t], with the fields [kafka.h] names. *)
Record kafka_transaction_t := KafkaTransaction {
  tup : conn_tuple_t;
  tcp_seq : Z;                 (* u32 *)
  request_fragment : list Z;   (* captured payload prefix, bytes *)
  topic_name : list Z          (* bytes *)
}.

(** [skb_info_t] and [struct __sk_buff], with the fields [kafka.h] names. *)
Record skb_info_t := SkbInfo {
  data_off : Z;      (* u32 *)
  skb_tcp_seq : Z;   (* u32, the field tcp_seq *)
  tcp_flags : Z      (* u8 *)
}.

Record sk_buff := SkBuff {
  len : Z            (* u32 *)
}.

(** [kafka_batch_state_t]: the write cursor [idx] and the flush cursor
    [idx_to_flush] of one CPU. *)
Record kafka_batch_state_t := KafkaBatchState {
  idx : Z;            (* u64 *)
  idx_to_flush : Z    (* u64 *)
}.

(** [kafka_batch_key_t] is the pair (cpu, page_num). *)
Abbreviation kafka_batch_key_t := (Z * Z)%type.

(** [kafka_batch_t]; its field [idx] is [batch_idx] here.  [pos] is
    incremented only below [KAFKA_BATCH_SIZE], so it never leaves the range
    of its C type and is a plain [Z]. *)
Record kafka_batch_t := KafkaBatch {
  batch_idx : Z;                     (* u64 *)
  pos : Z;
  txs : list kafka_transaction_t     (* kafka_transaction_t txs[KAFKA_BATCH_SIZE] *)
}.

(** One call of [bpf_perf_event_output] on [kafka_batch_events]: the CPU
    buffer it targets, the bytes handed over, and the status the helper
    returned. *)
Record perf_output := PerfOutput {
  out_cpu : Z;
  out_data : kafka_batch_t;
  out_status : Z
}.

(** The maps of the batching pipeline.  [kafka_batch_state] is an array
    with one slot (key 0) per CPU, indexed here by the CPU;
    [kafka_batch_events] is the trace of output calls. *)
Record batch_maps := BatchMaps {
  kafka_batch_state : gmap Z kafka_batch_state_t;
  kafka_batches : gmap (Z * Z) kafka_batch_t;
  kafka_batch_events : list perf_output
}.

Section Kafka.

Context `{hd : Headers}.

(** [cpu] is the value of [bpf_get_smp_processor_id()]. *)
Definition kafka_get_batch_key (cpu batch_idx : Z) : kafka_batch_key_t :=
  (cpu, batch_idx mod KAFKA_BATCH_PAGES).

(** [status] is what [bpf_perf_event_output] returns in this call. *)
Definition kafka_flush_batch (cpu status : Z) (m : batch_maps) : batch_maps :=
  match bpf_map_lookup_elem (kafka_batch_state m) cpu with
  | None => m
  | Some batch_state =>
      if idx_to_flush batch_state =? idx batch_state then
        (* batch is not ready to be flushed *)
        m
      else
        let key := kafka_get_batch_key cpu (idx_to_flush batch_state) in
        match bpf_map_lookup_elem (kafka_batches m) key with
        | None => m
        | Some batch =>
            let events := kafka_batch_events m ++ [PerfOutput (fst key) batch status] in
            let batch := KafkaBatch (batch_idx batch) 0 (txs batch) in
            let batch_state :=
              KafkaBatchState (idx batch_state) (u64 (idx_to_flush batch_state + 1)) in
            BatchMaps (<[cpu := batch_state]> (kafka_batch_state m))
                      (<[key := batch]> (kafka_batches m))
                      events
        end
  end.

(** [batch] is a non-null pointer here; the callers test for NULL first. *)
Definition kafka_batch_full (batch : kafka_batch_t) : bool :=
  pos batch =? KAFKA_BATCH_SIZE.

Definition kafka_enqueue (cpu : Z) (kafka_transaction : kafka_transaction_t)
    (m : batch_maps) : batch_maps :=
  (* Retrieve the active batch number for this CPU *)
  match bpf_map_lookup_elem (kafka_batch_state m) cpu with
  | None => m
  | Some batch_state =>
      (* Retrieve the batch object *)
      let key := kafka_get_batch_key cpu (idx batch_state) in
      match bpf_map_lookup_elem (kafka_batches m) key with
      | None => m
      | Some batch =>
          if kafka_batch_full batch then
            (* this scenario should never happen and indicates a bug *)
            m
          else if (pos batch <? 0) || (pos batch >=? KAFKA_BATCH_SIZE) then
            (* Bounds check to make verifier happy *)
            m
          else
            let batch :=
              KafkaBatch (batch_idx batch) (pos batch)
                         (<[Z.to_nat (pos batch) := kafka_transaction]> (txs batch)) in
            let batch := KafkaBatch (batch_idx batch) (pos batch + 1) (txs batch) in
            let batch := KafkaBatch (idx batch_state) (pos batch) (txs batch) in
            (* If we have filled the batch we move to the next one *)
            let batch_state :=
              if kafka_batch_full batch then
                KafkaBatchState (u64 (idx batch_state + 1)) (idx_to_flush batch_state)
              else batch_state in
            BatchMaps (<[cpu := batch_state]> (kafka_batch_state m))
                      (<[key := batch]> (kafka_batches m))
                      (kafka_batch_events m)
      end
  end.

Definition kafka_fetch_state (kafka_transaction : kafka_transaction_t)
    (kafka_in_flight : gmap conn_tuple_t kafka_transaction_t)
    : option kafka_transaction_t * gmap conn_tuple_t kafka_transaction_t :=
  let kafka_in_flight :=
    bpf_map_update_with_telemetry kafka_in_flight_max_entries kafka_in_flight
      (tup kafka_transaction) kafka_transaction BPF_NOEXIST in
  (bpf_map_lookup_elem kafka_in_flight (tup kafka_transaction), kafka_in_flight).

(** Decides whether the contents of a packet are inspected.  Returns the
    verdict and the map [kafka_last_tcp_seq_per_connection] afterwards. *)
Definition kafka_allow_packet (kafka : kafka_transaction_t) (skb : sk_buff)
    (skb_info : skb_info_t) (last_seq : gmap conn_tuple_t Z)
    : bool * gmap conn_tuple_t Z :=
  (* we're only interested in TCP traffic *)
  if negb (truthy (Z.land (metadata (tup kafka)) CONN_TYPE_TCP)) then (false, last_seq)
  else
    (* if payload data is empty we only process it if the packet
       represents a TCP termination *)
    let empty_payload := data_off skb_info =? len skb in
    if empty_payload then
      (truthy (Z.land (tcp_flags skb_info) (Z.lor TCPHDR_FIN TCPHDR_RST)), last_seq)
    else
      (* Check that we didn't see this tcp segment before so we won't
         process the same traffic twice *)
      let last_tcp_seq := bpf_map_lookup_elem last_seq (tup kafka) in
      if match last_tcp_seq with
         | Some s => s =? skb_tcp_seq skb_info
         | None => false
         end
      then (false, last_seq)
      else
        (true, bpf_map_update_with_telemetry kafka_last_tcp_seq_max_entries
                 last_seq (tup kafka) (skb_tcp_seq skb_info) BPF_ANY).

(** A worker enqueues the records of [rs] one after the other. *)
Definition enqueue_all (cpu : Z) (rs : list kafka_transaction_t) (m : batch_maps)
    : batch_maps :=
  fold_left (fun m tx => kafka_enqueue cpu tx m) rs m.





(** The tuple of the flow is flagged TCP; the segment carries payload. *)
Definition is_tcp (kafka : kafka_transaction_t) : Prop :=
  Z.land (metadata (tup kafka)) CONN_TYPE_TCP <> 0.

Definition has_payload (skb : sk_buff) (skb_info : skb_info_t) : Prop :=
  data_off skb_info <> len skb.

End Kafka.

End Kafka.

(** ** A concrete configuration

    Used to evaluate the code on concrete inputs. *)

Module Sample.
Import Int Tracer.

(** Modelled from the spec: the recogniser of [ipv6.h] is not at hand.  An
    IPv4-mapped IPv6 address is [::ffff:a.b.c.d]: the first 80 bits zero,
    the next 16 bits one, then the IPv4 address.  In the (high, low)
    little-endian layout that is [high = 0] and the low half of [low]
    equal to [0xFFFF0000]; a pair is recognised when both its addresses
    have this form. *)
Definition ipv4_mapped_pair (saddr_h saddr_l daddr_h daddr_l : Z) : bool :=
  (saddr_h =? 0) && (u32 saddr_l =? 0xFFFF0000) &&
  (daddr_h =? 0) && (u32 daddr_l =? 0xFFFF0000).

(** IPv6 inspection enabled; 15 records per page, 3 pages per CPU. *)
Definition headers : Headers := {|
  CONN_TYPE_TCP := 1;
  CONN_V4 := 0;
  CONN_V6 := 2;
  is_ipv4_mapped_ipv6 := ipv4_mapped_pair;
  ENABLED := 1;
  ipv6_enabled_const := 1;
  TCPHDR_FIN := 1;
  TCPHDR_RST := 4;
  KAFKA_BATCH_SIZE := 15;
  KAFKA_BATCH_PAGES := 3;
  kafka_in_flight_max_entries := 1024;
  kafka_last_tcp_seq_max_entries := 1024
|}.

(** The same with IPv6 inspection disabled. *)
Definition headers_no_ipv6 : Headers := {|
  CONN_TYPE_TCP := 1;
  CONN_V4 := 0;
  CONN_V6 := 2;
  is_ipv4_mapped_ipv6 := ipv4_mapped_pair;
  ENABLED := 1;
  ipv6_enabled_const := 0;
  TCPHDR_FIN := 1;
  TCPHDR_RST := 4;
  KAFKA_BATCH_SIZE := 15;
  KAFKA_BATCH_PAGES := 3;
  kafka_in_flight_max_entries := 1024;
  kafka_last_tcp_seq_max_entries := 1024
|}.

(** 10.0.0.1 and 10.0.0.2 as [__be32] values read on a little-endian CPU. *)
Definition ip_10_0_0_1 : Z := 0x0100000A.
Definition ip_10_0_0_2 : Z := 0x0200000A.

(** [::ffff:10.0.0.1] and [::ffff:10.0.0.2]. *)
Definition mapped_10_0_0_1 : in6_addr := In6Addr 0 0 0xFFFF0000 ip_10_0_0_1.
Definition mapped_10_0_0_2 : in6_addr := In6Addr 0 0 0xFFFF0000 ip_10_0_0_2.

(** [2001:db8::1] and [2001:db8::2]. *)
Definition v6_db8_1 : in6_addr := In6Addr 0xB80D0120 0 0 0x01000000.
Definition v6_db8_2 : in6_addr := In6Addr 0xB80D0120 0 0 0x02000000.

Definition no_in6 : in6_addr := In6Addr 0 0 0 0.

(** Port 9092 and port 40000 in network byte order. *)
Definition be_9092 : Z := 0x8423.
Definition be_40000 : Z := 0x409C.

(** A connected IPv4 socket 10.0.0.1:40000 -> 10.0.0.2:9092. *)
Definition sk_v4 : sock :=
  Sock 2 4026531840 40000 be_40000 be_9092 ip_10_0_0_1 ip_10_0_0_1 ip_10_0_0_2 no_in6 no_in6.

(** A connected IPv6 socket [2001:db8::1]:40000 -> [2001:db8::2]:9092. *)
Definition sk_v6 : sock :=
  Sock 10 4026531840 40000 be_40000 be_9092 0 0 0 v6_db8_1 v6_db8_2.

(** An IPv6 socket connected over IPv4-mapped addresses. *)
Definition sk_mapped : sock :=
  Sock 10 4026531840 40000 be_40000 be_9092 0 0 0 mapped_10_0_0_1 mapped_10_0_0_2.

(** A socket of a family that is neither AF_INET nor AF_INET6 (AF_UNIX). *)
Definition sk_unix : sock :=
  Sock 1 4026531840 0 0 0 0 0 0 no_in6 no_in6.

Definition fl4_sample : flowi4 := Flowi4 ip_10_0_0_1 ip_10_0_0_2 be_40000 be_9092.
Definition fl6_sample : flowi6 := Flowi6 v6_db8_1 v6_db8_2 be_40000 be_9092.
Definition fl6_mapped : flowi6 := Flowi6 mapped_10_0_0_1 mapped_10_0_0_2 be_40000 be_9092.

(** pid 4242, tid 4243. *)
Definition pid_tgid_sample : Z := 4242 * 2 ^ 32 + 4243.

(** A tuple that already holds the source address 10.0.0.9. *)
Definition ip_10_0_0_9 : Z := 0x0900000A.
Definition tuple_with_saddr : conn_tuple_t := set_saddr_l ip_10_0_0_9 zero_tuple.

(** The tuple of the flow 10.0.0.1:40000 -> 10.0.0.2:9092 over TCP. *)
Definition flow_tuple : conn_tuple_t :=
  ConnTuple 0 ip_10_0_0_1 0 ip_10_0_0_2 40000 9092 4026531840 4242 1.

Definition flow : Kafka.kafka_transaction_t := Kafka.KafkaTransaction flow_tuple 0 [] [].

(** The [n]-th completed transaction of the flow. *)
Definition record (n : Z) : Kafka.kafka_transaction_t :=
  Kafka.KafkaTransaction flow_tuple n [] [].

Definition records (n : nat) : list Kafka.kafka_transaction_t :=
  map (fun i => record (Z.of_nat i)) (seq 1 n).

(** A zeroed page, and the maps of CPU 0 before anything is enqueued:
    both cursors 0, the three pages empty, nothing emitted. *)
Definition zero_record : Kafka.kafka_transaction_t :=
  Kafka.KafkaTransaction zero_tuple 0 [] [].

Definition empty_page : Kafka.kafka_batch_t :=
  Kafka.KafkaBatch 0 0 (replicate 15 zero_record).

Definition worker_empty : Kafka.batch_maps :=
  Kafka.BatchMaps
    {[ 0 := Kafka.KafkaBatchState 0 0 ]}
    (<[(0, 0) := empty_page]> (<[(0, 1) := empty_page]> (<[(0, 2) := empty_page]> ∅)))
    [].

(** CPU 0 after 15 records (one page pending) and after 30 records (two
    pages pending), nothing flushed in between. *)
Definition worker_one_pending : Kafka.batch_maps :=
  Kafka.enqueue_all (hd := headers) 0 (records 15) worker_empty.

Definition worker_two_pending : Kafka.batch_maps :=
  Kafka.enqueue_all (hd := headers) 0 (records 30) worker_empty.

(** A 100-byte packet whose payload starts at offset 54, with the given
    sequence number and flags; and a packet without payload. *)
Definition skb_100 : Kafka.sk_buff := Kafka.SkBuff 100.
Definition data_segment (seq flags : Z) : Kafka.skb_info_t := Kafka.SkbInfo 54 seq flags.
Definition bare_segment (seq flags : Z) : Kafka.skb_info_t := Kafka.SkbInfo 100 seq flags.

(** The same constants with a dedup map of one entry, and that map taken
    by the flow 10.0.0.9:40001 -> 10.0.0.2:9092. *)
Definition headers_one_entry : Headers := {|
  CONN_TYPE_TCP := 1;
  CONN_V4 := 0;
  CONN_V6 := 2;
  is_ipv4_mapped_ipv6 := ipv4_mapped_pair;
  ENABLED := 1;
  ipv6_enabled_const := 1;
  TCPHDR_FIN := 1;
  TCPHDR_RST := 4;
  KAFKA_BATCH_SIZE := 15;
  KAFKA_BATCH_PAGES := 3;
  kafka_in_flight_max_entries := 1024;
  kafka_last_tcp_seq_max_entries := 1
|}.

Definition other_tuple : conn_tuple_t :=
  ConnTuple 0 ip_10_0_0_9 0 ip_10_0_0_2 40001 9092 4026531840 4242 1.

Definition full_dedup_map : gmap conn_tuple_t Z := {[ other_tuple := 7 ]}.


End Sample.

(** ** Reading a tuple back *)

Module SockRun.
Import Int Tracer Sock.

(** The IPv6 address that a (high, low) pair of a tuple stands for: its
    four 32-bit words, the inverse of the four stores of the extractor. *)
Definition in6_of_words (addr_h addr_l : Z) : in6_addr :=
  In6Addr (u32 addr_h) (u32 (Z.shiftr addr_h 32)) (u32 addr_l) (u32 (Z.shiftr addr_l 32)).

(** A connected IPv4 socket and a route descriptor that describe the same
    flow: the same addresses and ports, the socket's host-order port being
    the byte swap of its network-order port when it is set. *)
Definition sock_matches_flowi4 (skp : sock) (fl4 : flowi4) : Prop :=
  sk_family skp = __AF_INET /\
  sk_rcv_saddr skp = fl4_saddr fl4 /\ inet_saddr skp = fl4_saddr fl4 /\
  sk_daddr skp = fl4_daddr fl4 /\
  (sk_num skp = 0 \/ sk_num skp = bpf_ntohs (fl4_sport fl4)) /\
  inet_sport skp = fl4_sport fl4 /\
  sk_dport skp = fl4_dport fl4.

End SockRun.

(** ** The rest of [kafka/kafka.h], and a worker at work *)

Module KafkaRun.
Import Int Tracer Bpf Kafka.

(** [skb_info] may be [NULL]: it is an [option] here. *)
Definition kafka_seen_before (kafka : kafka_transaction_t) (skb_info : option skb_info_t)
    : bool :=
  match skb_info with
  | None => false
  | Some skb_info =>
      if negb (truthy (skb_tcp_seq skb_info)) then false
      else
        (* check if we've seen this TCP segment before *)
        tcp_seq kafka =? skb_tcp_seq skb_info
  end.

(** Returns the contents of [*kafka_transaction] afterwards. *)
Definition kafka_update_seen_before (kafka_transaction : kafka_transaction_t)
    (skb_info : option skb_info_t) : kafka_transaction_t :=
  match skb_info with
  | None => kafka_transaction
  | Some skb_info =>
      if negb (truthy (skb_tcp_seq skb_info)) then kafka_transaction
      else
        KafkaTransaction (tup kafka_transaction) (skb_tcp_seq skb_info)
          (request_fragment kafka_transaction) (topic_name kafka_transaction)
  end.

(** What a worker does to its batch maps: it enqueues a completed
    transaction, or it flushes (and the emit returns [status]). *)
Inductive batch_op :=
  | Enqueue (kafka_transaction : kafka_transaction_t)
  | Flush (status : Z).

Section Run.

Context `{hd : Headers}.

Definition run_op (cpu : Z) (m : batch_maps) (op : batch_op) : batch_maps :=
  match op with
  | Enqueue kafka_transaction => kafka_enqueue cpu kafka_transaction m
  | Flush status => kafka_flush_batch cpu status m
  end.

(** The worker on CPU [cpu] performs the operations of [ops] in order. *)
Definition run_ops (cpu : Z) (ops : list batch_op) (m : batch_maps) : batch_maps :=
  fold_left (run_op cpu) ops m.

(** No page holds more than [KAFKA_BATCH_SIZE] records, and every page has
    its [KAFKA_BATCH_SIZE] slots. *)
Definition pages_within_capacity (m : batch_maps) : Prop :=
  forall key b, kafka_batches m !! key = Some b ->
    0 <= pos b <= KAFKA_BATCH_SIZE /\ length (txs b) = Z.to_nat KAFKA_BATCH_SIZE.

(** The number of [Enqueue] operations in a list. *)
Fixpoint enqueues (ops : list batch_op) : nat :=
  match ops with
  | [] => 0%nat
  | Enqueue _ :: ops => S (enqueues ops)
  | Flush _ :: ops => enqueues ops
  end.

End Run.

End KafkaRun.

(** ** The SQL command classifier: [protocols/protocol-classification-sql-defs.h] *)

Module Sql.

Definition SQL_ALTER : string := "ALTER".
Definition SQL_CREATE : string := "CREATE".
Definition SQL_DELETE : string := "DELETE".
Definition SQL_DROP : string := "DROP".
Definition SQL_INSERT : string := "INSERT".
Definition SQL_SELECT : string := "SELECT".
Definition SQL_UPDATE : string := "UPDATE".

(** [sizeof] of a string literal: its characters and the null terminator. *)
Definition sizeof (command : string) : Z := Z.of_nat (String.length command) + 1.

(** The value of a [char] as a byte. *)
Definition byte_of (c : ascii) : Z := Z.of_N (N_of_ascii c).

(** Modelled from the spec: [bpf_memcmp] is a macro of [bpf_builtins.h],
    which is not at hand; the classifier is "simple prefix matching", so it
    is the C [memcmp]: the difference of the first pair of bytes that
    differ among the first [n], 0 when there is none.  The two areas are
    the lists of the bytes found at the two pointers; running off the end
    of a list (a read past the memory that was handed over) counts as a
    difference. *)
Fixpoint bpf_memcmp (s1 s2 : list ascii) (n : nat) {struct n} : Z :=
  match n with
  | O => 0
  | S n =>
      match s1, s2 with
      | c1 :: s1, c2 :: s2 =>
          if byte_of c1 =? byte_of c2 then bpf_memcmp s1 s2 n
          else byte_of c1 - byte_of c2
      | [], _ :: _ => -1
      | _, [] => 1
      end
  end.

(** Check that we can read the amount of memory we want, then do the
    comparison ([sizeof(command) - 1]: the null terminator of the strings
    is not compared). *)
Definition check_command (buf : list ascii) (command : string) (buf_size : Z) : bool :=
  (sizeof command - 1 <=? buf_size)
  && negb (Int.truthy (bpf_memcmp buf (list_ascii_of_string command)
                         (Z.to_nat (sizeof command - 1)))).

(** [buf] holds the bytes at the pointer; [buf_size] is a [__u32]. *)
Definition is_sql_command (buf : list ascii) (buf_size : Z) : bool :=
  check_command buf SQL_ALTER buf_size
  || check_command buf SQL_CREATE buf_size
  || check_command buf SQL_DELETE buf_size
  || check_command buf SQL_DROP buf_size
  || check_command buf SQL_INSERT buf_size
  || check_command buf SQL_SELECT buf_size
  || check_command buf SQL_UPDATE buf_size.

(** The keywords, in the order they are tried. *)
Definition sql_commands : list string :=
  [SQL_ALTER; SQL_CREATE; SQL_DELETE; SQL_DROP; SQL_INSERT; SQL_SELECT; SQL_UPDATE].

End Sql.

(** ** More concrete inputs *)

Module SampleRun.
Import Int Tracer Kafka KafkaRun Sample.

(** An IPv4 socket whose primary fields are unset: the source address is
    only in [inet_saddr], the source port only in [inet_sport]. *)
Definition sk_v4_fallback : sock :=
  Sock 2 4026531840 0 be_40000 be_9092 0 ip_10_0_0_1 ip_10_0_0_2 no_in6 no_in6.

(** The maps of two workers: CPU 0 as in [worker_empty], and CPU 1 with
    cursors 5 and 3 and one page. *)
Definition two_workers : batch_maps :=
  BatchMaps
    (<[1 := KafkaBatchState 5 3]> (kafka_batch_state worker_empty))
    (<[(1, 0) := KafkaBatch 3 15 (records 15)]> (kafka_batches worker_empty))
    [].

(** Sixteen enqueues, a flush whose emit fails, a flush, an enqueue. *)
Definition busy_day : list batch_op :=
  map Enqueue (records 16) ++ [Flush (-2); Flush 0; Enqueue (record 17)].

(** The first bytes of a query, and of something else. *)
Definition select_query : list ascii := list_ascii_of_string "SELECT * FROM t".
Definition http_request : list ascii := list_ascii_of_string "GET / HTTP/1.1".

End SampleRun.

(** * Properties *)

(** ** Bit-level facts *)

Module IntFacts.
Import Int.

Lemma truthy_true (x : Z) : truthy x = true <-> x <> 0.
Proof. unfold truthy. destruct (Z.eqb_spec x 0); simpl; split; congruence. Qed.

Lemma truthy_false (x : Z) : truthy x = false <-> x = 0.
Proof. unfold truthy. destruct (Z.eqb_spec x 0); simpl; split; congruence. Qed.

Lemma u32_small (x : Z) : is_u32 x -> u32 x = x.
Proof. unfold is_u32, u32. intros Hx. apply Z.mod_small. exact Hx. Qed.

Lemma u32_range (x : Z) : is_u32 (u32 x).
Proof. unfold is_u32, u32. apply Z.mod_pos_bound. reflexivity. Qed.

(** The two 32-bit stores into a zeroed 64-bit field build
    [lo + hi * 2^32]. *)
Lemma set_words (lo hi : Z) :
  is_u32 lo -> is_u32 hi ->
  set_hi32 (set_lo32 0 lo) hi = Z.lor lo (Z.shiftl hi 32).
Proof.
  intros Hlo Hhi. unfold set_hi32, set_lo32.
  rewrite !u32_small by assumption.
  rewrite Z.land_0_l, Z.lor_0_l.
  change 0xFFFFFFFF with (Z.ones 32).
  rewrite Z.land_ones by lia.
  f_equal. apply Z.mod_small. exact Hlo.
Qed.

Lemma set_words_zero (lo hi : Z) :
  is_u32 lo -> is_u32 hi ->
  set_hi32 (set_lo32 0 lo) hi = 0 <-> lo = 0 /\ hi = 0.
Proof.
  intros Hlo Hhi. rewrite set_words by assumption.
  rewrite Z.lor_eq_0_iff, Z.shiftl_eq_0_iff by lia. reflexivity.
Qed.

(** The high word of the pair is recovered by [(u32)(x >> 32)]. *)
Lemma set_words_hi (lo hi : Z) :
  is_u32 lo -> is_u32 hi ->
  u32 (Z.shiftr (set_hi32 (set_lo32 0 lo) hi) 32) = hi.
Proof.
  intros Hlo Hhi. rewrite set_words by assumption.
  rewrite Z.shiftr_lor, Z.shiftr_shiftl_l by lia.
  rewrite Z.sub_diag, Z.shiftl_0_r.
  rewrite Z.shiftr_div_pow2 by lia.
  rewrite Z.div_small by exact Hlo.
  rewrite Z.lor_0_l. apply u32_small. exact Hhi.
Qed.

Lemma bpf_ntohs_zero (x : Z) : is_u16 x -> bpf_ntohs x = 0 <-> x = 0.
Proof.
  unfold is_u16, bpf_ntohs. intros Hx.
  change 0xFF with (Z.ones 8).
  rewrite Z.lor_eq_0_iff, Z.shiftl_eq_0_iff by lia.
  rewrite !Z.land_ones by lia.
  rewrite Z.shiftr_div_pow2 by lia.
  change (2 ^ 8) with 256. change (2 ^ 16) with 65536 in Hx.
  split.
  - intros [H1 H2].
    pose proof (Z.div_mod x 256 ltac:(lia)) as E.
    assert (0 <= x / 256 < 256) as Hq.
    { split; [apply Z.div_pos; lia | apply Z.div_lt_upper_bound; lia]. }
    rewrite Z.mod_small in H2 by exact Hq. lia.
  - intros ->. split; reflexivity.
Qed.

Lemma has_flag_lor (flag m : Z) : has_flag flag (Z.lor m flag).
Proof.
  unfold has_flag. apply Z.bits_inj'. intros n Hn.
  rewrite Z.land_spec, Z.lor_spec.
  destruct (Z.testbit m n), (Z.testbit flag n); reflexivity.
Qed.

(** [flags & (a | b)] is nonzero exactly when [flags] has a bit of [a] or
    a bit of [b]. *)
Lemma land_lor_truthy (flags a b : Z) :
  truthy (Z.land flags (Z.lor a b)) = true <->
  Z.land flags a <> 0 \/ Z.land flags b <> 0.
Proof.
  rewrite truthy_true, Z.land_lor_distr_r, Z.lor_eq_0_iff.
  destruct (Z.eq_dec (Z.land flags a) 0), (Z.eq_dec (Z.land flags b) 0); tauto.
Qed.

End IntFacts.

(** ** Tuple extraction *)

Module SockFacts.
Import Int Tracer Sock IntFacts.

Section Facts.

Context `{hd : Headers}.

Implicit Types (t : conn_tuple_t) (skp : sock).

(** Case analysis on the next zero test whose operand is already
    evaluated. *)
Ltac case_zero :=
  match goal with
  | |- context [?x =? 0] =>
      lazymatch x with
      | context [if _ then _ else _] => fail
      | _ => destruct (Z.eqb_spec x 0); simpl
      end
  end.

(** The entry of every extractor: [pid], [metadata] (and [netns]) are
    written before anything is examined. *)

Lemma read_sport_zero skp :
  wf_sock skp -> read_sport skp = 0 <-> sk_num skp = 0 /\ inet_sport skp = 0.
Proof.
  intros (_ & _ & _ & Hs & _). unfold read_sport.
  destruct (Z.eqb_spec (sk_num skp) 0) as [E|E].
  - rewrite bpf_ntohs_zero by exact Hs. tauto.
  - tauto.
Qed.

Lemma read_ports_frame t skp :
  let t' := snd (read_ports t skp) in
  saddr_h t' = saddr_h t /\ saddr_l t' = saddr_l t /\
  daddr_h t' = daddr_h t /\ daddr_l t' = daddr_l t /\
  netns t' = netns t /\ pid t' = pid t /\ metadata t' = metadata t.
Proof.
  unfold read_ports.
  destruct (sport t =? 0); simpl; destruct (dport t =? 0); simpl;
    match goal with |- context [if ?b then _ else _] => destruct b end;
    simpl; repeat split; reflexivity.
Qed.

Lemma read_ports_keep t skp :
  let t' := snd (read_ports t skp) in
  (sport t <> 0 -> sport t' = sport t) /\ (dport t <> 0 -> dport t' = dport t).
Proof.
  unfold read_ports.
  destruct (Z.eqb_spec (sport t) 0); simpl; destruct (Z.eqb_spec (dport t) 0); simpl;
    match goal with |- context [if ?b then _ else _] => destruct b end;
    simpl; split; intros; congruence.
Qed.

Lemma read_ports_verdict t skp :
  wf_sock skp ->
  (fst (read_ports t skp) = 0 /\ (sport_unset t skp \/ dport_unset t skp)) \/
  (fst (read_ports t skp) = 1 /\ ~ (sport_unset t skp \/ dport_unset t skp) /\
   sport (snd (read_ports t skp)) <> 0 /\ dport (snd (read_ports t skp)) <> 0).
Proof.
  intros Hwf. pose proof (read_sport_zero skp Hwf) as Hs.
  destruct Hwf as (_ & _ & _ & _ & Hd & _).
  pose proof (bpf_ntohs_zero (sk_dport skp) Hd) as Hdz.
  unfold read_ports, sport_unset, dport_unset.
  destruct (Z.eqb_spec (sport t) 0) as [E1|E1]; simpl;
    destruct (Z.eqb_spec (dport t) 0) as [E2|E2]; simpl;
    repeat case_zero; try (left; split; [reflexivity|]; tauto);
    right; (split; [reflexivity|]); tauto.
Qed.

Lemma read_v4_addrs_frame t skp :
  let r := read_v4_addrs t skp in
  saddr_h r = saddr_h t /\ daddr_h r = daddr_h t /\
  sport r = sport t /\ dport r = dport t /\
  netns r = netns t /\ pid r = pid t /\ metadata r = metadata t.
Proof.
  unfold read_v4_addrs.
  destruct (saddr_l t =? 0); simpl;
    repeat match goal with |- context [if ?b then _ else _] => destruct b; simpl end;
    repeat split; reflexivity.
Qed.

Lemma read_v4_addrs_keep t skp :
  let r := read_v4_addrs t skp in
  (saddr_l t <> 0 -> saddr_l r = saddr_l t) /\ (daddr_l t <> 0 -> daddr_l r = daddr_l t).
Proof.
  destruct t as [sh sl dh dl sp dp nn pp md]. unfold read_v4_addrs. simpl.
  destruct (Z.eqb_spec sl 0); simpl;
    repeat case_zero; split; intros; congruence.
Qed.

Lemma read_v4_addrs_zero t skp :
  let r := read_v4_addrs t skp in
  (saddr_l r = 0 <-> saddr4_unset t skp) /\ (daddr_l r = 0 <-> daddr4_unset t skp).
Proof.
  destruct t as [sh sl dh dl sp dp nn pp md].
  unfold read_v4_addrs, saddr4_unset, daddr4_unset. simpl.
  destruct (Z.eqb_spec sl 0); simpl;
    repeat case_zero; tauto.
Qed.

Lemma read_v6_addrs_frame t skp :
  let r := read_v6_addrs t skp in
  sport r = sport t /\ dport r = dport t /\
  netns r = netns t /\ pid r = pid t /\ metadata r = metadata t.
Proof.
  unfold read_v6_addrs.
  destruct (negb (truthy (saddr_h t) || truthy (saddr_l t))); simpl;
    match goal with |- context [if ?b then _ else _] => destruct b; simpl end;
    repeat split; reflexivity.
Qed.

(** The address reads look at the address fields of the tuple only. *)
Lemma read_v6_addrs_entry t skp (n m p : Z) :
  let r := read_v6_addrs t skp in
  let r' := read_v6_addrs (set_netns n (set_metadata m (set_pid p t))) skp in
  saddr_h r' = saddr_h r /\ saddr_l r' = saddr_l r /\
  daddr_h r' = daddr_h r /\ daddr_l r' = daddr_l r.
Proof.
  destruct t. unfold read_v6_addrs. simpl.
  destruct (negb (truthy saddr_h0 || truthy saddr_l0)); simpl;
    destruct (negb (truthy daddr_h0 || truthy daddr_l0)); simpl;
    repeat split; reflexivity.
Qed.

Lemma addr_set_truthy (h l : Z) : truthy h || truthy l = true <-> addr_set h l.
Proof.
  unfold addr_set. rewrite orb_true_iff, !truthy_true. reflexivity.
Qed.

Lemma addr_unset_truthy (h l : Z) : truthy h || truthy l = false <-> h = 0 /\ l = 0.
Proof.
  rewrite orb_false_iff, !truthy_false. reflexivity.
Qed.

Lemma read_v6_addrs_keep t skp :
  let r := read_v6_addrs t skp in
  (addr_set (saddr_h t) (saddr_l t) -> saddr_h r = saddr_h t /\ saddr_l r = saddr_l t) /\
  (addr_set (daddr_h t) (daddr_l t) -> daddr_h r = daddr_h t /\ daddr_l r = daddr_l t).
Proof.
  unfold read_v6_addrs.
  destruct (truthy (saddr_h t) || truthy (saddr_l t)) eqn:Es; simpl;
    destruct (truthy (daddr_h t) || truthy (daddr_l t)) eqn:Ed; simpl;
    split; intros Hset; try (split; reflexivity).
  all: apply addr_set_truthy in Hset; congruence.
Qed.

(** On unset addresses the reads build the (high, low) pair from the four
    words of the socket's address. *)
Lemma read_v6_addrs_fresh t skp :
  let r := read_v6_addrs t skp in
  (saddr_h t = 0 -> saddr_l t = 0 ->
   saddr_h r = fst (read_in6_addr (sk_v6_rcv_saddr skp)) /\
   saddr_l r = snd (read_in6_addr (sk_v6_rcv_saddr skp))) /\
  (daddr_h t = 0 -> daddr_l t = 0 ->
   daddr_h r = fst (read_in6_addr (sk_v6_daddr skp)) /\
   daddr_l r = snd (read_in6_addr (sk_v6_daddr skp))).
Proof.
  destruct t as [sh sl dh dl sp dp nn pp md].
  unfold read_v6_addrs, read_in6_addr. simpl.
  split; intros -> ->; simpl.
  - destruct (negb (truthy dh || truthy dl)); simpl; split; reflexivity.
  - destruct (negb (truthy sh || truthy sl)); simpl; split; reflexivity.
Qed.

Lemma read_in6_addr_zero (a : in6_addr) :
  wf_in6 a ->
  fst (read_in6_addr a) = 0 /\ snd (read_in6_addr a) = 0 <-> in6_is_zero a.
Proof.
  intros (H0 & H1 & H2 & H3). unfold read_in6_addr, in6_is_zero. simpl.
  rewrite !set_words_zero by assumption. tauto.
Qed.

Lemma read_v6_addrs_zero t skp :
  wf_sock skp ->
  let r := read_v6_addrs t skp in
  (saddr_h r = 0 /\ saddr_l r = 0 <-> saddr6_unset t skp) /\
  (daddr_h r = 0 /\ daddr_l r = 0 <-> daddr6_unset t skp).
Proof.
  intros (_ & _ & _ & _ & _ & _ & _ & _ & Hs & Hd). simpl.
  pose proof (read_v6_addrs_keep t skp) as [Ks Kd].
  pose proof (read_v6_addrs_fresh t skp) as [Fs Fd].
  pose proof (read_in6_addr_zero _ Hs) as Zs.
  pose proof (read_in6_addr_zero _ Hd) as Zd.
  unfold saddr6_unset, daddr6_unset, addr_set in *. simpl in *.
  split.
  - destruct (Z.eq_dec (saddr_h t) 0) as [Eh|Eh], (Z.eq_dec (saddr_l t) 0) as [El|El].
    + destruct (Fs Eh El) as [-> ->]. tauto.
    + destruct (Ks (or_intror El)) as [-> ->]. tauto.
    + destruct (Ks (or_introl Eh)) as [-> ->]. tauto.
    + destruct (Ks (or_introl Eh)) as [-> ->]. tauto.
  - destruct (Z.eq_dec (daddr_h t) 0) as [Eh|Eh], (Z.eq_dec (daddr_l t) 0) as [El|El].
    + destruct (Fd Eh El) as [-> ->]. tauto.
    + destruct (Kd (or_intror El)) as [-> ->]. tauto.
    + destruct (Kd (or_introl Eh)) as [-> ->]. tauto.
    + destruct (Kd (or_introl Eh)) as [-> ->]. tauto.
Qed.

Lemma map_v6_to_v4_frame t :
  let r := map_v6_to_v4 t in
  sport r = sport t /\ dport r = dport t /\ netns r = netns t /\ pid r = pid t.
Proof.
  unfold map_v6_to_v4.
  destruct (is_ipv4_mapped_ipv6 _ _ _ _); simpl; repeat split; reflexivity.
Qed.

Lemma map_v6_to_v4_mapped t :
  is_ipv4_mapped_ipv6 (saddr_h t) (saddr_l t) (daddr_h t) (daddr_l t) = true ->
  let r := map_v6_to_v4 t in
  saddr_h r = 0 /\ daddr_h r = 0 /\
  saddr_l r = embedded_ipv4 (saddr_l t) /\ daddr_l r = embedded_ipv4 (daddr_l t) /\
  metadata r = Z.lor (metadata t) CONN_V4.
Proof.
  intros E. unfold map_v6_to_v4. rewrite E. simpl. repeat split; reflexivity.
Qed.

Lemma map_v6_to_v4_plain t :
  is_ipv4_mapped_ipv6 (saddr_h t) (saddr_l t) (daddr_h t) (daddr_l t) = false ->
  let r := map_v6_to_v4 t in
  saddr_h r = saddr_h t /\ daddr_h r = daddr_h t /\
  saddr_l r = saddr_l t /\ daddr_l r = daddr_l t /\
  metadata r = Z.lor (metadata t) CONN_V6.
Proof.
  intros E. unfold map_v6_to_v4. rewrite E. simpl. repeat split; reflexivity.
Qed.

(** Failure of the extractor on a connection, in terms of its inputs. *)
Lemma read_conn_tuple_partial_verdict t skp pid_tgid type :
  wf_sock skp ->
  let r := read_conn_tuple_partial t skp pid_tgid type in
  (fst r = 0 /\ (unknown_family skp \/ ipv6_while_disabled skp \/ incomplete t skp)) \/
  (fst r = 1 /\ ~ (unknown_family skp \/ ipv6_while_disabled skp \/ incomplete t skp)).
Proof.
  intros Hwf. cbv zeta.
  unfold read_conn_tuple_partial, check_family, unknown_family, ipv6_while_disabled, incomplete.
  assert (__AF_INET <> __AF_INET6) as Hne by (unfold __AF_INET, __AF_INET6; lia).
  destruct (Z.eqb_spec (sk_family skp) __AF_INET) as [F4|F4]; cbv zeta.
  - (* IPv4 *)
    match goal with |- context [read_v4_addrs ?a skp] =>
      pose proof (read_v4_addrs_zero a skp) as [Zs Zd];
      pose proof (read_v4_addrs_frame a skp) as (_ & _ & Fsp & Fdp & _);
      remember (read_v4_addrs a skp) as r4 eqn:Er4; clear Er4
    end.
    cbv zeta in *. unfold saddr4_unset, daddr4_unset in *. simpl in Zs, Zd, Fsp, Fdp.
    pose proof (read_ports_verdict r4 skp Hwf) as Hp.
    unfold sport_unset, dport_unset in *. rewrite Fsp, Fdp in Hp.
    destruct (truthy (saddr_l r4)) eqn:Ts; simpl.
    + apply truthy_true in Ts.
      destruct (truthy (daddr_l r4)) eqn:Td; simpl.
      * apply truthy_true in Td.
        destruct Hp as [[-> Hp]|[-> [Hp _]]]; [left|right]; (split; [reflexivity|]); intuition congruence.
      * apply truthy_false in Td. left. split; [reflexivity|]. intuition congruence.
    + apply truthy_false in Ts. left. split; [reflexivity|]. intuition congruence.
  - destruct (Z.eqb_spec (sk_family skp) __AF_INET6) as [F6|F6]; cbv zeta.
    + (* IPv6 *)
      destruct is_ipv6_enabled eqn:En; simpl.
      2:{ left. split; [reflexivity|]. intuition congruence. }
      match goal with |- context [read_v6_addrs ?a skp] =>
        pose proof (read_v6_addrs_zero a skp Hwf) as [Zs Zd];
        pose proof (read_v6_addrs_frame a skp) as (Fsp & Fdp & _);
        remember (read_v6_addrs a skp) as r6 eqn:Er6; clear Er6
      end.
      cbv zeta in *. unfold saddr6_unset, daddr6_unset in *. simpl in Zs, Zd, Fsp, Fdp.
      pose proof (map_v6_to_v4_frame r6) as (Msp & Mdp & _). cbv zeta in *.
      pose proof (read_ports_verdict (map_v6_to_v4 r6) skp Hwf) as Hp.
      unfold sport_unset, dport_unset in *. rewrite Msp, Mdp, Fsp, Fdp in Hp.
      destruct (truthy (saddr_h r6) || truthy (saddr_l r6)) eqn:Ts; simpl.
      * apply addr_set_truthy in Ts. unfold addr_set in Ts.
        destruct (truthy (daddr_h r6) || truthy (daddr_l r6)) eqn:Td; simpl.
        -- apply addr_set_truthy in Td. unfold addr_set in Td.
           destruct Hp as [[-> Hp]|[-> [Hp _]]]; [left|right]; (split; [reflexivity|]); intuition congruence.
        -- apply addr_unset_truthy in Td. left. split; [reflexivity|]. intuition congruence.
      * apply addr_unset_truthy in Ts. left. split; [reflexivity|]. intuition congruence.
    + left. split; [reflexivity|]. intuition congruence.
Qed.

(** On a family that is not handled, and on IPv6 while its inspection is
    disabled, the extractor has written [pid], [metadata] and [netns] and
    nothing else. *)
Lemma read_conn_tuple_partial_unsupported t skp pid_tgid type :
  unknown_family skp \/ ipv6_while_disabled skp ->
  read_conn_tuple_partial t skp pid_tgid type =
  (0, set_netns (sk_net_ns_inum skp)
        (set_metadata type (set_pid (u32 (Z.shiftr pid_tgid 32)) t))).
Proof.
  unfold unknown_family, ipv6_while_disabled, read_conn_tuple_partial, check_family.
  intros [[N4 N6]|[F6 Dis]].
  - destruct (Z.eqb_spec (sk_family skp) __AF_INET); [contradiction|].
    destruct (Z.eqb_spec (sk_family skp) __AF_INET6); [contradiction|].
    reflexivity.
  - rewrite F6, Dis. reflexivity.
Qed.

(** The IPv6 branch of the extractor on a connection, once both addresses
    are set. *)
Lemma read_conn_tuple_partial_v6 t skp pid_tgid type :
  wf_sock skp ->
  sk_family skp = __AF_INET6 -> is_ipv6_enabled = true ->
  ~ saddr6_unset t skp -> ~ daddr6_unset t skp ->
  exists r,
    read_conn_tuple_partial t skp pid_tgid type = read_ports (map_v6_to_v4 r) skp /\
    saddr_h r = saddr_h (read_v6_addrs t skp) /\ saddr_l r = saddr_l (read_v6_addrs t skp) /\
    daddr_h r = daddr_h (read_v6_addrs t skp) /\ daddr_l r = daddr_l (read_v6_addrs t skp) /\
    sport r = sport t /\ dport r = dport t /\ metadata r = type /\
    addr_set (saddr_h r) (saddr_l r) /\ addr_set (daddr_h r) (daddr_l r).
Proof.
  intros Hwf F6 En Hs Hd.
  unfold read_conn_tuple_partial, check_family. rewrite F6, En. simpl.
  match goal with |- context [read_v6_addrs ?a skp] =>
    pose proof (read_v6_addrs_zero a skp Hwf) as [Zs Zd];
    pose proof (read_v6_addrs_frame a skp) as (Fsp & Fdp & _ & _ & Fmd);
    pose proof (read_v6_addrs_entry t skp (get_netns_from_sock skp) type
                  (u32 (Z.shiftr pid_tgid 32))) as (E1 & E2 & E3 & E4);
    remember (read_v6_addrs a skp) as r6 eqn:Er6; clear Er6
  end.
  cbv zeta in *. unfold saddr6_unset, daddr6_unset in *. simpl in Zs, Zd, Fsp, Fdp, Fmd.
  exists r6.
  destruct (truthy (saddr_h r6) || truthy (saddr_l r6)) eqn:Ts; simpl.
  2:{ apply addr_unset_truthy in Ts. tauto. }
  destruct (truthy (daddr_h r6) || truthy (daddr_l r6)) eqn:Td; simpl.
  2:{ apply addr_unset_truthy in Td. tauto. }
  apply addr_set_truthy in Ts, Td.
  repeat split; assumption || reflexivity.
Qed.

(** The IPv4 branch of the extractor on a connection. *)
Lemma read_conn_tuple_partial_v4 t skp pid_tgid type :
  sk_family skp = __AF_INET ->
  exists r,
    read_conn_tuple_partial t skp pid_tgid type =
      (if negb (truthy (saddr_l r)) || negb (truthy (daddr_l r)) then (0, r)
       else read_ports r skp) /\
    (saddr_l r = 0 <-> saddr4_unset t skp) /\ (daddr_l r = 0 <-> daddr4_unset t skp) /\
    (saddr_l t <> 0 -> saddr_l r = saddr_l t) /\ (daddr_l t <> 0 -> daddr_l r = daddr_l t) /\
    saddr_h r = saddr_h t /\ daddr_h r = daddr_h t /\
    sport r = sport t /\ dport r = dport t /\ metadata r = Z.lor type CONN_V4.
Proof.
  intros F4. unfold read_conn_tuple_partial, check_family. rewrite F4. simpl.
  match goal with |- context [read_v4_addrs ?a skp] =>
    pose proof (read_v4_addrs_zero a skp) as [Zs Zd];
    pose proof (read_v4_addrs_keep a skp) as [Ks Kd];
    pose proof (read_v4_addrs_frame a skp) as (Fsh & Fdh & Fsp & Fdp & _ & _ & Fmd);
    remember (read_v4_addrs a skp) as r4 eqn:Er4; clear Er4
  end.
  cbv zeta in *. unfold saddr4_unset, daddr4_unset in *.
  simpl in Zs, Zd, Ks, Kd, Fsh, Fdh, Fsp, Fdp, Fmd.
  exists r4. tauto.
Qed.

(** Evaluate the field accesses of a tuple built by the setters. *)
Ltac fields :=
  cbn [saddr_h saddr_l daddr_h daddr_l sport dport netns pid metadata
       set_saddr_h set_saddr_l set_daddr_h set_daddr_l set_sport set_dport
       set_netns set_pid set_metadata].

(** The extractor on an IPv6 route descriptor, once both addresses are set. *)
Lemma read_conn_tuple_partial_from_flowi6_set t (fl6 : flowi6) pid_tgid type :
  wf_flowi6 fl6 ->
  ~ in6_is_zero (fl6_saddr fl6) -> ~ in6_is_zero (fl6_daddr fl6) ->
  exists r,
    saddr_h r = fst (read_in6_addr (fl6_saddr fl6)) /\
    saddr_l r = snd (read_in6_addr (fl6_saddr fl6)) /\
    daddr_h r = fst (read_in6_addr (fl6_daddr fl6)) /\
    daddr_l r = snd (read_in6_addr (fl6_daddr fl6)) /\
    metadata r = type /\
    addr_set (saddr_h r) (saddr_l r) /\ addr_set (daddr_h r) (daddr_l r) /\
    read_conn_tuple_partial_from_flowi6 t fl6 pid_tgid type =
      let u := set_dport (fl6_dport fl6) (set_sport (fl6_sport fl6) (map_v6_to_v4 r)) in
      if (fl6_sport fl6 =? 0) || (fl6_dport fl6 =? 0) then (0, u)
      else (1, set_dport (bpf_ntohs (fl6_dport fl6)) (set_sport (bpf_ntohs (fl6_sport fl6)) u)).
Proof.
  intros (Ws & Wd & _) Hs Hd.
  pose proof (read_in6_addr_zero _ Ws) as Zs.
  pose proof (read_in6_addr_zero _ Wd) as Zd.
  unfold read_conn_tuple_partial_from_flowi6. cbv zeta.
  match goal with |- context [map_v6_to_v4 ?a] => exists a end.
  fields.
  assert (addr_set (fst (read_in6_addr (fl6_saddr fl6))) (snd (read_in6_addr (fl6_saddr fl6)))) as As.
  { unfold addr_set.
    destruct (Z.eq_dec (fst (read_in6_addr (fl6_saddr fl6))) 0); [|tauto].
    destruct (Z.eq_dec (snd (read_in6_addr (fl6_saddr fl6))) 0); tauto. }
  assert (addr_set (fst (read_in6_addr (fl6_daddr fl6))) (snd (read_in6_addr (fl6_daddr fl6)))) as Ad.
  { unfold addr_set.
    destruct (Z.eq_dec (fst (read_in6_addr (fl6_daddr fl6))) 0); [|tauto].
    destruct (Z.eq_dec (snd (read_in6_addr (fl6_daddr fl6))) 0); tauto. }
  repeat (split; [reflexivity || assumption|]).
  apply addr_set_truthy in As, Ad. rewrite As, Ad. reflexivity.
Qed.


Lemma read_in6_addr_embedded (a : in6_addr) :
  wf_in6 a -> embedded_ipv4 (snd (read_in6_addr a)) = s6_addr32_3 a.
Proof.
  intros (_ & _ & H2 & H3). unfold embedded_ipv4, read_in6_addr. cbn [snd].
  apply set_words_hi; assumption.
Qed.

(** C3.  A source/destination pair that the extractor recognises as
    IPv4-mapped is canonicalised to the pure IPv4 form, from a connection
    and from an IPv6 route descriptor alike: both high words are zero, each
    low word is the 32-bit IPv4 address embedded in the IPv6 address (the
    last of its four words), and [CONN_V4] -- not [CONN_V6] -- is or-ed
    into the metadata. *)
Theorem ipv4_mapped_pair_is_canonicalised
    t skp (fl6 : flowi6) (pid_tgid type : Z) :
  wf_sock skp -> wf_flowi6 fl6 ->
  (sk_family skp = __AF_INET6 -> is_ipv6_enabled = true ->
   ~ saddr6_unset t skp -> ~ daddr6_unset t skp ->
   sock_pair_mapped t skp = true ->
   let t' := snd (read_conn_tuple_partial t skp pid_tgid type) in
   saddr_h t' = 0 /\ daddr_h t' = 0 /\
   saddr_l t' = embedded_ipv4 (saddr_l (read_v6_addrs t skp)) /\
   daddr_l t' = embedded_ipv4 (daddr_l (read_v6_addrs t skp)) /\
   is_u32 (saddr_l t') /\ is_u32 (daddr_l t') /\
   (saddr_h t = 0 -> saddr_l t = 0 -> saddr_l t' = s6_addr32_3 (sk_v6_rcv_saddr skp)) /\
   (daddr_h t = 0 -> daddr_l t = 0 -> daddr_l t' = s6_addr32_3 (sk_v6_daddr skp)) /\
   metadata t' = Z.lor type CONN_V4 /\ has_flag CONN_V4 (metadata t')) /\
  (~ in6_is_zero (fl6_saddr fl6) -> ~ in6_is_zero (fl6_daddr fl6) ->
   flowi6_pair_mapped fl6 = true ->
   let t' := snd (read_conn_tuple_partial_from_flowi6 t fl6 pid_tgid type) in
   saddr_h t' = 0 /\ daddr_h t' = 0 /\
   saddr_l t' = s6_addr32_3 (fl6_saddr fl6) /\
   daddr_l t' = s6_addr32_3 (fl6_daddr fl6) /\
   metadata t' = Z.lor type CONN_V4 /\ has_flag CONN_V4 (metadata t')).
Proof.
  intros Hwf Hwf6. split.
  - intros F6 En Hs Hd Hm. cbv zeta.
    destruct (read_conn_tuple_partial_v6 t skp pid_tgid type Hwf F6 En Hs Hd)
      as (r & -> & Esh & Esl & Edh & Edl & _ & _ & Emd & _).
    unfold sock_pair_mapped in Hm. cbv zeta in Hm.
    rewrite <- Esh, <- Esl, <- Edh, <- Edl in Hm.
    destruct (map_v6_to_v4_mapped r Hm) as (Msh & Mdh & Msl & Mdl & Mmd).
    destruct (read_ports_frame (map_v6_to_v4 r) skp) as (-> & -> & -> & -> & _ & _ & ->).
    rewrite Msh, Mdh, Msl, Mdl, Mmd, Emd, Esl, Edl.
    destruct (read_v6_addrs_fresh t skp) as [Fs Fd].
    destruct Hwf as (_ & _ & _ & _ & _ & _ & _ & _ & Ws & Wd).
    repeat split; try reflexivity; try apply u32_range; try apply has_flag_lor.
    + intros Hh Hl. destruct (Fs Hh Hl) as [_ ->]. apply read_in6_addr_embedded, Ws.
    + intros Hh Hl. destruct (Fd Hh Hl) as [_ ->]. apply read_in6_addr_embedded, Wd.
  - intros Hs Hd Hm. cbv zeta.
    destruct (read_conn_tuple_partial_from_flowi6_set t fl6 pid_tgid type Hwf6 Hs Hd)
      as (r & Esh & Esl & Edh & Edl & Emd & _ & _ & ->).
    unfold flowi6_pair_mapped in Hm.
    rewrite <- Esh, <- Esl, <- Edh, <- Edl in Hm.
    destruct (map_v6_to_v4_mapped r Hm) as (Msh & Mdh & Msl & Mdl & Mmd).
    destruct Hwf6 as (Ws & Wd & _).
    cbv zeta.
    destruct ((fl6_sport fl6 =? 0) || (fl6_dport fl6 =? 0)); cbn [snd]; fields;
      rewrite Msh, Mdh, Msl, Mdl, Mmd, Emd, Esl, Edl,
        (read_in6_addr_embedded _ Ws), (read_in6_addr_embedded _ Wd);
      repeat split; try reflexivity; apply has_flag_lor.
Qed.




(** C8, as amended.  Extraction from a connection returns 0 or 1, and 0
    exactly when the family is neither v4 nor v6, or it is v6 while IPv6
    inspection is disabled, or a required field (either address, either
    port) is still zero after every fallback.  On unsupported input
    (unknown family, IPv6 while disabled) no address and no port of the
    tuple is modified; [pid], [metadata] and [netns] have been written,
    since they are stored before the family is looked at. *)
Theorem extraction_fails_exactly_when_unsupported_or_incomplete
    t skp (pid_tgid type : Z) :
  wf_sock skp ->
  let r := read_conn_tuple_partial t skp pid_tgid type in
  (fst r = 0 \/ fst r = 1) /\
  (fst r = 0 <-> unknown_family skp \/ ipv6_while_disabled skp \/ incomplete t skp) /\
  (unknown_family skp \/ ipv6_while_disabled skp ->
   same_endpoints t (snd r) /\
   pid (snd r) = u32 (Z.shiftr pid_tgid 32) /\
   metadata (snd r) = type /\
   netns (snd r) = sk_net_ns_inum skp).
Proof.
  intros Hwf. cbv zeta.
  pose proof (read_conn_tuple_partial_verdict t skp pid_tgid type Hwf) as Hv.
  cbv zeta in Hv. repeat split_and.
  - destruct Hv as [[-> _]|[-> _]]; [left|right]; reflexivity.
  - destruct Hv as [[-> Hc]|[-> Hc]]; split; intros H; try assumption; try reflexivity.
    + discriminate H.
    + contradiction.
  - intros Hu. rewrite (read_conn_tuple_partial_unsupported t skp pid_tgid type Hu).
    cbn [snd]. unfold same_endpoints. fields. repeat split; reflexivity.
Qed.

(** C9, as amended.  Extraction from a connection merges: a nonzero port
    is never changed; on an IPv4 socket a nonzero low address word is never
    changed (and the high words are not touched); on an IPv6 socket an
    address that is set is left as it is, unless the pair is recognised as
    IPv4-mapped and canonicalised; on any other family no address is
    touched.  The route-descriptor entry points do not merge: they store
    the addresses of the descriptor whatever the tuple held. *)
Theorem connection_extraction_merges
    t skp (fl4 : flowi4) (fl6 : flowi6) (pid_tgid type : Z) :
  let t' := snd (read_conn_tuple_partial t skp pid_tgid type) in
  let u4 := snd (read_conn_tuple_partial_from_flowi4 t fl4 pid_tgid type) in
  let u6 := snd (read_conn_tuple_partial_from_flowi6 t fl6 pid_tgid type) in
  (sport t <> 0 -> sport t' = sport t) /\
  (dport t <> 0 -> dport t' = dport t) /\
  (sk_family skp = __AF_INET ->
   (saddr_l t <> 0 -> saddr_l t' = saddr_l t) /\
   (daddr_l t <> 0 -> daddr_l t' = daddr_l t) /\
   saddr_h t' = saddr_h t /\ daddr_h t' = daddr_h t) /\
  (sk_family skp = __AF_INET6 -> sock_pair_mapped t skp = false ->
   (addr_set (saddr_h t) (saddr_l t) -> saddr_h t' = saddr_h t /\ saddr_l t' = saddr_l t) /\
   (addr_set (daddr_h t) (daddr_l t) -> daddr_h t' = daddr_h t /\ daddr_l t' = daddr_l t)) /\
  (unknown_family skp -> same_endpoints t t') /\
  (saddr_l u4 = fl4_saddr fl4 /\ daddr_l u4 = fl4_daddr fl4) /\
  (flowi6_pair_mapped fl6 = false ->
   saddr_h u6 = fst (read_in6_addr (fl6_saddr fl6)) /\
   saddr_l u6 = snd (read_in6_addr (fl6_saddr fl6)) /\
   daddr_h u6 = fst (read_in6_addr (fl6_daddr fl6)) /\
   daddr_l u6 = snd (read_in6_addr (fl6_daddr fl6))).
Proof.
  cbv zeta.
  assert (__AF_INET <> __AF_INET6) as Hne by (unfold __AF_INET, __AF_INET6; lia).
  assert ((sport t <> 0 ->
           sport (snd (read_conn_tuple_partial t skp pid_tgid type)) = sport t) /\
          (dport t <> 0 ->
           dport (snd (read_conn_tuple_partial t skp pid_tgid type)) = dport t)) as Hports.
  { unfold read_conn_tuple_partial, check_family.
    destruct (Z.eqb_spec (sk_family skp) __AF_INET) as [F4|F4]; cbv zeta.
    - match goal with |- context [read_v4_addrs ?a skp] =>
        pose proof (read_v4_addrs_frame a skp) as (_ & _ & Fsp & Fdp & _);
        remember (read_v4_addrs a skp) as r4 eqn:Er4; clear Er4
      end.
      cbv zeta in *. fields. simpl in Fsp, Fdp.
      destruct (read_ports_keep r4 skp) as [Ks Kd]. rewrite Fsp in Ks. rewrite Fdp in Kd.
      destruct (negb (truthy (saddr_l r4)) || negb (truthy (daddr_l r4))); cbn [snd];
        rewrite ?Fsp, ?Fdp; tauto.
    - destruct (Z.eqb_spec (sk_family skp) __AF_INET6) as [F6|F6]; cbv zeta;
        [|cbn [snd]; fields; tauto].
      destruct (negb is_ipv6_enabled); [cbn [snd]; fields; tauto|].
      match goal with |- context [read_v6_addrs ?a skp] =>
        pose proof (read_v6_addrs_frame a skp) as (Fsp & Fdp & _);
        remember (read_v6_addrs a skp) as r6 eqn:Er6; clear Er6
      end.
      cbv zeta in *. simpl in Fsp, Fdp.
      destruct (map_v6_to_v4_frame r6) as (Msp & Mdp & _).
      destruct (read_ports_keep (map_v6_to_v4 r6) skp) as [Ks Kd].
      rewrite Msp, Fsp in Ks. rewrite Mdp, Fdp in Kd.
      destruct (negb (truthy (saddr_h r6) || truthy (saddr_l r6))); cbn [snd];
        [rewrite ?Fsp, ?Fdp; tauto|].
      destruct (negb (truthy (daddr_h r6) || truthy (daddr_l r6))); cbn [snd];
        [rewrite ?Fsp, ?Fdp; tauto|].
      tauto. }
  destruct Hports as [Hsp Hdp]. repeat split_and; try assumption.
  - (* IPv4 socket *)
    intros F4.
    destruct (read_conn_tuple_partial_v4 t skp pid_tgid type F4)
      as (r & -> & _ & _ & Ks & Kd & Fsh & Fdh & _).
    destruct (read_ports_frame r skp) as (Psh & Psl & Pdh & Pdl & _).
    destruct (negb (truthy (saddr_l r)) || negb (truthy (daddr_l r))); cbn [snd];
      rewrite ?Psh, ?Psl, ?Pdh, ?Pdl; tauto.
  - (* IPv6 socket, pair not recognised *)
    intros F6 Hm.
    unfold sock_pair_mapped in Hm. cbv zeta in Hm.
    destruct (read_v6_addrs_keep t skp) as [Ks Kd].
    unfold read_conn_tuple_partial, check_family. rewrite F6.
    destruct (Z.eqb_spec __AF_INET6 __AF_INET) as [E|_]; [congruence|].
    rewrite Z.eqb_refl. cbv zeta.
    destruct (negb is_ipv6_enabled); [cbn [snd]; fields; tauto|].
    match goal with |- context [read_v6_addrs ?a skp] =>
      pose proof (read_v6_addrs_entry t skp (get_netns_from_sock skp) type
                    (u32 (Z.shiftr pid_tgid 32))) as (E1 & E2 & E3 & E4);
      remember (read_v6_addrs a skp) as r6 eqn:Er6; clear Er6
    end.
    cbv zeta in *.
    rewrite <- E1, <- E2, <- E3, <- E4 in *.
    destruct (map_v6_to_v4_plain r6 Hm) as (Msh & Mdh & Msl & Mdl & _).
    destruct (read_ports_frame (map_v6_to_v4 r6) skp) as (Psh & Psl & Pdh & Pdl & _).
    destruct (negb (truthy (saddr_h r6) || truthy (saddr_l r6))); cbn [snd]; [tauto|].
    destruct (negb (truthy (daddr_h r6) || truthy (daddr_l r6))); cbn [snd]; [tauto|].
    rewrite Psh, Psl, Pdh, Pdl, Msh, Mdh, Msl, Mdl. tauto.
  - (* any other family *)
    intros Hu.
    rewrite (read_conn_tuple_partial_unsupported t skp pid_tgid type (or_introl Hu)).
    cbn [snd]. unfold same_endpoints. fields. repeat split; reflexivity.
  - (* IPv4 route descriptor *)
    unfold read_conn_tuple_partial_from_flowi4. fields.
    destruct (negb (truthy (fl4_saddr fl4)) || negb (truthy (fl4_daddr fl4))); cbn [snd]; fields;
      [reflexivity|].
    destruct ((fl4_sport fl4 =? 0) || (fl4_dport fl4 =? 0)); reflexivity.
  - unfold read_conn_tuple_partial_from_flowi4. fields.
    destruct (negb (truthy (fl4_saddr fl4)) || negb (truthy (fl4_daddr fl4))); cbn [snd]; fields;
      [reflexivity|].
    destruct ((fl4_sport fl4 =? 0) || (fl4_dport fl4 =? 0)); reflexivity.
  - (* IPv6 route descriptor, pair not recognised *)
    intros Hm. unfold flowi6_pair_mapped in Hm.
    unfold read_conn_tuple_partial_from_flowi6. cbv zeta. fields.
    match goal with |- context [map_v6_to_v4 ?a] =>
      destruct (map_v6_to_v4_plain a Hm) as (Msh & Mdh & Msl & Mdl & _);
      remember (map_v6_to_v4 a) as r eqn:Er; clear Er
    end.
    cbv zeta in *. simpl in Msh, Mdh, Msl, Mdl.
    repeat match goal with |- context [if ?b then _ else _] => destruct b end;
      cbn [snd]; fields; rewrite ?Msh, ?Mdh, ?Msl, ?Mdl; repeat split; reflexivity.
Qed.

End Facts.
End SockFacts.

(** ** Batching, admission, dedup and the state store *)

Module KafkaFacts.
Import Int Tracer Bpf Kafka IntFacts.

Section Batching.

Context `{hd : Headers}.

Implicit Types (m : batch_maps) (st : kafka_batch_state_t) (b : kafka_batch_t)
  (tx : kafka_transaction_t) (rs : list kafka_transaction_t).

(** A full (or over-full) active page: the record is dropped and nothing
    is written. *)
Lemma kafka_enqueue_full cpu tx m st b :
  kafka_batch_state m !! cpu = Some st ->
  kafka_batches m !! kafka_get_batch_key cpu (idx st) = Some b ->
  KAFKA_BATCH_SIZE <= pos b ->
  kafka_enqueue cpu tx m = m.
Proof.
  intros Hst Hb Hfull. unfold kafka_enqueue, bpf_map_lookup_elem, kafka_batch_full.
  rewrite Hst. cbv zeta. rewrite Hb.
  destruct (Z.eqb_spec (pos b) KAFKA_BATCH_SIZE); [reflexivity|].
  destruct (Z.geb_spec (pos b) KAFKA_BATCH_SIZE); [|lia].
  rewrite orb_true_r. reflexivity.
Qed.

(** A page with room: the maps after the enqueue. *)
Lemma kafka_enqueue_room cpu tx m st b :
  kafka_batch_state m !! cpu = Some st ->
  kafka_batches m !! kafka_get_batch_key cpu (idx st) = Some b ->
  0 <= pos b < KAFKA_BATCH_SIZE ->
  kafka_enqueue cpu tx m =
  BatchMaps
    (<[cpu := if pos b + 1 =? KAFKA_BATCH_SIZE
              then KafkaBatchState (u64 (idx st + 1)) (idx_to_flush st)
              else st]> (kafka_batch_state m))
    (<[kafka_get_batch_key cpu (idx st) :=
         KafkaBatch (idx st) (pos b + 1) (<[Z.to_nat (pos b) := tx]> (txs b))]>
       (kafka_batches m))
    (kafka_batch_events m).
Proof.
  intros Hst Hb Hroom. unfold kafka_enqueue, bpf_map_lookup_elem, kafka_batch_full.
  rewrite Hst. cbv zeta. rewrite Hb.
  destruct (Z.eqb_spec (pos b) KAFKA_BATCH_SIZE); [lia|].
  destruct (Z.ltb_spec (pos b) 0); [lia|].
  destruct (Z.geb_spec (pos b) KAFKA_BATCH_SIZE); [lia|].
  reflexivity.
Qed.

(** Enqueuing records that do not fill the active page: the cursors stay,
    the records sit in the page in order from the old fill count on. *)
Lemma enqueue_all_below_capacity cpu rs : forall m st b,
  kafka_batch_state m !! cpu = Some st ->
  kafka_batches m !! kafka_get_batch_key cpu (idx st) = Some b ->
  0 <= pos b ->
  pos b + Z.of_nat (length rs) < KAFKA_BATCH_SIZE ->
  (Z.to_nat (pos b) + length rs <= length (txs b))%nat ->
  exists b',
    kafka_batch_state (enqueue_all cpu rs m) = kafka_batch_state m /\
    kafka_batches (enqueue_all cpu rs m) =
      <[kafka_get_batch_key cpu (idx st) := b']> (kafka_batches m) /\
    kafka_batch_events (enqueue_all cpu rs m) = kafka_batch_events m /\
    pos b' = pos b + Z.of_nat (length rs) /\
    length (txs b') = length (txs b) /\
    take (Z.to_nat (pos b')) (txs b') = take (Z.to_nat (pos b)) (txs b) ++ rs.
Proof.
  induction rs as [|tx rs IH]; intros m st b Hst Hb Hpos Hlen Hfit.
  - exists b. cbn [enqueue_all fold_left length].
    rewrite insert_id by exact Hb. rewrite Z.add_0_r, app_nil_r.
    repeat split; reflexivity.
  - cbn [length] in Hlen, Hfit.
    change (enqueue_all cpu (tx :: rs) m) with (enqueue_all cpu rs (kafka_enqueue cpu tx m)).
    rewrite (kafka_enqueue_room cpu tx m st b Hst Hb) by lia.
    destruct (Z.eqb_spec (pos b + 1) KAFKA_BATCH_SIZE); [lia|].
    set (b1 := KafkaBatch (idx st) (pos b + 1) (<[Z.to_nat (pos b) := tx]> (txs b))).
    set (m1 := BatchMaps _ _ _).
    destruct (IH m1 st b1) as (b' & Es & Eb & Ee & Ep & El & Et).
    + cbn. apply lookup_insert_eq.
    + cbn. apply lookup_insert_eq.
    + cbn. lia.
    + cbn. lia.
    + cbn. rewrite length_insert. lia.
    + exists b'. rewrite Es, Eb, Ee. subst m1 b1. cbn in *.
      rewrite insert_id by exact Hst. rewrite insert_insert_eq.
      repeat split; try reflexivity.
      * lia.
      * rewrite El. apply length_insert.
      * rewrite Et. replace (Z.to_nat (pos b + 1)) with (S (Z.to_nat (pos b))) by lia.
        rewrite (take_S_r _ _ tx).
        -- rewrite take_insert_ge by lia. rewrite <- app_assoc. reflexivity.
        -- apply list_lookup_insert_eq. lia.
Qed.


Lemma list_split_last {A : Type} (l : list A) (n : nat) :
  length l = S n -> exists l0 x, l = l0 ++ [x] /\ length l0 = n.
Proof.
  intros Hl. destruct l as [|a l] using rev_ind; [discriminate|].
  exists l, a. split; [reflexivity|].
  rewrite length_app in Hl. cbn in Hl. lia.
Qed.

Lemma list_take_all_but_last {A : Type} (l l0 : list A) (x : A) (n : nat) :
  length l = S n -> take n l = l0 -> l !! n = Some x -> l = l0 ++ [x].
Proof.
  intros Hl Ht Hx. rewrite <- Ht, <- (take_S_r _ _ _ Hx).
  symmetry. apply take_ge. lia.
Qed.

(** Enqueuing capacity + 1 records on a worker whose write cursor is 0 and
    whose pages 0 and 1 are empty. *)
Lemma enqueue_capacity_plus_one cpu m st b0 b1 rs r_last :
  2 <= KAFKA_BATCH_PAGES -> 2 <= KAFKA_BATCH_SIZE ->
  kafka_batch_state m !! cpu = Some st -> idx st = 0 ->
  kafka_batches m !! (cpu, 0) = Some b0 -> pos b0 = 0 ->
  length (txs b0) = Z.to_nat KAFKA_BATCH_SIZE ->
  kafka_batches m !! (cpu, 1) = Some b1 -> pos b1 = 0 ->
  length (txs b1) = Z.to_nat KAFKA_BATCH_SIZE ->
  length rs = Z.to_nat KAFKA_BATCH_SIZE ->
  let m' := enqueue_all cpu (rs ++ [r_last]) m in
  exists p0 p1 st',
    kafka_batches m' !! (cpu, 0) = Some p0 /\
    pos p0 = KAFKA_BATCH_SIZE /\ txs p0 = rs /\
    kafka_batches m' !! (cpu, 1) = Some p1 /\
    pos p1 = 1 /\ txs p1 !! 0%nat = Some r_last /\
    kafka_batch_state m' !! cpu = Some st' /\
    idx st' = idx st + 1 /\ idx_to_flush st' = idx_to_flush st /\
    kafka_batch_events m' = kafka_batch_events m.
Proof.
  intros Hpages Hsize Hst Hidx Hb0 Hp0 Hl0 Hb1 Hp1 Hl1 Hrs. cbv zeta.
  assert (kafka_get_batch_key cpu 0 = (cpu, 0)) as K0.
  { unfold kafka_get_batch_key. rewrite Z.mod_0_l by lia. reflexivity. }
  assert (kafka_get_batch_key cpu 1 = (cpu, 1)) as K1.
  { unfold kafka_get_batch_key. rewrite Z.mod_small by lia. reflexivity. }
  destruct (list_split_last rs (Z.to_nat (KAFKA_BATCH_SIZE - 1))) as (rs0 & x & -> & Hrs0).
  { rewrite Hrs. lia. }
  unfold enqueue_all. rewrite !fold_left_app. cbn [fold_left].
  fold (enqueue_all cpu rs0 m).
  (* the first capacity - 1 records *)
  destruct (enqueue_all_below_capacity cpu rs0 m st b0) as (b' & Es & Eb & Ee & Ep & El & Et).
  { exact Hst. } { rewrite Hidx, K0. exact Hb0. } { lia. } { lia. } { lia. }
  rewrite Hidx, K0 in Eb. rewrite Hp0 in Ep, Et. simpl in Ep, Et.
  set (m1 := enqueue_all cpu rs0 m) in *.
  (* the record that fills page 0 *)
  rewrite (kafka_enqueue_room cpu x m1 st b').
  2:{ rewrite Es. exact Hst. }
  2:{ rewrite Eb, Hidx, K0. apply lookup_insert_eq. }
  2:{ lia. }
  destruct (Z.eqb_spec (pos b' + 1) KAFKA_BATCH_SIZE) as [_|Hn]; [|lia].
  rewrite Hidx, K0. change (u64 (0 + 1)) with 1.
  set (p0 := KafkaBatch 0 (pos b' + 1) (<[Z.to_nat (pos b') := x]> (txs b'))).
  set (st1 := KafkaBatchState 1 (idx_to_flush st)).
  set (m2 := BatchMaps _ _ _).
  (* the record that opens page 1 *)
  rewrite (kafka_enqueue_room cpu r_last m2 st1 b1).
  2:{ subst m2. cbn. apply lookup_insert_eq. }
  2:{ subst m2 st1. cbn. rewrite K1, Eb.
      rewrite !lookup_insert_ne by (intros [=]). exact Hb1. }
  2:{ lia. }
  destruct (Z.eqb_spec (pos b1 + 1) KAFKA_BATCH_SIZE) as [Hn|_]; [lia|].
  subst m2 st1. cbn [idx idx_to_flush kafka_batch_state kafka_batches kafka_batch_events].
  rewrite K1.
  exists p0, (KafkaBatch 1 (pos b1 + 1) (<[Z.to_nat (pos b1) := r_last]> (txs b1))),
    (KafkaBatchState 1 (idx_to_flush st)).
  subst p0. cbn [pos txs idx idx_to_flush].
  repeat split_and.
  - rewrite lookup_insert_ne by (intros [=]). apply lookup_insert_eq.
  - lia.
  - apply (list_take_all_but_last _ _ _ (Z.to_nat (KAFKA_BATCH_SIZE - 1))).
    + rewrite length_insert, El, Hl0. lia.
    + replace (Z.to_nat (KAFKA_BATCH_SIZE - 1)) with (Z.to_nat (pos b')) by lia.
      rewrite take_insert_ge by lia. exact Et.
    + replace (Z.to_nat (KAFKA_BATCH_SIZE - 1)) with (Z.to_nat (pos b')) by lia.
      apply list_lookup_insert_eq. lia.
  - apply lookup_insert_eq.
  - lia.
  - rewrite Hp1. apply list_lookup_insert_eq. cbn. lia.
  - apply lookup_insert_eq.
  - lia.
  - reflexivity.
  - exact Ee.
Qed.


(** C1.  One enqueue on a worker whose cursors and active page exist: a
    page whose fill count has reached capacity makes the enqueue drop the
    record and write nothing; otherwise the record lands at position
    fill-count, the fill count grows by one, the write cursor advances by
    one (modulo 2^64) exactly when the page is thereby full, and nothing is
    flushed (flush cursor, event trace, other pages and other workers are
    untouched).  Hence capacity + 1 records enqueued from an empty state
    leave the first capacity records in page 0, the last one in page 1,
    and the write cursor advanced by exactly one. *)
Theorem enqueue_appends_or_drops cpu tx m st b :
  kafka_batch_state m !! cpu = Some st ->
  kafka_batches m !! kafka_get_batch_key cpu (idx st) = Some b ->
  length (txs b) = Z.to_nat KAFKA_BATCH_SIZE ->
  let key := kafka_get_batch_key cpu (idx st) in
  let m' := kafka_enqueue cpu tx m in
  (KAFKA_BATCH_SIZE <= pos b -> m' = m) /\
  (0 <= pos b < KAFKA_BATCH_SIZE ->
   exists st' b',
     kafka_batch_state m' !! cpu = Some st' /\
     kafka_batches m' !! key = Some b' /\
     pos b' = pos b + 1 /\
     txs b' !! Z.to_nat (pos b) = Some tx /\
     (forall i, i <> Z.to_nat (pos b) -> txs b' !! i = txs b !! i) /\
     length (txs b') = length (txs b) /\
     idx st' = (if pos b' =? KAFKA_BATCH_SIZE then u64 (idx st + 1) else idx st) /\
     idx_to_flush st' = idx_to_flush st /\
     kafka_batch_events m' = kafka_batch_events m /\
     (forall k, k <> key -> kafka_batches m' !! k = kafka_batches m !! k) /\
     (forall c, c <> cpu -> kafka_batch_state m' !! c = kafka_batch_state m !! c)) /\
  (forall rs r_last b1,
   2 <= KAFKA_BATCH_PAGES -> 2 <= KAFKA_BATCH_SIZE ->
   idx st = 0 -> pos b = 0 ->
   kafka_batches m !! (cpu, 1) = Some b1 -> pos b1 = 0 ->
   length (txs b1) = Z.to_nat KAFKA_BATCH_SIZE ->
   length rs = Z.to_nat KAFKA_BATCH_SIZE ->
   let mN := enqueue_all cpu (rs ++ [r_last]) m in
   exists p0 p1 stN,
     kafka_batches mN !! (cpu, 0) = Some p0 /\
     pos p0 = KAFKA_BATCH_SIZE /\ txs p0 = rs /\
     kafka_batches mN !! (cpu, 1) = Some p1 /\
     pos p1 = 1 /\ txs p1 !! 0%nat = Some r_last /\
     kafka_batch_state mN !! cpu = Some stN /\
     idx stN = idx st + 1 /\ idx_to_flush stN = idx_to_flush st /\
     kafka_batch_events mN = kafka_batch_events m).
Proof.
  intros Hst Hb Hlen. cbv zeta. repeat split_and.
  - intros Hfull. exact (kafka_enqueue_full cpu tx m st b Hst Hb Hfull).
  - intros Hroom. rewrite (kafka_enqueue_room cpu tx m st b Hst Hb Hroom).
    eexists _, _. cbn [kafka_batch_state kafka_batches kafka_batch_events].
    rewrite !lookup_insert_eq. split; [reflexivity|]. split; [reflexivity|].
    cbn [pos txs]. repeat split_and.
    + reflexivity.
    + apply list_lookup_insert_eq. lia.
    + intros i Hi. apply list_lookup_insert_ne. congruence.
    + apply length_insert.
    + destruct (pos b + 1 =? KAFKA_BATCH_SIZE); reflexivity.
    + destruct (pos b + 1 =? KAFKA_BATCH_SIZE); reflexivity.
    + reflexivity.
    + intros k Hk. apply lookup_insert_ne. congruence.
    + intros c Hc. apply lookup_insert_ne. congruence.
  - intros rs r_last b1 Hpages Hsize Hidx Hpos Hb1 Hp1 Hl1 Hrs.
    apply (enqueue_capacity_plus_one cpu m st b b1 rs r_last); try assumption.
    rewrite Hidx in Hb. unfold kafka_get_batch_key in Hb.
    rewrite Z.mod_0_l in Hb by lia. exact Hb.
Qed.


(** Nothing to export: the flush is a no-op. *)
Lemma kafka_flush_batch_idle cpu status m st :
  kafka_batch_state m !! cpu = Some st ->
  idx_to_flush st = idx st ->
  kafka_flush_batch cpu status m = m.
Proof.
  intros Hst Heq. unfold kafka_flush_batch, bpf_map_lookup_elem.
  rewrite Hst, Heq, Z.eqb_refl. reflexivity.
Qed.

(** A pending page: the maps after the flush. *)
Lemma kafka_flush_batch_pending cpu status m st b :
  kafka_batch_state m !! cpu = Some st ->
  idx_to_flush st <> idx st ->
  kafka_batches m !! kafka_get_batch_key cpu (idx_to_flush st) = Some b ->
  kafka_flush_batch cpu status m =
  BatchMaps
    (<[cpu := KafkaBatchState (idx st) (u64 (idx_to_flush st + 1))]> (kafka_batch_state m))
    (<[kafka_get_batch_key cpu (idx_to_flush st) := KafkaBatch (batch_idx b) 0 (txs b)]>
       (kafka_batches m))
    (kafka_batch_events m ++ [PerfOutput cpu b status]).
Proof.
  intros Hst Hne Hb. unfold kafka_flush_batch, bpf_map_lookup_elem.
  rewrite Hst. destruct (Z.eqb_spec (idx_to_flush st) (idx st)); [contradiction|].
  cbv zeta. rewrite Hb. reflexivity.
Qed.

(** C2, as amended.  A flush on a worker whose cursors exist: with the
    flush cursor equal to the write cursor it is a no-op; otherwise it
    emits the whole page at the flush cursor as one record, resets the fill
    count of that page to zero and advances the flush cursor by one (modulo
    2^64), whatever status the emit returns.  Hence, when exactly one page
    is pending, two consecutive flush calls emit exactly one event and the
    second call changes nothing. *)
Theorem flush_exports_the_pending_page cpu status m st :
  kafka_batch_state m !! cpu = Some st ->
  let key := kafka_get_batch_key cpu (idx_to_flush st) in
  let m' := kafka_flush_batch cpu status m in
  (idx_to_flush st = idx st -> m' = m) /\
  (idx_to_flush st <> idx st ->
   forall b, kafka_batches m !! key = Some b ->
   kafka_batch_events m' = kafka_batch_events m ++ [PerfOutput cpu b status] /\
   kafka_batches m' = <[key := KafkaBatch (batch_idx b) 0 (txs b)]> (kafka_batches m) /\
   kafka_batch_state m' =
     <[cpu := KafkaBatchState (idx st) (u64 (idx_to_flush st + 1))]> (kafka_batch_state m) /\
   (forall status',
      kafka_batches (kafka_flush_batch cpu status' m) = kafka_batches m' /\
      kafka_batch_state (kafka_flush_batch cpu status' m) = kafka_batch_state m')) /\
  (idx st = u64 (idx_to_flush st + 1) ->
   forall b status2, kafka_batches m !! key = Some b ->
   let m'' := kafka_flush_batch cpu status2 m' in
   m'' = m' /\
   kafka_batch_events m'' = kafka_batch_events m ++ [PerfOutput cpu b status]).
Proof.
  intros Hst. cbv zeta. repeat split_and.
  - intros Heq. exact (kafka_flush_batch_idle cpu status m st Hst Heq).
  - intros Hne b Hb.
    rewrite (kafka_flush_batch_pending cpu status m st b Hst Hne Hb).
    repeat split_and; try reflexivity.
    intros status'. rewrite (kafka_flush_batch_pending cpu status' m st b Hst Hne Hb).
    split; reflexivity.
  - intros Hone b status2 Hb.
    assert (idx_to_flush st <> idx st) as Hne.
    { rewrite Hone. unfold u64.
      pose proof (Z.mod_pos_bound (idx_to_flush st + 1) (2 ^ 64) ltac:(lia)) as Hr.
      intros E. rewrite <- E in Hr.
      destruct (Z.eq_dec (idx_to_flush st + 1) (2 ^ 64)) as [E2|E2].
      - rewrite E2, Z.mod_same in E by lia. lia.
      - rewrite Z.mod_small in E by lia. lia. }
    rewrite (kafka_flush_batch_pending cpu status m st b Hst Hne Hb).
    rewrite (kafka_flush_batch_idle cpu status2 _
               (KafkaBatchState (idx st) (u64 (idx_to_flush st + 1)))).
    + split; reflexivity.
    + cbn. apply lookup_insert_eq.
    + cbn. symmetry. exact Hone.
Qed.

End Batching.

Section Admission.

Context `{hd : Headers}.

Implicit Types (kafka : kafka_transaction_t) (skb : sk_buff) (skb_info : skb_info_t)
  (last_seq : gmap conn_tuple_t Z).

Lemma update_any_has_room (cap : nat) last_seq (k : conn_tuple_t) (v : Z) :
  has_room cap last_seq k ->
  bpf_map_update_with_telemetry cap last_seq k v BPF_ANY = <[k := v]> last_seq.
Proof.
  unfold has_room, bpf_map_update_with_telemetry. intros [[x Hx]|Hsz].
  - rewrite Hx. reflexivity.
  - destruct (last_seq !! k); [reflexivity|].
    destruct (decide (size last_seq < cap)%nat); [reflexivity|contradiction].
Qed.

Lemma kafka_allow_packet_not_tcp kafka skb skb_info last_seq :
  ~ is_tcp kafka -> kafka_allow_packet kafka skb skb_info last_seq = (false, last_seq).
Proof.
  unfold is_tcp, kafka_allow_packet. intros Hn.
  destruct (Z.eq_dec (Z.land (metadata (tup kafka)) CONN_TYPE_TCP) 0) as [E|E];
    [|contradiction].
  rewrite (proj2 (truthy_false _) E). reflexivity.
Qed.

(** The verdict on a TCP segment with payload is the verdict of the
    sequence check. *)
Lemma kafka_allow_packet_dedup kafka skb skb_info last_seq :
  is_tcp kafka -> has_payload skb skb_info ->
  kafka_allow_packet kafka skb skb_info last_seq =
  if bool_decide (last_seq !! tup kafka = Some (skb_tcp_seq skb_info))
  then (false, last_seq)
  else (true, bpf_map_update_with_telemetry kafka_last_tcp_seq_max_entries
                last_seq (tup kafka) (skb_tcp_seq skb_info) BPF_ANY).
Proof.
  unfold is_tcp, has_payload, kafka_allow_packet, bpf_map_lookup_elem.
  intros Htcp Hpay.
  rewrite (proj2 (truthy_true _) Htcp). cbn [negb].
  destruct (Z.eqb_spec (data_off skb_info) (len skb)); [contradiction|].
  cbv zeta.
  destruct (last_seq !! tup kafka) as [s|] eqn:Es.
  - destruct (Z.eqb_spec s (skb_tcp_seq skb_info)) as [->|Hs].
    + rewrite bool_decide_eq_true_2 by reflexivity. reflexivity.
    + rewrite bool_decide_eq_false_2 by congruence. reflexivity.
  - rewrite bool_decide_eq_false_2 by congruence. reflexivity.
Qed.

(** C4.  A segment of a tuple not flagged TCP is never admitted.  A TCP
    segment without payload is admitted exactly when its flags include FIN
    or RST, whatever the dedup map holds, and the map is left alone.  A TCP
    segment with payload is admitted exactly when the sequence check lets
    it through. *)
Theorem admission_filter_policy kafka skb skb_info last_seq :
  let r := kafka_allow_packet kafka skb skb_info last_seq in
  (~ is_tcp kafka -> r = (false, last_seq)) /\
  (is_tcp kafka -> ~ has_payload skb skb_info ->
   (fst r = true <->
    Z.land (tcp_flags skb_info) TCPHDR_FIN <> 0 \/
    Z.land (tcp_flags skb_info) TCPHDR_RST <> 0) /\
   snd r = last_seq /\
   (forall last_seq', fst (kafka_allow_packet kafka skb skb_info last_seq') = fst r)) /\
  (is_tcp kafka -> has_payload skb skb_info ->
   (fst r = true <-> last_seq !! tup kafka <> Some (skb_tcp_seq skb_info))).
Proof.
  cbv zeta. repeat split_and.
  - apply kafka_allow_packet_not_tcp.
  - unfold is_tcp, has_payload, kafka_allow_packet. intros Htcp Hemp.
    rewrite (proj2 (truthy_true _) Htcp). cbn [negb].
    destruct (Z.eqb_spec (data_off skb_info) (len skb)); [|contradiction].
    cbn [fst snd]. repeat split_and.
    + apply land_lor_truthy.
    + reflexivity.
    + intros last_seq'. reflexivity.
  - intros Htcp Hpay. rewrite (kafka_allow_packet_dedup _ _ _ _ Htcp Hpay).
    destruct (decide (last_seq !! tup kafka = Some (skb_tcp_seq skb_info))) as [E|E].
    + rewrite bool_decide_eq_true_2 by exact E. cbn [fst]. split; [discriminate|contradiction].
    + rewrite bool_decide_eq_false_2 by exact E. cbn [fst]. split; [intros _; exact E|reflexivity].
Qed.

Lemma not_has_room (cap : nat) last_seq (k : conn_tuple_t) :
  ~ has_room cap last_seq k -> last_seq !! k = None /\ ~ (size last_seq < cap)%nat.
Proof.
  unfold has_room. intros Hn. split.
  - destruct (last_seq !! k) eqn:E; [|reflexivity]. exfalso. apply Hn. left. eauto.
  - intros Hsz. apply Hn. right. exact Hsz.
Qed.

Lemma update_any_full (cap : nat) last_seq (k : conn_tuple_t) (v : Z) :
  ~ has_room cap last_seq k ->
  bpf_map_update_with_telemetry cap last_seq k v BPF_ANY = last_seq.
Proof.
  intros Hn. destruct (not_has_room _ _ _ Hn) as [Hk Hsz].
  unfold bpf_map_update_with_telemetry. rewrite Hk.
  destruct (decide (size last_seq < cap)%nat); [contradiction|reflexivity].
Qed.

(** C5, as amended.  The sequence check on a TCP segment with payload,
    presented twice in a row.  When its sequence number is the one stored
    for its tuple it is rejected both times and the map is left alone.
    Otherwise it is accepted; if the map can take the entry (the tuple has
    one, or there is room) its sequence number replaces the stored one and
    the second presentation is rejected, changing nothing.  If the tuple
    has no entry and the map is full, nothing is stored and the second
    presentation is accepted again. *)
Theorem dedup_guard_rejects_a_stored_repeat kafka skb skb_info last_seq :
  is_tcp kafka -> has_payload skb skb_info ->
  let seq := skb_tcp_seq skb_info in
  let r1 := kafka_allow_packet kafka skb skb_info last_seq in
  let r2 := kafka_allow_packet kafka skb skb_info (snd r1) in
  (last_seq !! tup kafka = Some seq ->
   r1 = (false, last_seq) /\ r2 = (false, last_seq)) /\
  (last_seq !! tup kafka <> Some seq ->
   has_room kafka_last_tcp_seq_max_entries last_seq (tup kafka) ->
   r1 = (true, <[tup kafka := seq]> last_seq) /\ r2 = (false, snd r1)) /\
  (~ has_room kafka_last_tcp_seq_max_entries last_seq (tup kafka) ->
   r1 = (true, last_seq) /\ r2 = (true, last_seq)).
Proof.
  intros Htcp Hpay. cbv zeta.
  rewrite (kafka_allow_packet_dedup _ _ _ last_seq Htcp Hpay).
  repeat split_and.
  - intros E. rewrite bool_decide_eq_true_2 by exact E. cbn [snd].
    rewrite (kafka_allow_packet_dedup _ _ _ last_seq Htcp Hpay).
    rewrite bool_decide_eq_true_2 by exact E. split; reflexivity.
  - intros E Hroom. rewrite bool_decide_eq_false_2 by exact E.
    rewrite (update_any_has_room _ _ _ _ Hroom). cbn [snd].
    rewrite (kafka_allow_packet_dedup _ _ _ _ Htcp Hpay).
    rewrite bool_decide_eq_true_2 by apply lookup_insert_eq.
    split; reflexivity.
  - intros Hfull. destruct (not_has_room _ _ _ Hfull) as [Hk _].
    rewrite bool_decide_eq_false_2 by congruence.
    rewrite (update_any_full _ _ _ _ Hfull). cbn [snd].
    rewrite (kafka_allow_packet_dedup _ _ _ last_seq Htcp Hpay).
    rewrite bool_decide_eq_false_2 by congruence.
    rewrite (update_any_full _ _ _ _ Hfull). split; reflexivity.
Qed.

(** C6.  Fetching the state of a flow inserts only if absent: when the map
    holds an entry for the tuple, the map is unchanged and that entry is
    returned; an entry is inserted only when there was none (and the map
    has room), and it is then the one returned; entries of other tuples
    are never touched. *)
Theorem fetch_state_inserts_only_if_absent
    (tx : kafka_transaction_t) (in_flight : gmap conn_tuple_t kafka_transaction_t) :
  let r := kafka_fetch_state tx in_flight in
  (forall e, in_flight !! tup tx = Some e -> r = (Some e, in_flight)) /\
  (in_flight !! tup tx = None ->
   ((size in_flight < kafka_in_flight_max_entries)%nat ->
    r = (Some tx, <[tup tx := tx]> in_flight)) /\
   (~ (size in_flight < kafka_in_flight_max_entries)%nat ->
    r = (None, in_flight))) /\
  (snd r <> in_flight -> in_flight !! tup tx = None) /\
  (forall k, k <> tup tx -> snd r !! k = in_flight !! k).
Proof.
  cbv zeta. unfold kafka_fetch_state, bpf_map_update_with_telemetry, bpf_map_lookup_elem.
  destruct (in_flight !! tup tx) as [e|] eqn:E.
  - rewrite E. repeat split_and.
    + intros e' [= ->]. reflexivity.
    + discriminate.
    + cbn [snd]. contradiction.
    + reflexivity.
  - destruct (decide (size in_flight < kafka_in_flight_max_entries)%nat) as [Hr|Hr].
    + rewrite lookup_insert_eq. repeat split_and.
      * discriminate.
      * intros _. split; [reflexivity|contradiction].
      * reflexivity.
      * intros k Hk. cbn [snd]. apply lookup_insert_ne. congruence.
    + rewrite E. repeat split_and.
      * discriminate.
      * intros _. split; [contradiction|reflexivity].
      * reflexivity.
      * reflexivity.
Qed.








End Admission.
End KafkaFacts.

(** ** The code on concrete inputs *)

Module Examples.
Import Int Tracer Sock Bpf Kafka Sample IntFacts SockFacts KafkaFacts.

(** Range and zero tests on concrete kernel objects. *)
Ltac concrete := vm_compute; intuition congruence.



Lemma wf_sk_mapped : wf_sock sk_mapped.
Proof. concrete. Qed.

Lemma wf_sk_unix : wf_sock sk_unix.
Proof. concrete. Qed.



Lemma wf_fl6_mapped : wf_flowi6 fl6_mapped.
Proof. concrete. Qed.

(** C3 on [::ffff:10.0.0.1 <-> ::ffff:10.0.0.2], from a connection and from
    a route descriptor. *)
Lemma ipv4_mapped_pair_is_canonicalised_witness :
  wf_sock sk_mapped /\ wf_flowi6 fl6_mapped /\
  sock_pair_mapped (hd := headers) zero_tuple sk_mapped = true /\
  flowi6_pair_mapped (hd := headers) fl6_mapped = true /\
  (let t' := snd (read_conn_tuple_partial (hd := headers) zero_tuple sk_mapped pid_tgid_sample 1) in
   saddr_h t' = 0 /\ daddr_h t' = 0 /\
   saddr_l t' = ip_10_0_0_1 /\ daddr_l t' = ip_10_0_0_2 /\
   has_flag (CONN_V4 (Headers := headers)) (metadata t')) /\
  (let t' := snd (read_conn_tuple_partial_from_flowi6 (hd := headers) zero_tuple fl6_mapped
                    pid_tgid_sample 1) in
   saddr_h t' = 0 /\ daddr_h t' = 0 /\
   saddr_l t' = ip_10_0_0_1 /\ daddr_l t' = ip_10_0_0_2 /\
   has_flag (CONN_V4 (Headers := headers)) (metadata t')).
Proof.
  destruct (ipv4_mapped_pair_is_canonicalised (hd := headers)
              zero_tuple sk_mapped fl6_mapped pid_tgid_sample 1
              wf_sk_mapped wf_fl6_mapped) as [Hsock Hfl6].
  split; [exact wf_sk_mapped|]. split; [exact wf_fl6_mapped|].
  split; [vm_compute; reflexivity|]. split; [vm_compute; reflexivity|].
  split.
  - destruct (Hsock ltac:(concrete) ltac:(concrete) ltac:(concrete) ltac:(concrete)
                ltac:(concrete))
      as (Hsh & Hdh & _ & _ & _ & _ & Hsl & Hdl & _ & Hflag).
    cbv zeta. repeat split_and; try assumption.
    + apply Hsl; reflexivity.
    + apply Hdl; reflexivity.
  - destruct (Hfl6 ltac:(concrete) ltac:(concrete) ltac:(concrete))
      as (Hsh & Hdh & Hsl & Hdl & _ & Hflag).
    cbv zeta. repeat split_and; assumption.
Defined.

(** C1 on CPU 0 of the empty worker: 16 records. *)
Lemma enqueue_appends_or_drops_witness :
  kafka_batch_state worker_empty !! 0 = Some (KafkaBatchState 0 0) /\
  kafka_batches worker_empty !! kafka_get_batch_key (hd := headers) 0 0 = Some empty_page /\
  exists p0 p1 stN,
    kafka_batches (enqueue_all (hd := headers) 0 (records 15 ++ [record 16]) worker_empty)
      !! (0, 0) = Some p0 /\
    pos p0 = 15 /\ txs p0 = records 15 /\
    kafka_batches (enqueue_all (hd := headers) 0 (records 15 ++ [record 16]) worker_empty)
      !! (0, 1) = Some p1 /\
    pos p1 = 1 /\ txs p1 !! 0%nat = Some (record 16) /\
    kafka_batch_state (enqueue_all (hd := headers) 0 (records 15 ++ [record 16]) worker_empty)
      !! 0 = Some stN /\
    idx stN = 0 + 1 /\ idx_to_flush stN = 0 /\
    kafka_batch_events
      (enqueue_all (hd := headers) 0 (records 15 ++ [record 16]) worker_empty) = [].
Proof.
  split; [vm_compute; reflexivity|]. split; [vm_compute; reflexivity|].
  destruct (enqueue_appends_or_drops (hd := headers) 0 (record 1) worker_empty
              (KafkaBatchState 0 0) empty_page
              ltac:(vm_compute; reflexivity) ltac:(vm_compute; reflexivity)
              ltac:(vm_compute; reflexivity)) as (_ & _ & Hrun).
  exact (Hrun (records 15) (record 16) empty_page
           ltac:(vm_compute; congruence) ltac:(vm_compute; congruence)
           ltac:(reflexivity) ltac:(reflexivity)
           ltac:(vm_compute; reflexivity) ltac:(reflexivity)
           ltac:(vm_compute; reflexivity) ltac:(vm_compute; reflexivity)).
Defined.

(** Counterexample to C2: with two pages pending, two consecutive flush
    calls emit two events; with no page pending, none. *)
Lemma two_flushes_need_not_emit_one_event :
  kafka_batch_state worker_two_pending !! 0 = Some (KafkaBatchState 2 0) /\
  length (kafka_batch_events
            (kafka_flush_batch (hd := headers) 0 0
               (kafka_flush_batch (hd := headers) 0 0 worker_two_pending))) = 2%nat /\
  length (kafka_batch_events
            (kafka_flush_batch (hd := headers) 0 0
               (kafka_flush_batch (hd := headers) 0 0 worker_empty))) = 0%nat.
Proof. vm_compute. repeat split; reflexivity. Qed.

(** C2, as amended, with one page pending; the first emit fails. *)
Lemma flush_exports_the_pending_page_witness :
  kafka_batch_state worker_one_pending !! 0 = Some (KafkaBatchState 1 0) /\
  exists b,
    kafka_batches worker_one_pending !! (0, 0) = Some b /\ pos b = 15 /\
    kafka_flush_batch (hd := headers) 0 0
      (kafka_flush_batch (hd := headers) 0 (-2) worker_one_pending) =
    kafka_flush_batch (hd := headers) 0 (-2) worker_one_pending /\
    kafka_batch_events
      (kafka_flush_batch (hd := headers) 0 0
         (kafka_flush_batch (hd := headers) 0 (-2) worker_one_pending)) =
    kafka_batch_events worker_one_pending ++ [PerfOutput 0 b (-2)].
Proof.
  split; [vm_compute; reflexivity|].
  destruct (flush_exports_the_pending_page (hd := headers) 0 (-2) worker_one_pending
              (KafkaBatchState 1 0) ltac:(vm_compute; reflexivity)) as (_ & _ & Htwice).
  exists (KafkaBatch 0 15 (records 15)).
  split; [vm_compute; reflexivity|]. split; [reflexivity|].
  exact (Htwice ltac:(reflexivity) (KafkaBatch 0 15 (records 15)) 0
           ltac:(vm_compute; reflexivity)).
Defined.

(** Counterexample to C5: the dedup map is full and holds no entry for the
    flow; the segment is accepted, its sequence number is not stored, and
    the identical segment presented again is accepted again. *)
Lemma full_map_admits_the_same_segment_twice :
  is_tcp (hd := headers_one_entry) flow /\ has_payload skb_100 (data_segment 9 24) /\
  full_dedup_map !! flow_tuple = None /\
  kafka_allow_packet (hd := headers_one_entry) flow skb_100 (data_segment 9 24)
    full_dedup_map = (true, full_dedup_map) /\
  kafka_allow_packet (hd := headers_one_entry) flow skb_100 (data_segment 9 24)
    (snd (kafka_allow_packet (hd := headers_one_entry) flow skb_100 (data_segment 9 24)
            full_dedup_map)) = (true, full_dedup_map).
Proof.
  split; [concrete|]. split; [concrete|]. repeat split; vm_compute; reflexivity.
Qed.

Lemma full_dedup_map_has_no_room :
  ~ has_room (kafka_last_tcp_seq_max_entries (Headers := headers_one_entry))
      full_dedup_map flow_tuple.
Proof. intros [[x Hx]|Hsz]; [vm_compute in Hx; discriminate Hx|vm_compute in Hsz; lia]. Qed.

(** C5, as amended, on the first data segment of a flow presented twice:
    to a map with room, and to the full map. *)
Lemma dedup_guard_rejects_a_stored_repeat_witness :
  is_tcp (hd := headers) flow /\ has_payload skb_100 (data_segment 1000 24) /\
  kafka_allow_packet (hd := headers) flow skb_100 (data_segment 1000 24) ∅ =
    (true, {[ flow_tuple := 1000 ]}) /\
  kafka_allow_packet (hd := headers) flow skb_100 (data_segment 1000 24)
    {[ flow_tuple := 1000 ]} = (false, {[ flow_tuple := 1000 ]}) /\
  kafka_allow_packet (hd := headers_one_entry) flow skb_100 (data_segment 1000 24)
    full_dedup_map = (true, full_dedup_map).
Proof.
  assert (is_tcp (hd := headers) flow) as Htcp by concrete.
  assert (has_payload skb_100 (data_segment 1000 24)) as Hpay by concrete.
  destruct (dedup_guard_rejects_a_stored_repeat (hd := headers) flow skb_100
              (data_segment 1000 24) ∅ Htcp Hpay) as (_ & Hroom & _).
  destruct (Hroom ltac:(rewrite lookup_empty; discriminate) ltac:(right; vm_compute; lia))
    as [Hfirst Hsecond].
  destruct (dedup_guard_rejects_a_stored_repeat (hd := headers_one_entry) flow skb_100
              (data_segment 1000 24) full_dedup_map ltac:(concrete) Hpay) as (_ & _ & Hfull).
  destruct (Hfull full_dedup_map_has_no_room) as [Hfirst' _].
  split; [exact Htcp|]. split; [exact Hpay|].
  assert (kafka_allow_packet (hd := headers) flow skb_100 (data_segment 1000 24) ∅ =
          (true, {[ flow_tuple := 1000 ]})) as E by (rewrite Hfirst; reflexivity).
  split; [exact E|]. split; [|exact Hfirst'].
  rewrite E in Hsecond. exact Hsecond.
Defined.



(** Counterexample to C8: on a socket of an unknown family the extractor
    has modified the tuple ([pid], [metadata] and [netns] are written). *)
Lemma unsupported_input_modifies_the_tuple :
  unknown_family sk_unix /\
  fst (read_conn_tuple_partial (hd := headers) zero_tuple sk_unix pid_tgid_sample 1) = 0 /\
  snd (read_conn_tuple_partial (hd := headers) zero_tuple sk_unix pid_tgid_sample 1) =
    ConnTuple 0 0 0 0 0 0 4026531840 4242 1 /\
  snd (read_conn_tuple_partial (hd := headers) zero_tuple sk_unix pid_tgid_sample 1) <>
    zero_tuple.
Proof.
  split; [concrete|]. split; [vm_compute; reflexivity|].
  split; [vm_compute; reflexivity|]. vm_compute. discriminate.
Qed.

(** C8, as amended, on that socket. *)
Lemma extraction_fails_exactly_when_unsupported_or_incomplete_witness :
  wf_sock sk_unix /\ unknown_family sk_unix /\
  fst (read_conn_tuple_partial (hd := headers) zero_tuple sk_unix pid_tgid_sample 1) = 0 /\
  same_endpoints zero_tuple
    (snd (read_conn_tuple_partial (hd := headers) zero_tuple sk_unix pid_tgid_sample 1)).
Proof.
  assert (unknown_family sk_unix) as Hu by concrete.
  destruct (extraction_fails_exactly_when_unsupported_or_incomplete (hd := headers)
              zero_tuple sk_unix pid_tgid_sample 1 wf_sk_unix) as (_ & Hiff & Hframe).
  split; [exact wf_sk_unix|]. split; [exact Hu|].
  split.
  - apply Hiff. left. exact Hu.
  - apply Hframe. left. exact Hu.
Defined.

(** Counterexample to C9: the IPv4 route-descriptor entry point overwrites
    a source address that is already set. *)
Lemma route_descriptor_overwrites_a_set_address :
  saddr_l tuple_with_saddr = ip_10_0_0_9 /\ ip_10_0_0_9 <> 0 /\
  fst (read_conn_tuple_partial_from_flowi4 tuple_with_saddr fl4_sample pid_tgid_sample 1) = 1 /\
  saddr_l (snd (read_conn_tuple_partial_from_flowi4 tuple_with_saddr fl4_sample
                  pid_tgid_sample 1)) = ip_10_0_0_1 /\
  ip_10_0_0_1 <> ip_10_0_0_9.
Proof.
  split; [reflexivity|]. split; [concrete|]. split; [vm_compute; reflexivity|].
  split; [vm_compute; reflexivity|]. concrete.
Qed.



(** C4 on three segments without payload and on a UDP tuple: an ACK alone
    is rejected; a FIN is admitted although the dedup map holds its very
    sequence number; nothing of a non-TCP tuple is admitted. *)
Lemma admission_filter_policy_witness :
  kafka_allow_packet (hd := headers) flow skb_100 (bare_segment 7 16) ∅ = (false, ∅) /\
  fst (kafka_allow_packet (hd := headers) flow skb_100 (bare_segment 7 17)
         {[ flow_tuple := 7 ]}) = true /\
  kafka_allow_packet (hd := headers) (KafkaTransaction zero_tuple 0 [] []) skb_100
    (data_segment 7 24) ∅ = (false, ∅).
Proof.
  destruct (admission_filter_policy (hd := headers) flow skb_100 (bare_segment 7 17)
              {[ flow_tuple := 7 ]}) as (_ & Hbare & _).
  destruct (Hbare ltac:(concrete) ltac:(concrete)) as (Hfin & _ & _).
  destruct (admission_filter_policy (hd := headers) (KafkaTransaction zero_tuple 0 [] [])
              skb_100 (data_segment 7 24) ∅) as (Hudp & _).
  split; [vm_compute; reflexivity|]. split.
  - apply Hfin. left. concrete.
  - apply Hudp. concrete.
Defined.

(** C6 on a flow without state, then on the same flow with other progress
    in hand: the stored state comes back and the map is unchanged. *)
Lemma fetch_state_inserts_only_if_absent_witness :
  kafka_fetch_state (hd := headers) (record 1) ∅ =
    (Some (record 1), {[ flow_tuple := record 1 ]}) /\
  kafka_fetch_state (hd := headers) (record 5) {[ flow_tuple := record 1 ]} =
    (Some (record 1), {[ flow_tuple := record 1 ]}).
Proof.
  destruct (fetch_state_inserts_only_if_absent (hd := headers) (record 1) ∅)
    as (_ & Hnew & _).
  destruct (fetch_state_inserts_only_if_absent (hd := headers) (record 5)
              {[ flow_tuple := record 1 ]}) as (Hold & _).
  split.
  - destruct (Hnew ltac:(apply lookup_empty)) as [Hins _].
    rewrite Hins by (vm_compute; lia). reflexivity.
  - apply Hold. apply lookup_singleton_eq.
Defined.

(** C9, as amended, on a tuple that already holds a source address and an
    IPv4 socket bound to another one. *)
Lemma connection_extraction_merges_witness :
  saddr_l tuple_with_saddr = ip_10_0_0_9 /\ sk_rcv_saddr sk_v4 = ip_10_0_0_1 /\
  saddr_l (snd (read_conn_tuple_partial (hd := headers) tuple_with_saddr sk_v4
                  pid_tgid_sample 1)) = ip_10_0_0_9.
Proof.
  destruct (connection_extraction_merges (hd := headers) tuple_with_saddr sk_v4
              fl4_sample fl6_sample pid_tgid_sample 1) as (_ & _ & H4 & _).
  destruct (H4 ltac:(reflexivity)) as (Hkeep & _).
  split; [reflexivity|]. split; [reflexivity|].
  apply Hkeep. concrete.
Defined.

End Examples.

(** * Further properties of the code *)

(** ** Tuple extraction *)

Module SockRunFacts.
Import Int Tracer Sock SockRun IntFacts SockFacts.

Section Facts.

Context `{hd : Headers}.

Implicit Types (t : conn_tuple_t) (skp : sock).

#[local] Arguments bpf_ntohs : simpl never.

(** Case analysis on the next zero test whose operand is already
    evaluated. *)
Ltac case_zero :=
  match goal with
  | |- context [?x =? 0] =>
      lazymatch x with
      | context [if _ then _ else _] => fail
      | _ => destruct (Z.eqb_spec x 0); simpl
      end
  end.

(** Evaluate the field accesses of a tuple built by the setters. *)
Ltac fields :=
  cbn [saddr_h saddr_l daddr_h daddr_l sport dport netns pid metadata
       set_saddr_h set_saddr_l set_daddr_h set_daddr_l set_sport set_dport
       set_netns set_pid set_metadata].

Lemma set_words_lo (lo hi : Z) :
  is_u32 lo -> is_u32 hi -> u32 (set_hi32 (set_lo32 0 lo) hi) = lo.
Proof.
  intros Hlo Hhi. rewrite set_words by assumption. unfold u32.
  rewrite <- !Z.land_ones by lia.
  rewrite Z.land_lor_distr_l, !Z.land_ones by lia.
  rewrite Z.shiftl_mul_pow2 by lia. rewrite Z.mod_mul by lia.
  rewrite Z.lor_0_r. apply Z.mod_small. exact Hlo.
Qed.

Lemma in6_of_words_read (a : in6_addr) :
  wf_in6 a ->
  in6_of_words (fst (read_in6_addr a)) (snd (read_in6_addr a)) = a.
Proof.
  intros (H0 & H1 & H2 & H3). destruct a as [w0 w1 w2 w3]. cbn in *.
  unfold in6_of_words, read_in6_addr. cbn [fst snd s6_addr32_0 s6_addr32_1 s6_addr32_2 s6_addr32_3].
  rewrite !set_words_lo, !set_words_hi by assumption. reflexivity.
Qed.

Lemma has_flag_lor_l (a b : Z) : has_flag a (Z.lor a b).
Proof. rewrite Z.lor_comm. apply has_flag_lor. Qed.

Lemma has_flag_refl (a : Z) : has_flag a a.
Proof. unfold has_flag. apply Z.land_diag. Qed.

Lemma read_ports_success t skp :
  fst (read_ports t skp) = 1 ->
  sport (snd (read_ports t skp)) <> 0 /\ dport (snd (read_ports t skp)) <> 0.
Proof.
  unfold read_ports. cbv zeta.
  match goal with |- context [if (?a =? 0) || (?b =? 0) then _ else _] =>
    destruct (Z.eqb_spec a 0); [cbn; discriminate|];
    destruct (Z.eqb_spec b 0); [cbn; discriminate|]
  end.
  cbn [orb fst snd]. intros _. split; assumption.
Qed.


(** X1.  The fallback order on an IPv4 socket.  When [read_conn_tuple]
    succeeds on an AF_INET socket, the tuple is exactly: source address
    [sk_rcv_saddr], or [inet_saddr] when that is zero; destination address
    [sk_daddr]; source port [sk_num], or the byte-swapped [inet_sport] when
    that is zero; destination port the byte-swapped [sk_dport]; the
    namespace of the socket; the upper half of [pid_tgid]; [type | CONN_V4];
    high address words zero. *)
Theorem ipv4_fields_follow_the_fallback_order skp (pid_tgid type : Z) :
  sk_family skp = __AF_INET ->
  fst (read_conn_tuple skp pid_tgid type) = 1 ->
  snd (read_conn_tuple skp pid_tgid type) =
  ConnTuple 0 (if sk_rcv_saddr skp =? 0 then inet_saddr skp else sk_rcv_saddr skp)
            0 (sk_daddr skp)
            (if sk_num skp =? 0 then bpf_ntohs (inet_sport skp) else sk_num skp)
            (bpf_ntohs (sk_dport skp))
            (sk_net_ns_inum skp) (u32 (Z.shiftr pid_tgid 32)) (Z.lor type CONN_V4).
Proof.
  intros F4. unfold read_conn_tuple, read_conn_tuple_partial, check_family.
  rewrite F4, Z.eqb_refl. cbv zeta.
  unfold read_v4_addrs, read_ports, read_sport, get_netns_from_sock, zero_tuple, truthy.
  simpl. repeat case_zero; intros E; try discriminate E; try reflexivity.
Qed.


(** X2.  An IPv6 address is stored without loss.  When [read_conn_tuple]
    succeeds on an AF_INET6 socket and the pair is not recognised as
    IPv4-mapped, the four 32-bit words of the socket's source and
    destination addresses are read back from the (high, low) words of the
    tuple: distinct addresses never share a tuple. *)
Theorem ipv6_address_is_read_back skp (pid_tgid type : Z) :
  wf_sock skp ->
  sk_family skp = __AF_INET6 ->
  fst (read_conn_tuple skp pid_tgid type) = 1 ->
  sock_pair_mapped zero_tuple skp = false ->
  let t' := snd (read_conn_tuple skp pid_tgid type) in
  in6_of_words (saddr_h t') (saddr_l t') = sk_v6_rcv_saddr skp /\
  in6_of_words (daddr_h t') (daddr_l t') = sk_v6_daddr skp.
Proof.
  intros Hwf F6 Hok Hplain. cbv zeta. unfold read_conn_tuple in *.
  destruct (read_conn_tuple_partial_verdict zero_tuple skp pid_tgid type Hwf)
    as [[E _]|[_ Hsup]]; [congruence|].
  assert (is_ipv6_enabled = true) as En.
  { destruct is_ipv6_enabled eqn:En; [reflexivity|].
    exfalso. apply Hsup. right. left. split; assumption. }
  assert (~ saddr6_unset zero_tuple skp) as Us.
  { intros U. apply Hsup. right. right. right. split; [exact F6|]. tauto. }
  assert (~ daddr6_unset zero_tuple skp) as Ud.
  { intros U. apply Hsup. right. right. right. split; [exact F6|]. tauto. }
  destruct (read_conn_tuple_partial_v6 zero_tuple skp pid_tgid type Hwf F6 En Us Ud)
    as (r & -> & Esh & Esl & Edh & Edl & _).
  unfold sock_pair_mapped in Hplain. cbv zeta in Hplain.
  rewrite <- Esh, <- Esl, <- Edh, <- Edl in Hplain.
  destruct (map_v6_to_v4_plain r Hplain) as (Msh & Mdh & Msl & Mdl & _).
  destruct (read_ports_frame (map_v6_to_v4 r) skp) as (-> & -> & -> & -> & _).
  rewrite Msh, Mdh, Msl, Mdl, Esh, Esl, Edh, Edl.
  destruct (read_v6_addrs_fresh zero_tuple skp) as [Fs Fd].
  destruct (Fs eq_refl eq_refl) as [-> ->]. destruct (Fd eq_refl eq_refl) as [-> ->].
  destruct Hwf as (_ & _ & _ & _ & _ & _ & _ & _ & Ws & Wd).
  split; apply in6_of_words_read; assumption.
Qed.

(** X3.  A successful return can be trusted.  Whenever
    [read_conn_tuple_partial] returns 1, both ports of the tuple are
    nonzero, the family is AF_INET, or AF_INET6 with IPv6 inspection
    enabled, and the addresses are set: both low words on IPv4, both
    128-bit addresses on IPv6 unless the pair was canonicalised. *)
Theorem success_means_a_resolved_tuple t skp (pid_tgid type : Z) :
  fst (read_conn_tuple_partial t skp pid_tgid type) = 1 ->
  let t' := snd (read_conn_tuple_partial t skp pid_tgid type) in
  sport t' <> 0 /\ dport t' <> 0 /\
  (sk_family skp = __AF_INET \/
   (sk_family skp = __AF_INET6 /\ is_ipv6_enabled = true)) /\
  (sk_family skp = __AF_INET -> saddr_l t' <> 0 /\ daddr_l t' <> 0) /\
  (sk_family skp = __AF_INET6 -> sock_pair_mapped t skp = false ->
   addr_set (saddr_h t') (saddr_l t') /\ addr_set (daddr_h t') (daddr_l t')).
Proof.
  cbv zeta.
  assert (__AF_INET <> __AF_INET6) as Hne by (unfold __AF_INET, __AF_INET6; lia).
  unfold read_conn_tuple_partial, check_family.
  destruct (Z.eqb_spec (sk_family skp) __AF_INET) as [F4|F4]; cbv zeta.
  - match goal with |- context [read_v4_addrs ?a skp] =>
      remember (read_v4_addrs a skp) as r4 eqn:Er4; clear Er4
    end.
    destruct (truthy (saddr_l r4)) eqn:Ts; [|cbn; discriminate].
    destruct (truthy (daddr_l r4)) eqn:Td; [|cbn; discriminate].
    cbn [negb orb]. intros Hok.
    destruct (read_ports_success r4 skp Hok) as [Hsp Hdp].
    destruct (read_ports_frame r4 skp) as (_ & -> & _ & -> & _).
    apply truthy_true in Ts, Td.
    repeat split_and; try assumption; [left; exact F4|tauto|congruence].
  - destruct (Z.eqb_spec (sk_family skp) __AF_INET6) as [F6|F6]; cbv zeta;
      [|cbn; discriminate].
    destruct is_ipv6_enabled eqn:En; [|cbn; discriminate]. cbn [negb].
    pose proof (read_v6_addrs_entry t skp (get_netns_from_sock skp) type
                  (u32 (Z.shiftr pid_tgid 32))) as (E1 & E2 & E3 & E4).
    cbv zeta in E1, E2, E3, E4.
    match goal with |- context [read_v6_addrs ?a skp] =>
      remember (read_v6_addrs a skp) as r6 eqn:Er6; clear Er6
    end.
    destruct (truthy (saddr_h r6) || truthy (saddr_l r6)) eqn:Ts; [|cbn; discriminate].
    destruct (truthy (daddr_h r6) || truthy (daddr_l r6)) eqn:Td; [|cbn; discriminate].
    cbn [negb]. intros Hok.
    destruct (read_ports_success (map_v6_to_v4 r6) skp Hok) as [Hsp Hdp].
    destruct (read_ports_frame (map_v6_to_v4 r6) skp) as (-> & -> & -> & -> & _).
    apply addr_set_truthy in Ts, Td.
    repeat split_and; try assumption; [right; split; [exact F6|reflexivity]|congruence|].
    intros _ Hplain. unfold sock_pair_mapped in Hplain. cbv zeta in Hplain.
    rewrite <- E1, <- E2, <- E3, <- E4 in Hplain.
    destruct (map_v6_to_v4_plain r6 Hplain) as (-> & -> & -> & -> & _).
    split; assumption.
Qed.


(** X4.  Extraction from a route descriptor succeeds exactly when the
    descriptor is resolved (both addresses and both ports nonzero):
    whatever the tuple held on entry and, for IPv6, whether or not IPv6
    inspection is enabled.  It returns 0 or 1, never writes [netns], and
    on success the ports of the tuple are the descriptor's ports in host
    byte order. *)
Theorem route_descriptor_extraction_verdict
    t (fl4 : flowi4) (fl6 : flowi6) (pid_tgid type : Z) :
  wf_flowi6 fl6 ->
  let r4 := read_conn_tuple_partial_from_flowi4 t fl4 pid_tgid type in
  let r6 := read_conn_tuple_partial_from_flowi6 t fl6 pid_tgid type in
  ((fst r4 = 1 <-> flowi4_resolved fl4) /\ (fst r4 = 0 \/ fst r4 = 1) /\
   netns (snd r4) = netns t /\
   (fst r4 = 1 ->
    sport (snd r4) = bpf_ntohs (fl4_sport fl4) /\
    dport (snd r4) = bpf_ntohs (fl4_dport fl4))) /\
  ((fst r6 = 1 <-> flowi6_resolved fl6) /\ (fst r6 = 0 \/ fst r6 = 1) /\
   netns (snd r6) = netns t /\
   (fst r6 = 1 ->
    sport (snd r6) = bpf_ntohs (fl6_sport fl6) /\
    dport (snd r6) = bpf_ntohs (fl6_dport fl6))).
Proof.
  intros Hwf6. cbv zeta. split.
  - unfold read_conn_tuple_partial_from_flowi4, flowi4_resolved, truthy. fields.
    destruct (Z.eqb_spec (fl4_saddr fl4) 0); cbn [negb orb fst snd]; fields;
      [repeat split_and; try tauto; try (split; [discriminate|tauto]); discriminate|].
    destruct (Z.eqb_spec (fl4_daddr fl4) 0); cbn [negb orb fst snd]; fields;
      [repeat split_and; try tauto; try (split; [discriminate|tauto]); discriminate|].
    destruct (Z.eqb_spec (fl4_sport fl4) 0); cbn [negb orb fst snd]; fields;
      [repeat split_and; try tauto; try (split; [discriminate|tauto]); discriminate|].
    destruct (Z.eqb_spec (fl4_dport fl4) 0); cbn [negb orb fst snd]; fields;
      [repeat split_and; try tauto; try (split; [discriminate|tauto]); discriminate|].
    repeat split_and; try tauto; try reflexivity; try (intros _; split; reflexivity).
  - destruct Hwf6 as (Ws & Wd & Wsp & Wdp).
    pose proof (read_in6_addr_zero _ Ws) as Zs.
    pose proof (read_in6_addr_zero _ Wd) as Zd.
    unfold read_conn_tuple_partial_from_flowi6, flowi6_resolved. cbv zeta. fields.
    destruct (truthy (fst (read_in6_addr (fl6_saddr fl6)))
              || truthy (snd (read_in6_addr (fl6_saddr fl6)))) eqn:Ts; cbn [negb fst snd]; fields.
    2:{ apply addr_unset_truthy in Ts.
        repeat split_and; try tauto; try (split; [discriminate|tauto]); discriminate. }
    destruct (truthy (fst (read_in6_addr (fl6_daddr fl6)))
              || truthy (snd (read_in6_addr (fl6_daddr fl6)))) eqn:Td; cbn [negb fst snd]; fields.
    2:{ apply addr_unset_truthy in Td.
        repeat split_and; try tauto; try (split; [discriminate|tauto]); discriminate. }
    apply addr_set_truthy in Ts, Td. unfold addr_set in Ts, Td.
    match goal with |- context [map_v6_to_v4 ?a] =>
      destruct (map_v6_to_v4_frame a) as (_ & _ & Mns & _);
      remember (map_v6_to_v4 a) as r eqn:Er; clear Er
    end.
    cbv zeta in Mns. fields.
    destruct (Z.eqb_spec (fl6_sport fl6) 0); cbn [negb orb fst snd]; fields;
      [repeat split_and; try tauto; try (split; [discriminate|tauto]); discriminate|].
    destruct (Z.eqb_spec (fl6_dport fl6) 0); cbn [negb orb fst snd]; fields;
      [repeat split_and; try tauto; try (split; [discriminate|tauto]); discriminate|].
    repeat split_and; try tauto; try reflexivity; try (intros _; split; reflexivity).
Qed.


(** [read_conn_tuple] on an IPv4 socket, in closed form. *)
Lemma read_conn_tuple_ipv4_closed skp (pid_tgid type : Z) :
  sk_family skp = __AF_INET ->
  read_conn_tuple skp pid_tgid type =
  let s := if sk_rcv_saddr skp =? 0 then inet_saddr skp else sk_rcv_saddr skp in
  let sp := if sk_num skp =? 0 then bpf_ntohs (inet_sport skp) else sk_num skp in
  let dp := bpf_ntohs (sk_dport skp) in
  let base := ConnTuple 0 s 0 (sk_daddr skp) 0 0 (sk_net_ns_inum skp)
                (u32 (Z.shiftr pid_tgid 32)) (Z.lor type CONN_V4) in
  if (s =? 0) || (sk_daddr skp =? 0) then (0, base)
  else if (sp =? 0) || (dp =? 0) then (0, set_dport dp (set_sport sp base))
  else (1, set_dport dp (set_sport sp base)).
Proof.
  intros F4. unfold read_conn_tuple, read_conn_tuple_partial, check_family.
  rewrite F4, Z.eqb_refl. cbv zeta.
  unfold read_v4_addrs, read_ports, read_sport, get_netns_from_sock, zero_tuple, truthy.
  simpl. repeat case_zero; try reflexivity; try contradiction; try congruence.
Qed.

(** X5.  The two IPv4 entry points agree.  For a socket and a route
    descriptor that describe the same flow, extraction into a zeroed tuple
    returns the same verdict from both, and on success the same addresses
    and the same host-order ports. *)
Theorem ipv4_entry_points_agree skp (fl4 : flowi4) (pid_tgid type : Z) :
  wf_flowi4 fl4 -> sock_matches_flowi4 skp fl4 ->
  let rs := read_conn_tuple skp pid_tgid type in
  let rf := read_conn_tuple_partial_from_flowi4 zero_tuple fl4 pid_tgid type in
  fst rs = fst rf /\
  (fst rs = 1 -> same_endpoints (snd rs) (snd rf)) /\
  pid (snd rs) = pid (snd rf).
Proof.
  intros (_ & _ & Wsp & Wdp) (F4 & Es1 & Es2 & Ed & Enum & Esp & Edp). cbv zeta.
  pose proof (bpf_ntohs_zero _ Wsp) as Zsp. pose proof (bpf_ntohs_zero _ Wdp) as Zdp.
  rewrite (read_conn_tuple_ipv4_closed skp pid_tgid type F4).
  rewrite Es1, Es2, Ed, Esp, Edp. cbv zeta.
  assert ((if fl4_saddr fl4 =? 0 then fl4_saddr fl4 else fl4_saddr fl4) = fl4_saddr fl4) as ->
    by (destruct (fl4_saddr fl4 =? 0); reflexivity).
  assert ((if sk_num skp =? 0 then bpf_ntohs (fl4_sport fl4) else sk_num skp)
          = bpf_ntohs (fl4_sport fl4)) as ->.
  { destruct Enum as [->| ->]; [reflexivity|].
    destruct (bpf_ntohs (fl4_sport fl4) =? 0); reflexivity. }
  unfold read_conn_tuple_partial_from_flowi4, zero_tuple, truthy, same_endpoints. fields.
  destruct (Z.eqb_spec (fl4_saddr fl4) 0) as [Hs|Hs]; cbn [negb orb fst snd]; fields;
    [repeat split_and; try reflexivity; discriminate|].
  destruct (Z.eqb_spec (fl4_daddr fl4) 0) as [Hd|Hd]; cbn [negb orb fst snd]; fields;
    [repeat split_and; try reflexivity; discriminate|].
  destruct (Z.eqb_spec (fl4_sport fl4) 0) as [Hp|Hp];
    destruct (Z.eqb_spec (fl4_dport fl4) 0) as [Hq|Hq];
    destruct (Z.eqb_spec (bpf_ntohs (fl4_sport fl4)) 0) as [Hp'|Hp'];
    destruct (Z.eqb_spec (bpf_ntohs (fl4_dport fl4)) 0) as [Hq'|Hq'];
    try tauto; cbn [negb orb fst snd]; fields;
    repeat split_and; try reflexivity; try discriminate;
    intros _; repeat split; reflexivity.
Qed.

(** X6.  What every call writes.  Whatever the outcome of
    [read_conn_tuple_partial], the tuple carries the upper half of
    [pid_tgid] as a 32-bit pid, the namespace of the socket, and every bit
    of the caller's [type] in its metadata. *)
Theorem every_call_writes_pid_netns_and_type t skp (pid_tgid type : Z) :
  let t' := snd (read_conn_tuple_partial t skp pid_tgid type) in
  pid t' = u32 (Z.shiftr pid_tgid 32) /\ is_u32 (pid t') /\
  netns t' = sk_net_ns_inum skp /\
  has_flag type (metadata t').
Proof.
  cbv zeta.
  assert (forall a, pid a = u32 (Z.shiftr pid_tgid 32) ->
            netns a = sk_net_ns_inum skp -> has_flag type (metadata a) ->
            pid a = u32 (Z.shiftr pid_tgid 32) /\ is_u32 (pid a) /\
            netns a = sk_net_ns_inum skp /\ has_flag type (metadata a)) as Hpack.
  { intros a Hp Hn Hm. rewrite Hp. repeat split_and; try assumption; try reflexivity;
      apply u32_range. }
  assert (forall a, pid (snd (read_ports a skp)) = pid a /\
                    netns (snd (read_ports a skp)) = netns a /\
                    metadata (snd (read_ports a skp)) = metadata a) as Hports.
  { intros a. destruct (read_ports_frame a skp) as (_ & _ & _ & _ & Hn & Hp & Hm). tauto. }
  unfold read_conn_tuple_partial, check_family.
  destruct (sk_family skp =? __AF_INET); cbv zeta.
  - match goal with |- context [read_v4_addrs ?a skp] =>
      destruct (read_v4_addrs_frame a skp) as (_ & _ & _ & _ & Fn & Fp & Fm);
      remember (read_v4_addrs a skp) as r4 eqn:Er4; clear Er4
    end.
    cbv zeta in *. simpl in Fn, Fp, Fm.
    destruct (Hports r4) as (Pp & Pn & Pm).
    destruct (negb (truthy (saddr_l r4)) || negb (truthy (daddr_l r4))); cbn [snd];
      apply Hpack; rewrite ?Pp, ?Pn, ?Pm, ?Fm; try assumption; apply has_flag_lor_l.
  - destruct (sk_family skp =? __AF_INET6); cbv zeta.
    2:{ cbn [snd]. apply Hpack; try reflexivity. simpl. apply has_flag_refl. }
    destruct (negb is_ipv6_enabled).
    { cbn [snd]. apply Hpack; try reflexivity. simpl. apply has_flag_refl. }
    match goal with |- context [read_v6_addrs ?a skp] =>
      destruct (read_v6_addrs_frame a skp) as (_ & _ & Fn & Fp & Fm);
      remember (read_v6_addrs a skp) as r6 eqn:Er6; clear Er6
    end.
    cbv zeta in *. simpl in Fn, Fp, Fm.
    destruct (negb (truthy (saddr_h r6) || truthy (saddr_l r6))).
    { cbn [snd]. apply Hpack; try assumption. rewrite Fm. apply has_flag_refl. }
    destruct (negb (truthy (daddr_h r6) || truthy (daddr_l r6))).
    { cbn [snd]. apply Hpack; try assumption. rewrite Fm. apply has_flag_refl. }
    destruct (Hports (map_v6_to_v4 r6)) as (Pp & Pn & Pm).
    destruct (map_v6_to_v4_frame r6) as (_ & _ & Mn & Mp). cbv zeta in Mn, Mp.
    apply Hpack; rewrite ?Pp, ?Pn, ?Pm, ?Mn, ?Mp; try assumption.
    unfold map_v6_to_v4.
    destruct (is_ipv4_mapped_ipv6 _ _ _ _); simpl; rewrite Fm; apply has_flag_lor_l.
Qed.

End Facts.
End SockRunFacts.

(** ** A worker at work; the sequence checks; the state store *)

Module KafkaRunFacts.
Import Int Tracer Bpf Kafka KafkaRun IntFacts KafkaFacts.

Section Worker.

Context `{hd : Headers}.

Implicit Types (m : batch_maps) (st : kafka_batch_state_t) (b : kafka_batch_t)
  (tx : kafka_transaction_t) (rs : list kafka_transaction_t) (ops : list batch_op).

(** An enqueue either changes nothing, or its active page had room and it
    wrote one slot of that page. *)
Lemma kafka_enqueue_cases cpu tx m :
  kafka_enqueue cpu tx m = m \/
  exists st b,
    kafka_batch_state m !! cpu = Some st /\
    kafka_batches m !! kafka_get_batch_key cpu (idx st) = Some b /\
    0 <= pos b < KAFKA_BATCH_SIZE /\
    kafka_enqueue cpu tx m =
    BatchMaps
      (<[cpu := if pos b + 1 =? KAFKA_BATCH_SIZE
                then KafkaBatchState (u64 (idx st + 1)) (idx_to_flush st)
                else st]> (kafka_batch_state m))
      (<[kafka_get_batch_key cpu (idx st) :=
           KafkaBatch (idx st) (pos b + 1) (<[Z.to_nat (pos b) := tx]> (txs b))]>
         (kafka_batches m))
      (kafka_batch_events m).
Proof.
  destruct (kafka_batch_state m !! cpu) as [st|] eqn:Hst.
  2:{ left. unfold kafka_enqueue, bpf_map_lookup_elem. rewrite Hst. reflexivity. }
  destruct (kafka_batches m !! kafka_get_batch_key cpu (idx st)) as [b|] eqn:Hb.
  2:{ left. unfold kafka_enqueue, bpf_map_lookup_elem. rewrite Hst. cbv zeta.
      rewrite Hb. reflexivity. }
  destruct (Z_lt_le_dec (pos b) 0) as [Hneg|Hnn].
  { left. unfold kafka_enqueue, bpf_map_lookup_elem, kafka_batch_full.
    rewrite Hst. cbv zeta. rewrite Hb.
    destruct (pos b =? KAFKA_BATCH_SIZE); [reflexivity|].
    destruct (Z.ltb_spec (pos b) 0); [reflexivity|lia]. }
  destruct (Z_lt_le_dec (pos b) KAFKA_BATCH_SIZE) as [Hroom|Hfull].
  - right. exists st, b. repeat split; try assumption.
    apply kafka_enqueue_room; [assumption..|lia].
  - left. exact (kafka_enqueue_full cpu tx m st b Hst Hb Hfull).
Qed.

(** A flush either changes nothing, or a page was pending and it was
    emitted and reset. *)
Lemma kafka_flush_batch_cases cpu status m :
  kafka_flush_batch cpu status m = m \/
  exists st b,
    kafka_batch_state m !! cpu = Some st /\
    kafka_batches m !! kafka_get_batch_key cpu (idx_to_flush st) = Some b /\
    idx_to_flush st <> idx st /\
    kafka_flush_batch cpu status m =
    BatchMaps
      (<[cpu := KafkaBatchState (idx st) (u64 (idx_to_flush st + 1))]> (kafka_batch_state m))
      (<[kafka_get_batch_key cpu (idx_to_flush st) := KafkaBatch (batch_idx b) 0 (txs b)]>
         (kafka_batches m))
      (kafka_batch_events m ++ [PerfOutput cpu b status]).
Proof.
  destruct (kafka_batch_state m !! cpu) as [st|] eqn:Hst.
  2:{ left. unfold kafka_flush_batch, bpf_map_lookup_elem. rewrite Hst. reflexivity. }
  destruct (Z.eq_dec (idx_to_flush st) (idx st)) as [Heq|Hne].
  { left. exact (kafka_flush_batch_idle cpu status m st Hst Heq). }
  destruct (kafka_batches m !! kafka_get_batch_key cpu (idx_to_flush st)) as [b|] eqn:Hb.
  - right. exists st, b. repeat split; try assumption.
    apply kafka_flush_batch_pending; assumption.
  - left. unfold kafka_flush_batch, bpf_map_lookup_elem. rewrite Hst.
    destruct (Z.eqb_spec (idx_to_flush st) (idx st)); [contradiction|].
    cbv zeta. rewrite Hb. reflexivity.
Qed.

Lemma run_ops_cons cpu op ops m :
  run_ops cpu (op :: ops) m = run_ops cpu ops (run_op cpu m op).
Proof. reflexivity. Qed.

Lemma kafka_get_batch_key_range cpu i :
  0 < KAFKA_BATCH_PAGES ->
  fst (kafka_get_batch_key cpu i) = cpu /\
  0 <= snd (kafka_get_batch_key cpu i) < KAFKA_BATCH_PAGES.
Proof.
  intros Hp. unfold kafka_get_batch_key. cbn [fst snd].
  split; [reflexivity|]. apply Z.mod_pos_bound. exact Hp.
Qed.

(** One operation of the worker on [cpu] leaves alone what is not its own. *)
Lemma run_op_frame cpu op m :
  0 < KAFKA_BATCH_PAGES ->
  (forall c, c <> cpu ->
     kafka_batch_state (run_op cpu m op) !! c = kafka_batch_state m !! c) /\
  (forall key, fst key <> cpu \/ ~ 0 <= snd key < KAFKA_BATCH_PAGES ->
     kafka_batches (run_op cpu m op) !! key = kafka_batches m !! key).
Proof.
  intros Hp.
  assert (forall i key, fst key <> cpu \/ ~ 0 <= snd key < KAFKA_BATCH_PAGES ->
            kafka_get_batch_key cpu i <> key) as Hkey.
  { intros i key Hout <-. destruct (kafka_get_batch_key_range cpu i Hp). tauto. }
  destruct op as [tx|status]; cbn [run_op].
  - destruct (kafka_enqueue_cases cpu tx m) as [->|(st & b & _ & _ & _ & ->)].
    + split; reflexivity.
    + cbn [kafka_batch_state kafka_batches]. split.
      * intros c Hc. apply lookup_insert_ne. congruence.
      * intros key Hout. apply lookup_insert_ne, Hkey, Hout.
  - destruct (kafka_flush_batch_cases cpu status m) as [->|(st & b & _ & _ & _ & ->)].
    + split; reflexivity.
    + cbn [kafka_batch_state kafka_batches]. split.
      * intros c Hc. apply lookup_insert_ne. congruence.
      * intros key Hout. apply lookup_insert_ne, Hkey, Hout.
Qed.

(** X7.  Whatever a worker enqueues and flushes, in any order, the cursors
    of every other CPU and every page that is not one of its own
    [KAFKA_BATCH_PAGES] pages stay as they were. *)
Theorem worker_touches_only_its_own_pages cpu ops m :
  0 < KAFKA_BATCH_PAGES ->
  (forall c, c <> cpu ->
     kafka_batch_state (run_ops cpu ops m) !! c = kafka_batch_state m !! c) /\
  (forall key, fst key <> cpu \/ ~ 0 <= snd key < KAFKA_BATCH_PAGES ->
     kafka_batches (run_ops cpu ops m) !! key = kafka_batches m !! key).
Proof.
  intros Hp. revert m. induction ops as [|op ops IH]; intros m.
  - split; reflexivity.
  - rewrite run_ops_cons.
    destruct (IH (run_op cpu m op)) as [IHs IHb].
    destruct (run_op_frame cpu op m Hp) as [Fs Fb].
    split.
    + intros c Hc. rewrite IHs by exact Hc. apply Fs, Hc.
    + intros key Hout. rewrite IHb by exact Hout. apply Fb, Hout.
Qed.

Lemma run_op_within_capacity cpu op m :
  pages_within_capacity m -> pages_within_capacity (run_op cpu m op).
Proof.
  intros Hinv. destruct op as [tx|status]; cbn [run_op].
  - destruct (kafka_enqueue_cases cpu tx m) as [->|(st & b & _ & Hb & Hroom & ->)];
      [exact Hinv|].
    intros key b'. cbn [kafka_batches].
    destruct (decide (kafka_get_batch_key cpu (idx st) = key)) as [<-|Hne].
    + rewrite lookup_insert_eq. intros [= <-]. cbn [pos txs].
      destruct (Hinv _ _ Hb) as [_ Hlen].
      rewrite length_insert. split; [lia|exact Hlen].
    + rewrite lookup_insert_ne by exact Hne. apply Hinv.
  - destruct (kafka_flush_batch_cases cpu status m) as [->|(st & b & _ & Hb & _ & ->)];
      [exact Hinv|].
    intros key b'. cbn [kafka_batches].
    destruct (decide (kafka_get_batch_key cpu (idx_to_flush st) = key)) as [<-|Hne].
    + rewrite lookup_insert_eq. intros [= <-]. cbn [pos txs].
      destruct (Hinv _ _ Hb) as [Hpos Hlen]. split; [lia|exact Hlen].
    + rewrite lookup_insert_ne by exact Hne. apply Hinv.
Qed.

(** X8.  No sequence of enqueues and flushes, on any CPU, takes a page past
    its capacity: if every page holds between 0 and [KAFKA_BATCH_SIZE]
    records in its [KAFKA_BATCH_SIZE] slots, that is still so afterwards. *)
Theorem pages_stay_within_capacity cpu ops m :
  pages_within_capacity m -> pages_within_capacity (run_ops cpu ops m).
Proof.
  revert m. induction ops as [|op ops IH]; intros m Hinv; [exact Hinv|].
  rewrite run_ops_cons. apply IH, run_op_within_capacity, Hinv.
Qed.


Lemma u64_succ_neq (x : Z) : u64 (x + 1) <> x.
Proof.
  unfold u64. intros E.
  pose proof (Z.mod_pos_bound (x + 1) (2 ^ 64) ltac:(lia)) as Hr.
  rewrite E in Hr.
  destruct (Z.eq_dec (x + 1) (2 ^ 64)) as [E2|E2].
  - rewrite E2, Z.mod_same in E by lia. lia.
  - rewrite Z.mod_small in E by lia. lia.
Qed.

Lemma u64_succ_small (x : Z) : 0 <= x -> x + 1 < 2 ^ 64 -> u64 (x + 1) = x + 1.
Proof. intros H0 H1. unfold u64. apply Z.mod_small. lia. Qed.

(** The cursors of [cpu] after one operation, when they were ordered and
    the write cursor is not about to wrap. *)
Lemma run_op_cursors cpu op m st :
  kafka_batch_state m !! cpu = Some st ->
  0 <= idx_to_flush st <= idx st -> idx st + Z.of_nat (enqueues [op]) < 2 ^ 64 ->
  exists st',
    kafka_batch_state (run_op cpu m op) !! cpu = Some st' /\
    0 <= idx_to_flush st' <= idx st' /\
    idx st <= idx st' <= idx st + Z.of_nat (enqueues [op]) /\
    idx_to_flush st <= idx_to_flush st' <= idx_to_flush st + 1.
Proof.
  intros Hst Hord Hwrap. destruct op as [tx|status]; cbn [run_op enqueues] in *.
  - destruct (kafka_enqueue_cases cpu tx m) as [->|(st0 & b & Hst0 & _ & _ & ->)].
    + exists st. split; [exact Hst|]. lia.
    + rewrite Hst in Hst0. injection Hst0 as <-.
      cbn [kafka_batch_state]. rewrite lookup_insert_eq.
      destruct (pos b + 1 =? KAFKA_BATCH_SIZE).
      * eexists. split; [reflexivity|]. cbn [idx idx_to_flush].
        rewrite u64_succ_small by lia. lia.
      * exists st. split; [reflexivity|]. lia.
  - destruct (kafka_flush_batch_cases cpu status m) as [->|(st0 & b & Hst0 & _ & Hne & ->)].
    + exists st. split; [exact Hst|]. lia.
    + rewrite Hst in Hst0. injection Hst0 as <-.
      cbn [kafka_batch_state]. rewrite lookup_insert_eq.
      eexists. split; [reflexivity|]. cbn [idx idx_to_flush].
      rewrite u64_succ_small by lia. lia.
Qed.

Lemma enqueues_cons op ops :
  enqueues (op :: ops) = (enqueues [op] + enqueues ops)%nat.
Proof. destruct op; reflexivity. Qed.

(** X9.  The flush cursor never overtakes the write cursor.  On a worker
    whose cursors satisfy [0 <= idx_to_flush <= idx], any sequence of
    enqueues and flushes that does not wrap the 64-bit write cursor leaves
    them so, and moves neither cursor backwards: the write cursor advances
    by at most one per enqueue, the flush cursor by at most one per
    operation. *)
Theorem flush_cursor_never_overtakes cpu ops : forall m st,
  kafka_batch_state m !! cpu = Some st ->
  0 <= idx_to_flush st <= idx st ->
  idx st + Z.of_nat (enqueues ops) < 2 ^ 64 ->
  exists st',
    kafka_batch_state (run_ops cpu ops m) !! cpu = Some st' /\
    0 <= idx_to_flush st' <= idx st' /\
    idx st <= idx st' <= idx st + Z.of_nat (enqueues ops) /\
    idx_to_flush st <= idx_to_flush st' <= idx_to_flush st + Z.of_nat (length ops).
Proof.
  induction ops as [|op ops IH]; intros m st Hst Hord Hwrap.
  - exists st. cbn. split; [exact Hst|]. lia.
  - rewrite run_ops_cons. rewrite enqueues_cons in Hwrap.
    destruct (run_op_cursors cpu op m st Hst Hord ltac:(lia)) as (st1 & Hst1 & Ho1 & Hi1 & Hf1).
    destruct (IH (run_op cpu m op) st1 Hst1 Ho1 ltac:(lia)) as (st' & Hst' & Ho' & Hi' & Hf').
    exists st'. split; [exact Hst'|]. rewrite enqueues_cons. cbn [length]. lia.
Qed.

(** The enqueues of a list leave the flush cursor and the event trace
    alone, and a page that is full stays as it is. *)
Lemma kafka_enqueue_never_exports cpu tx m :
  kafka_batch_events (kafka_enqueue cpu tx m) = kafka_batch_events m /\
  (forall st, kafka_batch_state m !! cpu = Some st ->
     exists st', kafka_batch_state (kafka_enqueue cpu tx m) !! cpu = Some st' /\
                 idx_to_flush st' = idx_to_flush st) /\
  (forall key b, kafka_batches m !! key = Some b -> pos b = KAFKA_BATCH_SIZE ->
     kafka_batches (kafka_enqueue cpu tx m) !! key = Some b).
Proof.
  destruct (kafka_enqueue_cases cpu tx m) as [->|(st0 & b0 & Hst0 & Hb0 & Hroom & ->)].
  - repeat split_and; try reflexivity; eauto.
  - cbn [kafka_batch_state kafka_batches kafka_batch_events]. repeat split_and.
    + reflexivity.
    + intros st Hst. rewrite Hst in Hst0. injection Hst0 as <-.
      rewrite lookup_insert_eq. eexists. split; [reflexivity|].
      destruct (pos b0 + 1 =? KAFKA_BATCH_SIZE); reflexivity.
    + intros key b Hb Hfull. rewrite lookup_insert_ne; [exact Hb|].
      intros <-. rewrite Hb in Hb0. injection Hb0 as <-. lia.
Qed.

(** X10.  Enqueuing never exports and never overwrites a completed page:
    whatever is enqueued, the event trace and the flush cursor are
    unchanged, and every page whose fill count is [KAFKA_BATCH_SIZE] keeps
    its contents (only a flush resets it). *)
Theorem enqueue_keeps_full_pages cpu rs : forall m,
  kafka_batch_events (enqueue_all cpu rs m) = kafka_batch_events m /\
  (forall st, kafka_batch_state m !! cpu = Some st ->
     exists st', kafka_batch_state (enqueue_all cpu rs m) !! cpu = Some st' /\
                 idx_to_flush st' = idx_to_flush st) /\
  (forall key b, kafka_batches m !! key = Some b -> pos b = KAFKA_BATCH_SIZE ->
     kafka_batches (enqueue_all cpu rs m) !! key = Some b).
Proof.
  induction rs as [|tx rs IH]; intros m.
  - cbn. repeat split_and; eauto.
  - change (enqueue_all cpu (tx :: rs) m) with (enqueue_all cpu rs (kafka_enqueue cpu tx m)).
    destruct (IH (kafka_enqueue cpu tx m)) as (IHe & IHs & IHb).
    destruct (kafka_enqueue_never_exports cpu tx m) as (He & Hs & Hb).
    repeat split_and.
    + rewrite IHe. exact He.
    + intros st Hst. destruct (Hs st Hst) as (st1 & Hst1 & E1).
      destruct (IHs st1 Hst1) as (st' & Hst' & E'). exists st'. split; [exact Hst'|]. congruence.
    + intros key b Hkb Hfull. apply IHb; [|exact Hfull]. apply Hb; assumption.
Qed.

(** A page's worth of records on an empty active page: the maps after. *)
Lemma enqueue_all_fills_page cpu rs m st b :
  kafka_batch_state m !! cpu = Some st ->
  kafka_batches m !! kafka_get_batch_key cpu (idx st) = Some b ->
  pos b = 0 -> length (txs b) = Z.to_nat KAFKA_BATCH_SIZE ->
  1 <= KAFKA_BATCH_SIZE -> length rs = Z.to_nat KAFKA_BATCH_SIZE ->
  enqueue_all cpu rs m =
  BatchMaps
    (<[cpu := KafkaBatchState (u64 (idx st + 1)) (idx_to_flush st)]> (kafka_batch_state m))
    (<[kafka_get_batch_key cpu (idx st) := KafkaBatch (idx st) KAFKA_BATCH_SIZE rs]>
       (kafka_batches m))
    (kafka_batch_events m).
Proof.
  intros Hst Hb Hp Hl Hsize Hrs.
  destruct (list_split_last rs (Z.to_nat (KAFKA_BATCH_SIZE - 1))) as (rs0 & x & -> & Hrs0).
  { rewrite Hrs. lia. }
  unfold enqueue_all. rewrite fold_left_app. cbn [fold_left].
  fold (enqueue_all cpu rs0 m).
  destruct (enqueue_all_below_capacity cpu rs0 m st b Hst Hb) as (b' & Es & Eb & Ee & Ep & El & Et);
    [lia..|].
  rewrite Hp in Ep, Et. simpl in Ep, Et.
  rewrite (kafka_enqueue_room cpu x (enqueue_all cpu rs0 m) st b').
  2:{ rewrite Es. exact Hst. }
  2:{ rewrite Eb. apply lookup_insert_eq. }
  2:{ lia. }
  destruct (Z.eqb_spec (pos b' + 1) KAFKA_BATCH_SIZE) as [Hfull|Hn]; [|lia].
  rewrite Es, Eb, Ee, insert_insert_eq, Hfull.
  f_equal. f_equal. f_equal.
  apply (list_take_all_but_last _ _ _ (Z.to_nat (KAFKA_BATCH_SIZE - 1))).
  - rewrite length_insert, El, Hl. lia.
  - replace (Z.to_nat (KAFKA_BATCH_SIZE - 1)) with (Z.to_nat (pos b')) by lia.
    rewrite take_insert_ge by lia. exact Et.
  - replace (Z.to_nat (KAFKA_BATCH_SIZE - 1)) with (Z.to_nat (pos b')) by lia.
    apply list_lookup_insert_eq. lia.
Qed.

(** X11.  Enqueue and flush compose into a faithful hand-over.  On an idle
    worker (flush cursor equal to write cursor) whose active page is
    empty, enqueuing exactly [KAFKA_BATCH_SIZE] records and flushing once
    emits one event that carries those records, in order, under the page's
    index; the page is empty again, both cursors have advanced by one, and
    a further flush does nothing. *)
Theorem full_page_is_exported_as_enqueued cpu status rs m st b :
  kafka_batch_state m !! cpu = Some st -> idx_to_flush st = idx st ->
  kafka_batches m !! kafka_get_batch_key cpu (idx st) = Some b ->
  pos b = 0 -> length (txs b) = Z.to_nat KAFKA_BATCH_SIZE ->
  1 <= KAFKA_BATCH_SIZE -> length rs = Z.to_nat KAFKA_BATCH_SIZE ->
  let m' := kafka_flush_batch cpu status (enqueue_all cpu rs m) in
  m' =
  BatchMaps
    (<[cpu := KafkaBatchState (u64 (idx st + 1)) (u64 (idx st + 1))]> (kafka_batch_state m))
    (<[kafka_get_batch_key cpu (idx st) := KafkaBatch (idx st) 0 rs]> (kafka_batches m))
    (kafka_batch_events m ++ [PerfOutput cpu (KafkaBatch (idx st) KAFKA_BATCH_SIZE rs) status]) /\
  forall status', kafka_flush_batch cpu status' m' = m'.
Proof.
  intros Hst Hidle Hb Hp Hl Hsize Hrs. cbv zeta.
  rewrite (enqueue_all_fills_page cpu rs m st b Hst Hb Hp Hl Hsize Hrs).
  rewrite (kafka_flush_batch_pending cpu status _
             (KafkaBatchState (u64 (idx st + 1)) (idx_to_flush st))
             (KafkaBatch (idx st) KAFKA_BATCH_SIZE rs)).
  - cbn [kafka_batch_state kafka_batches kafka_batch_events idx idx_to_flush batch_idx txs].
    rewrite Hidle, !insert_insert_eq. split; [reflexivity|].
    intros status'.
    apply (kafka_flush_batch_idle cpu status' _
             (KafkaBatchState (u64 (idx st + 1)) (u64 (idx st + 1)))).
    + cbn. apply lookup_insert_eq.
    + reflexivity.
  - cbn. apply lookup_insert_eq.
  - cbn [idx idx_to_flush]. rewrite Hidle. intros E. symmetry in E.
    exact (u64_succ_neq _ E).
  - cbn [kafka_batches idx_to_flush]. rewrite Hidle. apply lookup_insert_eq.
Qed.

(** X12.  A page that is not yet full is never exported: on an idle worker,
    after fewer records than the active page has room for, a flush emits
    nothing and changes nothing; the records wait in the page. *)
Theorem partial_page_is_not_exported cpu status rs m st b :
  kafka_batch_state m !! cpu = Some st -> idx_to_flush st = idx st ->
  kafka_batches m !! kafka_get_batch_key cpu (idx st) = Some b ->
  0 <= pos b -> pos b + Z.of_nat (length rs) < KAFKA_BATCH_SIZE ->
  length (txs b) = Z.to_nat KAFKA_BATCH_SIZE ->
  kafka_flush_batch cpu status (enqueue_all cpu rs m) = enqueue_all cpu rs m /\
  kafka_batch_events (enqueue_all cpu rs m) = kafka_batch_events m /\
  exists b',
    kafka_batches (enqueue_all cpu rs m) !! kafka_get_batch_key cpu (idx st) = Some b' /\
    pos b' = pos b + Z.of_nat (length rs) /\
    take (Z.to_nat (pos b')) (txs b') = take (Z.to_nat (pos b)) (txs b) ++ rs.
Proof.
  intros Hst Hidle Hb Hpos Hroom Hl.
  destruct (enqueue_all_below_capacity cpu rs m st b Hst Hb Hpos Hroom)
    as (b' & Es & Eb & Ee & Ep & El & Et); [lia|].
  repeat split_and.
  - apply (kafka_flush_batch_idle cpu status _ st); [|exact Hidle].
    rewrite Es. exact Hst.
  - exact Ee.
  - exists b'. rewrite Eb, lookup_insert_eq. auto.
Qed.


(** Filling the first [k] pages of a worker that starts with write cursor 0
    and empty pages. *)
Lemma enqueue_all_fills_pages cpu (f : Z) (k : nat) : forall rs m,
  1 <= KAFKA_BATCH_SIZE -> KAFKA_BATCH_PAGES < 2 ^ 64 ->
  Z.of_nat k <= KAFKA_BATCH_PAGES ->
  length rs = (k * Z.to_nat KAFKA_BATCH_SIZE)%nat ->
  kafka_batch_state m !! cpu = Some (KafkaBatchState 0 f) ->
  (forall j, 0 <= j < KAFKA_BATCH_PAGES ->
     exists b, kafka_batches m !! (cpu, j) = Some b /\ pos b = 0 /\
               length (txs b) = Z.to_nat KAFKA_BATCH_SIZE) ->
  let m' := enqueue_all cpu rs m in
  kafka_batch_state m' !! cpu = Some (KafkaBatchState (Z.of_nat k) f) /\
  (forall j, 0 <= j < Z.of_nat k ->
     exists b, kafka_batches m' !! (cpu, j) = Some b /\ pos b = KAFKA_BATCH_SIZE) /\
  (forall j, Z.of_nat k <= j < KAFKA_BATCH_PAGES ->
     exists b, kafka_batches m' !! (cpu, j) = Some b /\ pos b = 0 /\
               length (txs b) = Z.to_nat KAFKA_BATCH_SIZE).
Proof.
  induction k as [|k IH]; intros rs m Hsize Hpages Hk Hrs Hst Hempty; cbv zeta.
  - destruct rs; [|discriminate]. cbn [enqueue_all fold_left].
    repeat split_and; [exact Hst| |exact Hempty]. intros j Hj. lia.
  - rewrite <- (take_drop (k * Z.to_nat KAFKA_BATCH_SIZE) rs).
    unfold enqueue_all. rewrite fold_left_app.
    fold (enqueue_all cpu (take (k * Z.to_nat KAFKA_BATCH_SIZE) rs) m).
    set (m1 := enqueue_all cpu (take (k * Z.to_nat KAFKA_BATCH_SIZE) rs) m).
    fold (enqueue_all cpu (drop (k * Z.to_nat KAFKA_BATCH_SIZE) rs) m1).
    destruct (IH (take (k * Z.to_nat KAFKA_BATCH_SIZE) rs) m Hsize Hpages ltac:(lia))
      as (Hst1 & Hfull1 & Hempty1); [|exact Hst|exact Hempty|].
    { rewrite length_take. lia. }
    fold m1 in Hst1, Hfull1, Hempty1.
    destruct (Hempty1 (Z.of_nat k) ltac:(lia)) as (bk & Hbk & Hpk & Hlk).
    assert (kafka_get_batch_key cpu (Z.of_nat k) = (cpu, Z.of_nat k)) as Hkey.
    { unfold kafka_get_batch_key. rewrite Z.mod_small by lia. reflexivity. }
    rewrite (enqueue_all_fills_page cpu _ m1 (KafkaBatchState (Z.of_nat k) f) bk);
      cbn [idx idx_to_flush]; rewrite ?Hkey; try assumption.
    2:{ rewrite length_drop. lia. }
    cbn [kafka_batch_state kafka_batches].
    rewrite u64_succ_small by lia.
    repeat split_and.
    + rewrite lookup_insert_eq. do 2 f_equal. lia.
    + intros j Hj. destruct (Z.eq_dec j (Z.of_nat k)) as [->|Hne].
      * rewrite lookup_insert_eq. eexists. split; reflexivity.
      * rewrite lookup_insert_ne by congruence. apply Hfull1. lia.
    + intros j Hj. rewrite lookup_insert_ne by (intros [=]; lia). apply Hempty1. lia.
Qed.

(** X13.  When the consumer does not flush, the pipeline drops instead of
    overwriting.  Starting from write cursor 0 and empty pages, once
    [KAFKA_BATCH_PAGES * KAFKA_BATCH_SIZE] records are enqueued every page
    of the worker is full, the write cursor is [KAFKA_BATCH_PAGES], and
    every further enqueue is dropped: it changes nothing. *)
Theorem enqueue_drops_once_every_page_is_full cpu (f : Z) rs m :
  1 <= KAFKA_BATCH_SIZE -> 1 <= KAFKA_BATCH_PAGES < 2 ^ 64 ->
  length rs = (Z.to_nat KAFKA_BATCH_PAGES * Z.to_nat KAFKA_BATCH_SIZE)%nat ->
  kafka_batch_state m !! cpu = Some (KafkaBatchState 0 f) ->
  (forall j, 0 <= j < KAFKA_BATCH_PAGES ->
     exists b, kafka_batches m !! (cpu, j) = Some b /\ pos b = 0 /\
               length (txs b) = Z.to_nat KAFKA_BATCH_SIZE) ->
  let m' := enqueue_all cpu rs m in
  kafka_batch_state m' !! cpu = Some (KafkaBatchState KAFKA_BATCH_PAGES f) /\
  (forall j, 0 <= j < KAFKA_BATCH_PAGES ->
     exists b, kafka_batches m' !! (cpu, j) = Some b /\ pos b = KAFKA_BATCH_SIZE) /\
  (forall more, enqueue_all cpu more m' = m').
Proof.
  intros Hsize Hpages Hrs Hst Hempty. cbv zeta.
  destruct (enqueue_all_fills_pages cpu f (Z.to_nat KAFKA_BATCH_PAGES) rs m)
    as (Hst' & Hfull & _); try assumption; try lia.
  rewrite Z2Nat.id in Hst', Hfull by lia.
  repeat split_and; [exact Hst'|exact Hfull|].
  destruct (Hfull 0 ltac:(lia)) as (b0 & Hb0 & Hp0).
  set (m' := enqueue_all cpu rs m) in *.
  assert (forall tx, kafka_enqueue cpu tx m' = m') as Hdrop.
  { intros tx.
    apply (kafka_enqueue_full cpu tx m' (KafkaBatchState KAFKA_BATCH_PAGES f) b0 Hst').
    - cbn [idx]. unfold kafka_get_batch_key. rewrite Z.mod_same by lia. exact Hb0.
    - lia. }
  intros more. induction more as [|tx more IH]; [reflexivity|].
  change (enqueue_all cpu (tx :: more) m') with (enqueue_all cpu more (kafka_enqueue cpu tx m')).
  rewrite Hdrop. exact IH.
Qed.

End Worker.

Section Guards.

Context `{hd : Headers}.

Implicit Types (kafka : kafka_transaction_t) (skb : sk_buff) (skb_info : skb_info_t)
  (last_seq : gmap conn_tuple_t Z).

(** X14.  The per-transaction sequence check and its update.  A NULL
    [skb_info] and a sequence number 0 are never "seen" and never recorded
    (so a fresh state, whose stored number is 0, does not match a segment
    numbered 0); any other segment is seen right after it was recorded,
    and recording changes the stored sequence number only. *)
Theorem seen_before_after_update kafka (skb_info : option skb_info_t) :
  let kafka' := kafka_update_seen_before kafka skb_info in
  (skb_info = None -> kafka' = kafka /\ kafka_seen_before kafka skb_info = false) /\
  (forall info, skb_info = Some info -> skb_tcp_seq info = 0 ->
     kafka' = kafka /\ kafka_seen_before kafka skb_info = false) /\
  (forall info, skb_info = Some info -> skb_tcp_seq info <> 0 ->
     kafka_seen_before kafka' skb_info = true /\
     tcp_seq kafka' = skb_tcp_seq info /\
     (kafka_seen_before kafka skb_info = true <-> tcp_seq kafka = skb_tcp_seq info)) /\
  tup kafka' = tup kafka /\
  request_fragment kafka' = request_fragment kafka /\
  topic_name kafka' = topic_name kafka.
Proof.
  cbv zeta. destruct skb_info as [info|]; cbn [kafka_update_seen_before kafka_seen_before].
  - destruct (Z.eq_dec (skb_tcp_seq info) 0) as [E|E].
    + rewrite (proj2 (truthy_false _) E). cbn [negb]. repeat split_and; try reflexivity.
      * discriminate.
      * intros info' _ _. split; reflexivity.
      * intros info' [= <-] Hn. contradiction.
    + rewrite (proj2 (truthy_true _) E). cbn [negb tcp_seq tup request_fragment topic_name].
      repeat split_and; try reflexivity.
      * discriminate.
      * intros info' [= <-] Hz. contradiction.
      * intros info' [= <-] _. rewrite Z.eqb_refl. repeat split_and; try reflexivity.
        apply Z.eqb_eq.
  - repeat split_and; try reflexivity; try discriminate. intros _. split; reflexivity.
Qed.

Lemma update_frame {V : Type} (cap : nat) (mp : gmap conn_tuple_t V)
    (k k' : conn_tuple_t) (v : V) (flag : update_flag) :
  k' <> k -> bpf_map_update_with_telemetry cap mp k v flag !! k' = mp !! k'.
Proof.
  intros Hne. unfold bpf_map_update_with_telemetry.
  destruct (mp !! k); [destruct flag|destruct (decide _)];
    try reflexivity; apply lookup_insert_ne; congruence.
Qed.

(** X15.  The admission filter keeps flows apart.  Its verdict on a segment
    depends on the dedup map only through the entry of the segment's own
    tuple; a rejected segment leaves the map as it is; an admitted one
    changes at most the entry of its own tuple. *)
Theorem admission_keeps_flows_apart kafka skb skb_info last_seq :
  let r := kafka_allow_packet kafka skb skb_info last_seq in
  (forall last_seq', last_seq' !! tup kafka = last_seq !! tup kafka ->
     fst (kafka_allow_packet kafka skb skb_info last_seq') = fst r) /\
  (fst r = false -> snd r = last_seq) /\
  (forall k, k <> tup kafka -> snd r !! k = last_seq !! k).
Proof.
  cbv zeta. unfold kafka_allow_packet, bpf_map_lookup_elem.
  destruct (negb (truthy (Z.land (metadata (tup kafka)) CONN_TYPE_TCP))).
  { repeat split_and; reflexivity. }
  destruct (data_off skb_info =? len skb); cbv zeta.
  { repeat split_and; reflexivity. }
  repeat split_and.
  - intros last_seq' ->.
    destruct (match last_seq !! tup kafka with
              | Some s => s =? skb_tcp_seq skb_info | None => false end); reflexivity.
  - destruct (match last_seq !! tup kafka with
              | Some s => s =? skb_tcp_seq skb_info | None => false end);
      [reflexivity|discriminate].
  - intros k Hk.
    destruct (match last_seq !! tup kafka with
              | Some s => s =? skb_tcp_seq skb_info | None => false end);
      [reflexivity|]. cbn [snd]. apply update_frame. exact Hk.
Qed.

(** X16.  Fetching the state of a flow is idempotent: a second fetch for
    the same tuple, with whatever state in hand, returns what the first
    returned and leaves the map as the first left it. *)
Theorem fetch_state_is_idempotent
    (tx tx' : kafka_transaction_t) (in_flight : gmap conn_tuple_t kafka_transaction_t) :
  tup tx' = tup tx ->
  kafka_fetch_state tx' (snd (kafka_fetch_state tx in_flight)) =
  kafka_fetch_state tx in_flight.
Proof.
  intros Ht. unfold kafka_fetch_state, bpf_map_update_with_telemetry, bpf_map_lookup_elem.
  rewrite Ht. cbn [snd].
  destruct (in_flight !! tup tx) as [e|] eqn:E.
  - repeat (rewrite E; cbn [snd]). reflexivity.
  - destruct (decide (size in_flight < kafka_in_flight_max_entries)%nat) as [Hr|Hr].
    + cbn [snd]. rewrite !lookup_insert_eq. reflexivity.
    + cbn [snd]. rewrite !E. destruct (decide _); [contradiction|]. rewrite E. reflexivity.
Qed.

End Guards.
End KafkaRunFacts.

(** ** The SQL command classifier *)

Module SqlFacts.
Import Int Sql IntFacts.

Lemma byte_of_inj (c1 c2 : ascii) : byte_of c1 = byte_of c2 -> c1 = c2.
Proof.
  unfold byte_of. intros E. apply N2Z.inj in E.
  rewrite <- (ascii_N_embedding c1), <- (ascii_N_embedding c2), E. reflexivity.
Qed.

Lemma length_list_ascii_of_string (s : string) :
  length (list_ascii_of_string s) = String.length s.
Proof. induction s as [|c s IH]; cbn; [reflexivity|]. rewrite IH. reflexivity. Qed.

(** The comparison finds no difference exactly when both areas hold [n]
    bytes and agree on them. *)
Lemma bpf_memcmp_zero (n : nat) : forall s1 s2 : list ascii,
  bpf_memcmp s1 s2 n = 0 <->
  (n <= length s1)%nat /\ (n <= length s2)%nat /\ take n s1 = take n s2.
Proof.
  induction n as [|n IH]; intros s1 s2; cbn [bpf_memcmp].
  - split; [intros _|reflexivity]. repeat split; lia.
  - destruct s1 as [|c1 s1], s2 as [|c2 s2]; cbn [length take].
    + split; [discriminate|]. intros (H & _). lia.
    + split; [discriminate|]. intros (H & _). lia.
    + split; [discriminate|]. intros (_ & H & _). lia.
    + destruct (Z.eqb_spec (byte_of c1) (byte_of c2)) as [E|E].
      * apply byte_of_inj in E. subst c2. rewrite IH.
        split; intros (H1 & H2 & H3); repeat split; try lia; congruence.
      * split.
        -- intros D. exfalso. apply E. lia.
        -- intros (_ & _ & [= -> _]). contradiction.
Qed.

(** One keyword matches exactly when it fits in [buf_size] bytes and is a
    prefix of the buffer. *)
Lemma check_command_true (buf : list ascii) (command : string) (buf_size : Z) :
  check_command buf command buf_size = true <->
  Z.of_nat (String.length command) <= buf_size /\
  list_ascii_of_string command `prefix_of` buf.
Proof.
  unfold check_command, sizeof.
  replace (Z.of_nat (String.length command) + 1 - 1) with (Z.of_nat (String.length command))
    by lia.
  rewrite Nat2Z.id, andb_true_iff, Z.leb_le, negb_true_iff, truthy_false, bpf_memcmp_zero.
  rewrite <- length_list_ascii_of_string.
  set (cmd := list_ascii_of_string command).
  rewrite firstn_all.
  split.
  - intros (Hfit & Hlen & _ & Htake). split; [exact Hfit|].
    exists (drop (length cmd) buf).
    transitivity (take (length cmd) buf ++ drop (length cmd) buf);
      [symmetry; apply take_drop|]. rewrite Htake. reflexivity.
  - intros (Hfit & (rest & ->)). split; [exact Hfit|].
    rewrite length_app. repeat split; try lia.
    rewrite take_app_length. reflexivity.
Qed.

(** The seven checks, read as one search through [sql_commands]. *)
Lemma is_sql_command_some (buf : list ascii) (buf_size : Z) :
  is_sql_command buf buf_size = true <->
  exists command, In command sql_commands /\ check_command buf command buf_size = true.
Proof.
  rewrite <- existsb_exists. unfold is_sql_command, sql_commands. cbn [existsb].
  rewrite orb_false_r, !orb_assoc. reflexivity.
Qed.

Lemma prefix_within (cmd buf : list ascii) (k : nat) :
  (length cmd <= k)%nat -> cmd `prefix_of` buf <-> cmd `prefix_of` take k buf.
Proof.
  intros Hk. split.
  - intros (rest & ->). rewrite take_app_ge by exact Hk.
    eexists. reflexivity.
  - intros H. etrans; [exact H|]. apply prefix_take.
Qed.

Lemma sql_commands_length (command : string) :
  In command sql_commands -> 4 <= Z.of_nat (String.length command) <= 6.
Proof.
  unfold sql_commands. cbn [In].
  intros H. repeat (destruct H as [<-|H]); cbn; try lia; contradiction.
Qed.

(** X17.  The classifier accepts a buffer exactly when one of the seven
    keywords ALTER, CREATE, DELETE, DROP, INSERT, SELECT, UPDATE fits in
    [buf_size] bytes and is a prefix of the buffer (upper case only, no
    leading blanks). *)
Theorem is_sql_command_accepts_keyword_prefixes (buf : list ascii) (buf_size : Z) :
  is_sql_command buf buf_size = true <->
  exists command, In command sql_commands /\
    Z.of_nat (String.length command) <= buf_size /\
    list_ascii_of_string command `prefix_of` buf.
Proof.
  rewrite is_sql_command_some.
  split; intros (c & Hin & H); exists c; (split; [exact Hin|]).
  - apply check_command_true. exact H.
  - apply check_command_true in H. exact H.
Qed.

(** X18.  The classifier never looks past the bytes it was given: its
    answer depends on the first [min (buf_size, 6)] bytes of the buffer
    only, and with a size below 4 (an empty buffer, a short packet)
    nothing is accepted. *)
Theorem is_sql_command_reads_within_bounds (buf buf' : list ascii) (buf_size : Z) :
  (take (Z.to_nat (Z.min buf_size 6)) buf = take (Z.to_nat (Z.min buf_size 6)) buf' ->
   is_sql_command buf buf_size = is_sql_command buf' buf_size) /\
  (buf_size < 4 -> is_sql_command buf buf_size = false).
Proof.
  split.
  - intros Hsame. apply eq_true_iff_eq.
    rewrite !is_sql_command_some.
    assert (forall b1 b2 : list ascii,
              take (Z.to_nat (Z.min buf_size 6)) b1 = take (Z.to_nat (Z.min buf_size 6)) b2 ->
              (exists command, In command sql_commands /\
                 check_command b1 command buf_size = true) ->
              exists command, In command sql_commands /\
                 check_command b2 command buf_size = true) as Hdir.
    { intros b1 b2 E (c & Hin & Hc). exists c. split; [exact Hin|].
      apply check_command_true in Hc as [Hfit Hpre].
      apply check_command_true. split; [exact Hfit|].
      pose proof (sql_commands_length c Hin) as Hlen.
      assert (length (list_ascii_of_string c) <= Z.to_nat (Z.min buf_size 6))%nat as Hk.
      { rewrite length_list_ascii_of_string. lia. }
      apply (prefix_within _ _ _ Hk). rewrite <- E. apply (proj1 (prefix_within _ _ _ Hk)).
      exact Hpre. }
    split; apply Hdir; [exact Hsame|symmetry; exact Hsame].
  - intros Hshort. apply not_true_is_false.
    rewrite is_sql_command_some.
    intros (c & Hin & Hc). apply check_command_true in Hc as [Hfit _].
    pose proof (sql_commands_length c Hin). lia.
Qed.

(** X19.  Acceptance is stable under more data: a buffer that is accepted
    stays accepted when more bytes follow it and when a larger size is
    passed. *)
Theorem is_sql_command_is_monotone (buf more : list ascii) (buf_size buf_size' : Z) :
  is_sql_command buf buf_size = true -> buf_size <= buf_size' ->
  is_sql_command (buf ++ more) buf_size' = true.
Proof.
  rewrite !is_sql_command_some.
  intros (c & Hin & Hc) Hle. exists c. split; [exact Hin|].
  apply check_command_true in Hc as [Hfit Hpre].
  apply check_command_true. split; [lia|].
  apply prefix_app_r. exact Hpre.
Qed.

End SqlFacts.

(** ** The further properties on concrete inputs *)

Module MoreExamples.
Import Int Tracer Sock SockRun Bpf Kafka KafkaRun Sql Sample SampleRun.
Import IntFacts SockFacts KafkaFacts SockRunFacts KafkaRunFacts SqlFacts.

Ltac concrete := vm_compute; intuition congruence.

Lemma wf_sk_v6_again : wf_sock sk_v6.
Proof. concrete. Qed.

Lemma wf_fl4_again : wf_flowi4 fl4_sample.
Proof. concrete. Qed.

Lemma wf_fl6_again : wf_flowi6 fl6_sample.
Proof. concrete. Qed.

(** X1 on a socket that exposes its source address and port through the
    secondary fields only. *)
Lemma ipv4_fields_follow_the_fallback_order_witness :
  sk_rcv_saddr sk_v4_fallback = 0 /\ sk_num sk_v4_fallback = 0 /\
  snd (read_conn_tuple (hd := headers) sk_v4_fallback pid_tgid_sample 1) =
  ConnTuple 0 ip_10_0_0_1 0 ip_10_0_0_2 40000 9092 4026531840 4242 1.
Proof.
  split; [reflexivity|]. split; [reflexivity|].
  rewrite (ipv4_fields_follow_the_fallback_order (hd := headers) sk_v4_fallback
             pid_tgid_sample 1 ltac:(reflexivity) ltac:(vm_compute; reflexivity)).
  vm_compute. reflexivity.
Defined.

(** X2 on the socket [2001:db8::1] -> [2001:db8::2]. *)
Lemma ipv6_address_is_read_back_witness :
  in6_of_words
    (saddr_h (snd (read_conn_tuple (hd := headers) sk_v6 pid_tgid_sample 1)))
    (saddr_l (snd (read_conn_tuple (hd := headers) sk_v6 pid_tgid_sample 1))) = v6_db8_1 /\
  in6_of_words
    (daddr_h (snd (read_conn_tuple (hd := headers) sk_v6 pid_tgid_sample 1)))
    (daddr_l (snd (read_conn_tuple (hd := headers) sk_v6 pid_tgid_sample 1))) = v6_db8_2.
Proof.
  exact (ipv6_address_is_read_back (hd := headers) sk_v6 pid_tgid_sample 1
           wf_sk_v6_again ltac:(reflexivity) ltac:(vm_compute; reflexivity)
           ltac:(vm_compute; reflexivity)).
Defined.

(** X3 on the IPv4 socket. *)
Lemma success_means_a_resolved_tuple_witness :
  fst (read_conn_tuple_partial (hd := headers) zero_tuple sk_v4 pid_tgid_sample 1) = 1 /\
  sport (snd (read_conn_tuple_partial (hd := headers) zero_tuple sk_v4 pid_tgid_sample 1)) <> 0 /\
  dport (snd (read_conn_tuple_partial (hd := headers) zero_tuple sk_v4 pid_tgid_sample 1)) <> 0.
Proof.
  assert (fst (read_conn_tuple_partial (hd := headers) zero_tuple sk_v4 pid_tgid_sample 1) = 1)
    as Hok by (vm_compute; reflexivity).
  destruct (success_means_a_resolved_tuple (hd := headers) zero_tuple sk_v4 pid_tgid_sample 1
              Hok) as (Hsp & Hdp & _).
  repeat split_and; assumption.
Defined.

(** X4 on the two route descriptors, with IPv6 inspection disabled. *)
Lemma route_descriptor_extraction_verdict_witness :
  is_ipv6_enabled (hd := headers_no_ipv6) = false /\
  fst (read_conn_tuple_partial_from_flowi4 zero_tuple fl4_sample pid_tgid_sample 1) = 1 /\
  fst (read_conn_tuple_partial_from_flowi6 (hd := headers_no_ipv6) zero_tuple fl6_sample
         pid_tgid_sample 1) = 1 /\
  dport (snd (read_conn_tuple_partial_from_flowi6 (hd := headers_no_ipv6) zero_tuple fl6_sample
                pid_tgid_sample 1)) = bpf_ntohs be_9092.
Proof.
  destruct (route_descriptor_extraction_verdict (hd := headers_no_ipv6) zero_tuple
              fl4_sample fl6_sample pid_tgid_sample 1 wf_fl6_again)
    as ((H4 & _) & (H6 & _ & _ & Hports)).
  assert (fst (read_conn_tuple_partial_from_flowi6 (hd := headers_no_ipv6) zero_tuple
                 fl6_sample pid_tgid_sample 1) = 1) as Hok6 by (apply H6; concrete).
  split; [vm_compute; reflexivity|]. split; [apply H4; concrete|].
  split; [exact Hok6|]. apply (Hports Hok6).
Defined.

(** X5 on the IPv4 socket and the route descriptor of the same flow. *)
Lemma ipv4_entry_points_agree_witness :
  sock_matches_flowi4 sk_v4 fl4_sample /\
  fst (read_conn_tuple (hd := headers) sk_v4 pid_tgid_sample 1) = 1 /\
  same_endpoints
    (snd (read_conn_tuple (hd := headers) sk_v4 pid_tgid_sample 1))
    (snd (read_conn_tuple_partial_from_flowi4 zero_tuple fl4_sample pid_tgid_sample 1)).
Proof.
  assert (sock_matches_flowi4 sk_v4 fl4_sample) as Hm by concrete.
  destruct (ipv4_entry_points_agree (hd := headers) sk_v4 fl4_sample pid_tgid_sample 1
              wf_fl4_again Hm) as (_ & Hsame & _).
  assert (fst (read_conn_tuple (hd := headers) sk_v4 pid_tgid_sample 1) = 1) as Hok
    by (vm_compute; reflexivity).
  split; [exact Hm|]. split; [exact Hok|]. exact (Hsame Hok).
Defined.

(** X7 and X8 on two workers: CPU 0 has a busy day, CPU 1 is left alone
    and no page passes 15 records. *)
Lemma worker_touches_only_its_own_pages_witness :
  kafka_batch_state (run_ops (hd := headers) 0 busy_day two_workers) !! 1 =
    Some (KafkaBatchState 5 3) /\
  kafka_batches (run_ops (hd := headers) 0 busy_day two_workers) !! (1, 0) =
    Some (KafkaBatch 3 15 (records 15)) /\
  length (kafka_batch_events (run_ops (hd := headers) 0 busy_day two_workers)) = 1%nat.
Proof.
  destruct (worker_touches_only_its_own_pages (hd := headers) 0 busy_day two_workers
              ltac:(vm_compute; reflexivity)) as [Hs Hb].
  split; [|split].
  - rewrite Hs by discriminate. vm_compute. reflexivity.
  - rewrite Hb by (left; cbn; discriminate). vm_compute. reflexivity.
  - vm_compute. reflexivity.
Defined.

Lemma pages_within_capacity_two_workers : pages_within_capacity (hd := headers) two_workers.
Proof.
  intros key b. unfold two_workers, worker_empty. cbn [kafka_batches].
  rewrite !lookup_insert_Some, lookup_empty.
  intros H. decompose [and or] H; subst; try discriminate; vm_compute;
    (split; [split; discriminate|reflexivity]).
Qed.

Lemma pages_stay_within_capacity_witness :
  pages_within_capacity (hd := headers) two_workers /\
  pages_within_capacity (hd := headers) (run_ops (hd := headers) 0 busy_day two_workers).
Proof.
  split; [exact pages_within_capacity_two_workers|].
  exact (pages_stay_within_capacity (hd := headers) 0 busy_day two_workers
           pages_within_capacity_two_workers).
Defined.

(** X9 on the busy day of CPU 0: 17 enqueues, two flushes. *)
Lemma flush_cursor_never_overtakes_witness :
  kafka_batch_state two_workers !! 0 = Some (KafkaBatchState 0 0) /\
  kafka_batch_state (run_ops (hd := headers) 0 busy_day two_workers) !! 0 =
    Some (KafkaBatchState 1 1) /\
  exists st',
    kafka_batch_state (run_ops (hd := headers) 0 busy_day two_workers) !! 0 = Some st' /\
    0 <= idx_to_flush st' <= idx st'.
Proof.
  split; [vm_compute; reflexivity|]. split; [vm_compute; reflexivity|].
  destruct (flush_cursor_never_overtakes (hd := headers) 0 busy_day two_workers
              (KafkaBatchState 0 0) ltac:(vm_compute; reflexivity)
              ltac:(cbn; lia) ltac:(vm_compute; reflexivity))
    as (st' & Hst' & Hord & _).
  exists st'. split; assumption.
Defined.

(** X11 on the empty worker: 15 records, then a flush whose emit fails. *)
Lemma full_page_is_exported_as_enqueued_witness :
  kafka_batch_events
    (kafka_flush_batch (hd := headers) 0 (-2)
       (enqueue_all (hd := headers) 0 (records 15) worker_empty)) =
  [PerfOutput 0 (KafkaBatch 0 15 (records 15)) (-2)] /\
  kafka_batch_state
    (kafka_flush_batch (hd := headers) 0 (-2)
       (enqueue_all (hd := headers) 0 (records 15) worker_empty)) !! 0 =
  Some (KafkaBatchState 1 1).
Proof.
  destruct (full_page_is_exported_as_enqueued (hd := headers) 0 (-2) (records 15)
              worker_empty (KafkaBatchState 0 0) empty_page
              ltac:(vm_compute; reflexivity) ltac:(reflexivity)
              ltac:(vm_compute; reflexivity) ltac:(reflexivity)
              ltac:(vm_compute; reflexivity) ltac:(vm_compute; congruence)
              ltac:(vm_compute; reflexivity)) as [-> _].
  split; vm_compute; reflexivity.
Defined.

(** X12 on the empty worker: 3 records, then a flush. *)
Lemma partial_page_is_not_exported_witness :
  kafka_flush_batch (hd := headers) 0 0
    (enqueue_all (hd := headers) 0 (records 3) worker_empty) =
  enqueue_all (hd := headers) 0 (records 3) worker_empty /\
  kafka_batch_events (enqueue_all (hd := headers) 0 (records 3) worker_empty) = [].
Proof.
  destruct (partial_page_is_not_exported (hd := headers) 0 0 (records 3) worker_empty
              (KafkaBatchState 0 0) empty_page
              ltac:(vm_compute; reflexivity) ltac:(reflexivity)
              ltac:(vm_compute; reflexivity) ltac:(vm_compute; congruence)
              ltac:(vm_compute; reflexivity) ltac:(vm_compute; reflexivity))
    as (Hflush & Hevents & _).
  split; [exact Hflush|exact Hevents].
Defined.

Lemma worker_empty_pages (j : Z) :
  0 <= j < 3 ->
  exists b, kafka_batches worker_empty !! (0, j) = Some b /\ pos b = 0 /\
            length (txs b) = 15%nat.
Proof.
  intros Hj. assert (j = 0 \/ j = 1 \/ j = 2) as [->|[->| ->]] by lia;
    exists empty_page; repeat split; vm_compute; reflexivity.
Qed.

(** X13 on the empty worker: 45 records fill the three pages, the 46th and
    47th are dropped. *)
Lemma enqueue_drops_once_every_page_is_full_witness :
  kafka_batch_state (enqueue_all (hd := headers) 0 (records 45) worker_empty) !! 0 =
    Some (KafkaBatchState 3 0) /\
  enqueue_all (hd := headers) 0 [record 46; record 47]
    (enqueue_all (hd := headers) 0 (records 45) worker_empty) =
  enqueue_all (hd := headers) 0 (records 45) worker_empty.
Proof.
  destruct (enqueue_drops_once_every_page_is_full (hd := headers) 0 0 (records 45)
              worker_empty ltac:(vm_compute; congruence)
              ltac:(split; vm_compute; congruence || reflexivity)
              ltac:(vm_compute; reflexivity) ltac:(vm_compute; reflexivity)
              worker_empty_pages) as (Hst & _ & Hdrop).
  split; [exact Hst|apply Hdrop].
Defined.

(** X16 on a flow without state: the second fetch, with other progress in
    hand, returns what the first returned. *)
Lemma fetch_state_is_idempotent_witness :
  kafka_fetch_state (hd := headers) (record 5)
    (snd (kafka_fetch_state (hd := headers) (record 1) ∅)) =
  kafka_fetch_state (hd := headers) (record 1) ∅ /\
  fst (kafka_fetch_state (hd := headers) (record 1) ∅) = Some (record 1).
Proof.
  split; [|vm_compute; reflexivity].
  exact (fetch_state_is_idempotent (hd := headers) (record 1) (record 5) ∅
           ltac:(reflexivity)).
Defined.

(** X19 on the first six bytes of a query, then on all of it; an HTTP
    request is not accepted. *)
Lemma is_sql_command_is_monotone_witness :
  is_sql_command (list_ascii_of_string "SELECT") 6 = true /\
  is_sql_command select_query 15 = true /\
  is_sql_command http_request 14 = false.
Proof.
  assert (is_sql_command (list_ascii_of_string "SELECT") 6 = true) as H6
    by (vm_compute; reflexivity).
  split; [exact H6|]. split; [|vm_compute; reflexivity].
  exact (is_sql_command_is_monotone (list_ascii_of_string "SELECT")
           (list_ascii_of_string " * FROM t") 6 15 H6 ltac:(lia)).
Defined.

End MoreExamples.
